(** * Flow-based decode head and evaluation loops of mmseg

    A shallow embedding of
    - [mmseg/models/decode_heads/nf_bll_decode_head.py]
      (classes [NormalizingFlowDensity] and [NfBllBaseDecodeHead]) and
    - [mmseg/apis/test.py] ([single_gpu_test], [multi_gpu_test]).

    Tensors are kept abstract: the numeric backend (torch, pyro) is an
    interface, so every statement below holds for any implementation of
    the arithmetic, floating point included.  Python exceptions are the
    [Raise] outcome of a call; side effects are an explicit world. *)

From stdpp Require Import gmap strings list.
From Stdlib Require Import ZArith Lia.

Open Scope string_scope.
Open Scope list_scope.

(** ** Python outcomes *)

Inductive exn : Type :=
  | AssertionError (msg : string)
  | NotImplementedError
  | TypeError (msg : string)
  | IndexError
  | AttributeError (attr : string)
  | RuntimeError (msg : string)
  | ValueError (msg : string)
  | KeyError (key : string).

Inductive result (A : Type) : Type :=
  | Ok (a : A)
  | Raise (e : exn).
Arguments Ok {A} a.
Arguments Raise {A} e.

Definition is_ok {A} (r : result A) : bool :=
  match r with Ok _ => true | Raise _ => false end.

Definition rbind {A B} (r : result A) (f : A -> result B) : result B :=
  match r with Ok a => f a | Raise e => Raise e end.

(** ** Calls with effects

    A call runs in a state [S] (what it can change outside its return
    value) and either returns or raises; what it changed before raising
    stays changed. *)

Definition M (S A : Type) : Type := S -> S * result A.

Definition mret {S A} (a : A) : M S A := fun s => (s, Ok a).

Definition mbind {S A B} (m : M S A) (f : A -> M S B) : M S B :=
  fun s => match m s with
           | (s', Ok a) => f a s'
           | (s', Raise e) => (s', Raise e)
           end.

Definition mraise {S A} (e : exn) : M S A := fun s => (s, Raise e).

Definition modify {S} (f : S -> S) : M S unit := fun s => (f s, Ok tt).

Definition gets {S A} (f : S -> A) : M S A := fun s => (s, Ok (f s)).

(** [assert cond, msg]. *)
Definition py_assert {S} (cond : bool) (msg : string) : M S unit :=
  if cond then mret tt else mraise (AssertionError msg).

Notation "'let*' x ':=' m 'in' k" := (mbind m (fun x => k))
  (at level 10, x pattern, m at level 100, k at level 200).
Notation "'do' m 'then' k" := (mbind m (fun _ => k))
  (at level 10, m at level 100, k at level 200).

(** [for x in xs: body], the loop variables threaded through [acc]. *)
Fixpoint for_each {S A B} (xs : list A) (acc : B) (body : B -> A -> M S B) : M S B :=
  match xs with
  | [] => mret acc
  | x :: xs' => let* acc' := body acc x in for_each xs' acc' body
  end.

Lemma mbind_ok {S A B} (m : M S A) (f : A -> M S B) (s s' : S) (a : A) :
  m s = (s', Ok a) -> mbind m f s = f a s'.
Proof. intros Hm. unfold mbind. by rewrite Hm. Qed.

Lemma mbind_raise {S A B} (m : M S A) (f : A -> M S B) (s s' : S) (e : exn) :
  m s = (s', Raise e) -> mbind m f s = (s', Raise e).
Proof. intros Hm. unfold mbind. by rewrite Hm. Qed.

(** ** The numeric backend

    [R] is the element type of a tensor, [Acc] the type of the values the
    flow accumulates in [sum_log_jacobians] (the Python integer [0] at the
    start, per-sample tensors afterwards).  No law is assumed of [acc_add]:
    it stands for whatever [+] computes.  [is_tensor] tells the tensors
    among these values from the Python numbers, which have none of the
    methods of a tensor; the integer [0] is a number. *)

Class Backend : Type := {
  R : Type;
  r0 : R;
  r1 : R;
  Acc : Type;
  py_zero : Acc;
  acc_add : Acc -> Acc -> Acc;
  is_tensor : Acc -> bool;
  py_zero_number : is_tensor py_zero = false;
}.

(** A tensor with its shape; [reshape(-1)] is [t_data]. *)
Record tensor `{Backend} : Type := mk_tensor {
  t_shape : list nat;
  t_data : list R;
}.
Arguments mk_tensor {_} t_shape t_data.

Definition numel `{Backend} (t : tensor) : nat := length (t_data t).

Definition shape_numel (s : list nat) : nat := foldr Nat.mul 1 s.

(** [torch.zeros(n)] and [torch.eye(n)]. *)
Definition zeros `{Backend} (n : nat) : list R := replicate n r0.

Definition eye `{Backend} (n : nat) : list (list R) :=
  map (fun i => map (fun j => if Nat.eqb i j then r1 else r0) (seq 0 n)) (seq 0 n).

(** ** NormalizingFlowDensity *)

Module NormalizingFlowDensity.
Section Density.
Context `{Backend}.

(** A batch of parameter vectors, one row per sample. *)
Definition batch : Type := list (list R).

(** A pyro transform: the call and [log_abs_det_jacobian]. *)
Record transform : Type := mk_transform {
  tf_call : batch -> batch;
  log_abs_det_jacobian : batch -> batch -> Acc;
}.

(** [tdist.MultivariateNormal(loc, covariance_matrix)]. *)
Record MultivariateNormal : Type := mk_mvn {
  loc : list R;
  covariance_matrix : list (list R);
}.

(** The library side of the distribution: scoring, and sampling from a
    generator state. *)
Variable mvn_log_prob : MultivariateNormal -> batch -> Acc.
Variable Rng : Type.
Variable mvn_sample : MultivariateNormal -> nat -> Rng -> batch.

(** The constructors [Radial(dim)], [Planar(dim)] and
    [affine_autoregressive(dim, hidden_dims=[128, 128])] of pyro; the
    second argument is the position in the chain (each call makes a
    fresh, separately initialised module).  A constructor may refuse its
    arguments and raise (pyro's autoregressive network raises
    [ValueError] for a hidden dimension below the input dimension). *)
Variable Radial : nat -> nat -> result transform.
Variable Planar : nat -> nat -> result transform.
Variable affine_autoregressive : nat -> nat -> result transform.

(** The attributes of an instance.  [mean] is not set by [__init__]; it
    only exists once somebody assigns it. *)
Record t : Type := mk {
  dim : nat;
  flow_length : nat;
  flow_type : string;
  z0_mean : list R;
  z0_cov : list (list R);
  transforms : list transform;
  mean : option (list R);
}.

(** [nn.Sequential] over [c(dim) for _ in range(flow_length)]: the
    constructor is called once per position, in order, and the first
    call that raises ends the construction. *)
Fixpoint build_chain (c : nat -> result transform) (positions : list nat)
  : result (list transform) :=
  match positions with
  | [] => Ok []
  | i :: rest =>
      rbind (c i) (fun tr =>
      rbind (build_chain c rest) (fun trs => Ok (tr :: trs)))
  end.

Definition init (dim flow_length : nat) (flow_type : string) : result t :=
  let build (c : nat -> nat -> result transform) :=
    rbind (build_chain (c dim) (seq 0 flow_length)) (fun trs =>
    Ok {| dim := dim; flow_length := flow_length; flow_type := flow_type;
          z0_mean := zeros dim; z0_cov := eye dim;
          transforms := trs;
          mean := None |}) in
  if String.eqb flow_type "radial_flow" then build Radial
  else if String.eqb flow_type "planar_flow" then build Planar
  else if String.eqb flow_type "iaf_flow" then build affine_autoregressive
  else Raise NotImplementedError.

(** The loop of [forward], with its two loop variables. *)
Fixpoint forward_loop (ts : list transform) (z : batch) (sum_log_jacobians : Acc)
  : batch * Acc :=
  match ts with
  | [] => (z, sum_log_jacobians)
  | transform :: ts' =>
      let z_next := tf_call transform z in
      forward_loop ts' z_next
        (acc_add sum_log_jacobians (log_abs_det_jacobian transform z z_next))
  end.

Definition forward (self : t) (z : batch) : batch * Acc :=
  forward_loop (transforms self) z py_zero.

(** The distribution both [log_prob] and [sample_base] build. *)
Definition base_dist (self : t) : MultivariateNormal :=
  mk_mvn (z0_mean self) (z0_cov self).

Definition log_prob (self : t) (x : batch) : Acc :=
  let '(z, sum_log_jacobians) := forward self x in
  let log_prob_z := mvn_log_prob (base_dist self) z in
  acc_add log_prob_z sum_log_jacobians.

Definition sample_base (self : t) (n : nat) (g : Rng) : batch :=
  mvn_sample (base_dist self) n g.

(** *** The change of variables, stated without the loop *)

(** The vector the chain maps [x] to. *)
Definition chain_final (ts : list transform) (x : batch) : batch :=
  foldl (fun z tr => tf_call tr z) x ts.

(** The log-Jacobian term of each transform, at the point the chain
    reaches it. *)
Fixpoint jacobian_terms (ts : list transform) (x : batch) : list Acc :=
  match ts with
  | [] => []
  | tr :: ts' =>
      log_abs_det_jacobian tr x (tf_call tr x) :: jacobian_terms ts' (tf_call tr x)
  end.

(** Their sum, accumulated from the left starting at [0]. *)
Definition sum_log_jacobian (ts : list transform) (x : batch) : Acc :=
  foldl acc_add py_zero (jacobian_terms ts x).

Lemma forward_loop_spec (ts : list transform) (z : batch) (s : Acc) :
  forward_loop ts z s
  = (chain_final ts z, foldl acc_add s (jacobian_terms ts z)).
Proof.
  revert z s. induction ts as [|tr ts IH]; intros z s; simpl.
  - reflexivity.
  - rewrite IH. reflexivity.
Qed.

Lemma build_chain_ok (c : nat -> result transform) (positions : list nat)
    (trs : list transform) :
  build_chain c positions = Ok trs ->
  Forall2 (fun i tr => c i = Ok tr) positions trs.
Proof.
  revert trs. induction positions as [|i rest IH]; intros trs; simpl.
  - intros [= <-]. constructor.
  - destruct (c i) as [tr|e] eqn:Hc; simpl; [|done].
    destruct (build_chain c rest) as [trs'|e]; simpl; [|done].
    intros [= <-]. constructor; [done|]. by apply IH.
Qed.

Lemma build_chain_raise (c : nat -> result transform) (positions : list nat)
    (e : exn) :
  build_chain c positions = Raise e ->
  exists before i after,
    positions = before ++ i :: after
    /\ Forall (fun j => is_ok (c j) = true) before
    /\ c i = Raise e.
Proof.
  induction positions as [|i rest IH]; simpl; [done|].
  destruct (c i) as [tr|e'] eqn:Hc; simpl.
  - destruct (build_chain c rest) as [trs'|e'']; simpl; [done|].
    intros [= ->]. destruct (IH eq_refl) as (before & k & after & -> & Hb & Hk).
    exists (i :: before), k, after. split; [done|]. split; [|done].
    constructor; [by rewrite Hc|done].
  - intros [= ->]. by exists [], i, rest.
Qed.

(** The constructor [__init__] uses for a [flow_type], if it knows it. *)
Definition constructor_of (flow_type : string)
  : option (nat -> nat -> result transform) :=
  if String.eqb flow_type "radial_flow" then Some Radial
  else if String.eqb flow_type "planar_flow" then Some Planar
  else if String.eqb flow_type "iaf_flow" then Some affine_autoregressive
  else None.

Lemma init_cases (d n : nat) (ft : string) :
  init d n ft
  = match constructor_of ft with
    | Some c =>
        rbind (build_chain (c d) (seq 0 n)) (fun trs =>
        Ok (mk d n ft (zeros d) (eye d) trs None))
    | None => Raise NotImplementedError
    end.
Proof. unfold init, constructor_of. by repeat case_match. Qed.

Lemma init_transforms_length (d n : nat) (ft : string) (self : t) :
  init d n ft = Ok self -> length (transforms self) = n.
Proof.
  rewrite init_cases. destruct (constructor_of ft) as [c|]; [|done].
  destruct (build_chain (c d) (seq 0 n)) as [trs|e] eqn:Hb; simpl; [|done].
  intros [= <-]. simpl. apply build_chain_ok, Forall2_length in Hb.
  by rewrite length_seq in Hb.
Qed.

Lemma init_ok_fields (d n : nat) (ft : string) (self : t) :
  init d n ft = Ok self ->
  dim self = d /\ z0_mean self = zeros d /\ z0_cov self = eye d
  /\ mean self = None /\ length (transforms self) = n.
Proof.
  intros Hi. pose proof (init_transforms_length _ _ _ _ Hi) as Hlen.
  rewrite init_cases in Hi. destruct (constructor_of ft) as [c|]; [|done].
  destruct (build_chain (c d) (seq 0 n)) as [trs|e]; simpl in Hi; [|done].
  injection Hi as <-. by simpl in *.
Qed.

(** C1: for every batch [x] and every chain of transforms, [log_prob x]
    is the log-density, under the base Gaussian, of the vector [forward]
    returns, plus the sum of the log-absolute-Jacobian-determinants of the
    transforms along the chain; the vector is the image of [x] under the
    chain and the sum is the one [forward] returns.  The identity is exact
    for any arithmetic, so it holds in floating point with no tolerance
    needed. *)
Theorem log_prob_change_of_variables (self : t) (x : batch) :
  log_prob self x
  = acc_add (mvn_log_prob (base_dist self) (forward self x).1)
            (sum_log_jacobian (transforms self) x)
  /\ (forward self x).1 = chain_final (transforms self) x
  /\ (forward self x).2 = sum_log_jacobian (transforms self) x.
Proof.
  unfold log_prob, forward, sum_log_jacobian.
  rewrite forward_loop_spec. simpl. auto.
Qed.

(** *** Construction and composition *)

(** [flow_type] is one of the three the constructor knows. *)
Definition known_flow (flow_type : string) : bool :=
  bool_decide (flow_type ∈ ["radial_flow"; "planar_flow"; "iaf_flow"]).

Lemma eye_lookup (n i j : nat) :
  i < n -> j < n ->
  eye n !! i ≫= (.!! j) = Some (if Nat.eqb i j then r1 else r0).
Proof.
  intros Hi Hj. unfold eye.
  rewrite list_lookup_fmap, lookup_seq_lt by done. simpl.
  by rewrite list_lookup_fmap, lookup_seq_lt.
Qed.

Lemma known_flow_constructor (ft : string) :
  known_flow ft = true <-> is_Some (constructor_of ft).
Proof.
  unfold known_flow, constructor_of.
  destruct (String.eqb_spec ft "radial_flow") as [->|Hr]; [by split; eauto|].
  destruct (String.eqb_spec ft "planar_flow") as [->|Hp]; [by split; eauto|].
  destruct (String.eqb_spec ft "iaf_flow") as [->|Hi]; [by split; eauto|].
  split; [|by intros [? [=]]].
  intros Hin. apply bool_decide_eq_true in Hin.
  repeat (apply elem_of_cons in Hin as [->|Hin]; [done|]).
  by apply elem_of_nil in Hin.
Qed.

(** X1: the constructor of [NormalizingFlowDensity] raises
    [NotImplementedError] for a [flow_type] other than [radial_flow],
    [planar_flow] and [iaf_flow].  For these three it calls the
    constructor of the type once per position of the chain: when every
    call returns, the object holds the [flow_length] transforms in the
    order they were made, a base mean of [dim] zeros, a [dim x dim]
    identity covariance, and no attribute [mean]; when a call raises,
    the first such error is the error of [__init__]. *)
Theorem init_known_flow_types (d n : nat) (ft : string) :
  match init d n ft with
  | Ok self =>
      exists c,
        constructor_of ft = Some c
        /\ dim self = d /\ flow_length self = n /\ flow_type self = ft
        /\ length (transforms self) = n
        /\ (forall i, i < n -> exists tr,
              c d i = Ok tr /\ transforms self !! i = Some tr)
        /\ z0_mean self = replicate d r0
        /\ length (z0_cov self) = d
        /\ (forall i j, i < d -> j < d ->
              z0_cov self !! i ≫= (.!! j)
              = Some (if Nat.eqb i j then r1 else r0))
        /\ mean self = None
  | Raise e =>
      match constructor_of ft with
      | None => e = NotImplementedError
      | Some c =>
          exists i, i < n /\ c d i = Raise e
            /\ forall j, j < i -> is_ok (c d j) = true
      end
  end.
Proof.
  rewrite init_cases. destruct (constructor_of ft) as [c|]; [|done].
  destruct (build_chain (c d) (seq 0 n)) as [trs|e] eqn:Hb; simpl.
  - apply build_chain_ok in Hb.
    pose proof (Forall2_length _ _ _ Hb) as Hlen. rewrite length_seq in Hlen.
    exists c. repeat split; try done.
    + intros i Hi.
      destruct (Forall2_lookup_l _ _ _ i i Hb) as (tr & Htr & Hc);
        [by apply lookup_seq_lt|].
      by exists tr.
    + unfold eye. by rewrite length_map, length_seq.
    + intros i j. apply eye_lookup.
  - apply build_chain_raise in Hb as (before & i & after & Hseq & Hb & Hi).
    assert (Hlen : length before + S (length after) = n).
    { apply (f_equal length) in Hseq.
      rewrite length_seq, length_app in Hseq. simpl in Hseq. lia. }
    assert (Hat : forall j, j < n -> seq 0 n !! j = Some j)
      by (intros j Hj; by apply lookup_seq_lt).
    assert (Hi' : i = length before).
    { specialize (Hat (length before)). rewrite Hseq in Hat.
      rewrite list_lookup_middle in Hat by done.
      assert (Some i = Some (length before)) by (apply Hat; lia). congruence. }
    exists i. split; [lia|]. split; [done|].
    intros j Hj. rewrite Forall_lookup in Hb.
    apply (Hb j j). specialize (Hat j). rewrite Hseq in Hat.
    rewrite lookup_app_l in Hat by lia. apply Hat. lia.
Qed.

Lemma forward_loop_app (ts1 ts2 : list transform) (z : batch) (s : Acc) :
  forward_loop (ts1 ++ ts2) z s
  = forward_loop ts2 (forward_loop ts1 z s).1 (forward_loop ts1 z s).2.
Proof.
  revert z s. induction ts1 as [|tr ts1 IH]; intros z s; simpl; [done|].
  apply IH.
Qed.

(** X2: [forward] composes along the chain: for a density whose chain
    is the chain of [a] followed by the chain of [b], the vector
    returned is [b]'s image of [a]'s image of [z], and the accumulated
    sum is [a]'s sum with the log-Jacobians of [b] (taken along [b]'s
    part of the path) added on, one after the other. *)
Theorem forward_of_joined_chains (a b ab : t) (z : batch) :
  transforms ab = transforms a ++ transforms b ->
  (forward ab z).1 = (forward b (forward a z).1).1
  /\ (forward ab z).2
     = foldl acc_add (forward a z).2
         (jacobian_terms (transforms b) (forward a z).1).
Proof.
  intros Hab. unfold forward. rewrite Hab, forward_loop_app.
  rewrite !forward_loop_spec. simpl. done.
Qed.

End Density.
End NormalizingFlowDensity.

(** ** Python slices of a flat tensor *)

(** [l[:n]] for [n >= 0]. *)
Definition slice_to {A} (n : nat) (l : list A) : list A := take n l.

(** [l[-n:]] for [n >= 0]: the last [n] elements, and the whole list when
    [n] is [0] (as [-0] is [0]) or exceeds the length. *)
Definition slice_last {A} (n : nat) (l : list A) : list A :=
  if Nat.eqb n 0 then l else drop (length l - n) l.

(** [data.reshape(shape)]: torch refuses a shape of another size. *)
Definition reshape `{Backend} (data : list R) (shape : list nat) : result tensor :=
  if Nat.eqb (length data) (shape_numel shape)
  then Ok (mk_tensor shape data)
  else Raise (RuntimeError "shape is invalid for input size").

(** ** Selecting the input features of the head

    [_init_inputs] and [_transform_inputs] of [NfBllBaseDecodeHead]. *)

Module HeadInputs.

(** What [in_channels] and [in_index] can be: an [int], a list or tuple
    of [int]s, or something else. *)
Inductive py_ints : Type :=
  | PyInt (n : Z)
  | PySeq (l : list Z)
  | PyOther.

Record t : Type := mk {
  input_transform : option string;
  in_index : py_ints;
  in_channels : py_ints;
}.

(** [isinstance(x, (list, tuple))] and [isinstance(x, int)]. *)
Definition is_seq (x : py_ints) : bool :=
  match x with PySeq _ => true | _ => false end.

Definition is_int (x : py_ints) : bool :=
  match x with PyInt _ => true | _ => false end.

Definition seq_of (x : py_ints) : list Z :=
  match x with PySeq l => l | _ => [] end.

Definition py_bool_assert (cond : bool) : result unit :=
  if cond then Ok tt else Raise (AssertionError "").

(** [sum(in_channels)]. *)
Definition py_sum (l : list Z) : Z := foldl Z.add 0%Z l.

Definition _init_inputs (in_channels in_index : py_ints)
    (input_transform : option string) : result t :=
  rbind (match input_transform with
         | Some tr =>
             py_bool_assert
               (bool_decide (tr ∈ ["resize_concat"; "multiple_select"]))
         | None => Ok tt
         end) (fun _ =>
  match input_transform with
  | Some tr =>
      rbind (py_bool_assert (is_seq in_channels)) (fun _ =>
      rbind (py_bool_assert (is_seq in_index)) (fun _ =>
      rbind (py_bool_assert
               (Nat.eqb (length (seq_of in_channels))
                        (length (seq_of in_index)))) (fun _ =>
      if String.eqb tr "resize_concat"
      then Ok (mk input_transform in_index (PyInt (py_sum (seq_of in_channels))))
      else Ok (mk input_transform in_index in_channels))))
  | None =>
      rbind (py_bool_assert (is_int in_channels)) (fun _ =>
      rbind (py_bool_assert (is_int in_index)) (fun _ =>
      Ok (mk input_transform in_index in_channels)))
  end).

(** [l[i]] for a Python list and an [int], negative indices counting
    from the end. *)
Definition py_index {A} (l : list A) (i : Z) : result A :=
  let n := Z.of_nat (length l) in
  let k := if (i <? 0)%Z then (n + i)%Z else i in
  if (k <? 0)%Z then Raise IndexError
  else match l !! Z.to_nat k with
       | Some x => Ok x
       | None => Raise IndexError
       end.

(** [[inputs[i] for i in in_index]]. *)
Fixpoint select {A} (inputs : list A) (indices : list Z) : result (list A) :=
  match indices with
  | [] => Ok []
  | i :: rest =>
      rbind (py_index inputs i) (fun x =>
      rbind (select inputs rest) (fun xs => Ok (x :: xs)))
  end.

Section Transform.

(** A feature map; [resize] to the size of another one (bilinear, with
    the head's [align_corners]), and [torch.cat] along the channels,
    which needs a list that is not empty. *)
Variable FeatMap : Type.
Variable resize : FeatMap -> FeatMap -> bool -> FeatMap.
Variable torch_cat : list FeatMap -> FeatMap.

(** What [_transform_inputs] returns: one feature map or a list. *)
Inductive selected : Type :=
  | One (x : FeatMap)
  | Many (xs : list FeatMap).

Definition not_iterable : exn := TypeError "'int' object is not iterable".
Definition not_an_index : exn :=
  TypeError "list indices must be integers or slices".

(** [for i in self.in_index]: only a sequence can be gone through. *)
Definition indices_of (x : py_ints) : result (list Z) :=
  match x with
  | PySeq l => Ok l
  | _ => Raise not_iterable
  end.

Definition _transform_inputs (self : t) (align_corners : bool)
    (inputs : list FeatMap) : result selected :=
  if bool_decide (input_transform self = Some "resize_concat") then
    rbind (indices_of (in_index self)) (fun indices =>
    rbind (select inputs indices) (fun inputs =>
    let upsampled_inputs :=
      match inputs with
      | [] => []
      | first :: _ => map (fun x => resize x first align_corners) inputs
      end in
    match upsampled_inputs with
    | [] => Raise (RuntimeError "expected a non-empty list of Tensors")
    | _ :: _ => Ok (One (torch_cat upsampled_inputs))
    end))
  else if bool_decide (input_transform self = Some "multiple_select") then
    rbind (indices_of (in_index self)) (fun indices =>
    rbind (select inputs indices) (fun inputs => Ok (Many inputs)))
  else
    match in_index self with
    | PyInt i => rbind (py_index inputs i) (fun x => Ok (One x))
    | _ => Raise not_an_index
    end.

(** *** Properties *)

(** An index within the bounds of a list, from either end. *)
Definition in_range {A} (l : list A) (i : Z) : Prop :=
  (- Z.of_nat (length l) <= i < Z.of_nat (length l))%Z.

Lemma py_index_cases {A} (l : list A) (i : Z) :
  (in_range l i /\ exists x, py_index l i = Ok x)
  \/ (~ in_range l i /\ py_index l i = Raise IndexError).
Proof.
  unfold in_range, py_index.
  destruct (Z.ltb_spec i 0) as [Hneg|Hpos].
  - destruct (Z.ltb_spec (Z.of_nat (length l) + i) 0) as [Hlow|Hhigh].
    + right. split; [lia|done].
    + destruct (l !! Z.to_nat (Z.of_nat (length l) + i)) as [x|] eqn:Hx.
      * left. split; [lia|by eexists].
      * apply lookup_ge_None in Hx. lia.
  - destruct (Z.ltb_spec i 0); [lia|].
    destruct (l !! Z.to_nat i) as [x|] eqn:Hx.
    + left. apply lookup_lt_Some in Hx. split; [lia|by eexists].
    + right. apply lookup_ge_None in Hx. split; [lia|done].
Qed.

Lemma select_cases {A} (inputs : list A) (indices : list Z) :
  (Forall (in_range inputs) indices
   /\ exists xs, select inputs indices = Ok xs
        /\ Forall2 (fun i x => py_index inputs i = Ok x) indices xs)
  \/ (~ Forall (in_range inputs) indices
      /\ select inputs indices = Raise IndexError).
Proof.
  induction indices as [|i rest IH]; simpl.
  - left. split; [constructor|]. exists []. split; [done|constructor].
  - destruct (py_index_cases inputs i) as [[Hi [x Hx]]|[Hi Hx]]; rewrite Hx.
    + simpl. destruct IH as [[Hr (xs & Hxs & Hall)]|[Hr Hxs]]; rewrite Hxs.
      * left. split; [by constructor|]. exists (x :: xs).
        split; [done|by constructor].
      * right. split; [|done]. intros Hall. apply Hr. by inversion Hall.
    + right. split; [|done]. intros Hall. apply Hi. by inversion Hall.
Qed.

Lemma init_inputs_ok_inv (channels index : py_ints)
    (transform : option string) (self : t) :
  _init_inputs channels index transform = Ok self ->
  input_transform self = transform
  /\ in_index self = index
  /\ match transform with
     | None => is_int index = true
     | Some tr =>
         (tr = "resize_concat" \/ tr = "multiple_select")
         /\ is_seq index = true
     end.
Proof.
  unfold _init_inputs, py_bool_assert.
  destruct transform as [tr|]; simpl.
  - case_bool_decide as Htr; simpl; [|done].
    assert (Htr' : tr = "resize_concat" \/ tr = "multiple_select").
    { apply elem_of_cons in Htr as [->|Htr]; [by left|].
      apply list_elem_of_singleton in Htr as ->. by right. }
    destruct (is_seq channels); simpl; [|done].
    destruct (is_seq index); simpl; [|done].
    destruct (Nat.eqb _ _); simpl; [|done].
    destruct (String.eqb tr "resize_concat"); intros Hs; by simplify_eq.
  - destruct (is_int channels); simpl; [|done].
    destruct (is_int index); simpl; [|done].
    intros Hs. by simplify_eq.
Qed.

(** X19: [_init_inputs] accepts exactly two kinds of arguments: no
    [input_transform] with an [int] for [in_channels] and for
    [in_index], or [resize_concat] / [multiple_select] with two
    sequences of the same length; everything else fails an assertion.
    It keeps [input_transform] and [in_index] as given, and
    [in_channels] too except under [resize_concat], where it keeps the
    sum of the channels. *)
Theorem init_inputs_accepts (channels index : py_ints)
    (transform : option string) :
  match _init_inputs channels index transform with
  | Ok self =>
      input_transform self = transform
      /\ in_index self = index
      /\ match transform with
         | None =>
             is_int channels = true /\ is_int index = true
             /\ in_channels self = channels
         | Some tr =>
             (tr = "resize_concat" \/ tr = "multiple_select")
             /\ exists lc li,
                  channels = PySeq lc /\ index = PySeq li
                  /\ length lc = length li
                  /\ in_channels self
                     = (if String.eqb tr "resize_concat"
                        then PyInt (py_sum lc) else PySeq lc)
         end
  | Raise e =>
      e = AssertionError ""
      /\ match transform with
         | None => is_int channels = false \/ is_int index = false
         | Some tr =>
             (tr <> "resize_concat" /\ tr <> "multiple_select")
             \/ is_seq channels = false \/ is_seq index = false
             \/ length (seq_of channels) <> length (seq_of index)
         end
  end.
Proof.
  unfold _init_inputs, py_bool_assert.
  destruct transform as [tr|]; simpl.
  - case_bool_decide as Htr; simpl.
    + assert (Htr' : tr = "resize_concat" \/ tr = "multiple_select").
      { apply elem_of_cons in Htr as [->|Htr]; [by left|].
        apply list_elem_of_singleton in Htr as ->. by right. }
      destruct channels as [n|lc|]; simpl; try (split; [done|]; tauto).
      destruct index as [m|li|]; simpl; try (split; [done|]; tauto).
      destruct (Nat.eqb_spec (length lc) (length li)) as [Hlen|Hlen]; simpl.
      * destruct (String.eqb tr "resize_concat") eqn:He; simpl;
          (split; [done|]; split; [done|]; split; [done|]);
          exists lc, li; by rewrite ?He.
      * split; [done|]. tauto.
    + split; [done|]. left. split; intros ->; apply Htr.
      * by left.
      * right. by left.
  - destruct channels as [n|lc|]; simpl; try (split; [done|]; tauto).
    destruct index as [m|li|]; simpl; try (split; [done|]; tauto).
Qed.

(** X20: a configuration [_init_inputs] has accepted makes
    [_transform_inputs] return whenever its indices are within the
    bounds of [inputs] (and, under [resize_concat], there is one at
    least), and otherwise raise [IndexError] (an index out of bounds) or
    the error of concatenating nothing: never a type error. *)
Theorem transform_inputs_after_init (channels index : py_ints)
    (transform : option string) (self : t) (align_corners : bool)
    (inputs : list FeatMap) :
  _init_inputs channels index transform = Ok self ->
  let indices :=
    match index with PyInt i => [i] | PySeq l => l | PyOther => [] end in
  match _transform_inputs self align_corners inputs with
  | Ok _ =>
      Forall (in_range inputs) indices
      /\ (transform = Some "resize_concat" -> indices <> [])
  | Raise e =>
      (e = IndexError /\ ~ Forall (in_range inputs) indices)
      \/ (e = RuntimeError "expected a non-empty list of Tensors"
          /\ transform = Some "resize_concat" /\ indices = [])
  end.
Proof.
  intros Hinit.
  destruct (init_inputs_ok_inv _ _ _ _ Hinit) as (Htr & Hidx & Hrest).
  unfold _transform_inputs. rewrite Htr, Hidx.
  destruct transform as [tr|].
  - destruct Hrest as (Hkind & Hseq).
    destruct index as [i|li|]; try done. simpl.
    destruct Hkind as [->| ->].
    + rewrite bool_decide_eq_true_2 by done. simpl.
      destruct (select_cases inputs li) as [[Hr (xs & Hxs & Hall)]|[Hr Hxs]];
        rewrite Hxs; simpl.
      * destruct xs as [|x xs]; simpl.
        -- right. split; [done|]. split; [done|]. by inversion Hall.
        -- split; [done|]. intros _ ->. inversion Hall.
      * left. by split.
    + rewrite bool_decide_eq_false_2 by done.
      rewrite bool_decide_eq_true_2 by done. simpl.
      destruct (select_cases inputs li) as [[Hr (xs & Hxs & Hall)]|[Hr Hxs]];
        rewrite Hxs; simpl.
      * by split.
      * left. by split.
  - destruct index as [i|li|]; try done. simpl.
    rewrite ?bool_decide_eq_false_2 by done.
    destruct (py_index_cases inputs i) as [[Hr [x Hx]]|[Hr Hx]]; rewrite Hx;
      simpl.
    + split; [constructor; [exact Hr|constructor]|done].
    + left. split; [done|]. intros Hall. apply Hr. by inversion Hall.
Qed.

(** X21: under [multiple_select], [_transform_inputs] returns one
    feature map per entry of [in_index], the map at that index of
    [inputs], in the order of [in_index] (an index may repeat, and a
    negative index counts from the end); with no transform and the
    default [in_index = -1] it returns the last feature map, and raises
    [IndexError] when there is none. *)
Theorem transform_inputs_selects (self : t) (align_corners : bool)
    (inputs : list FeatMap) :
  (forall indices,
     input_transform self = Some "multiple_select" ->
     in_index self = PySeq indices ->
     Forall (in_range inputs) indices ->
     exists xs,
       _transform_inputs self align_corners inputs = Ok (Many xs)
       /\ length xs = length indices
       /\ Forall2 (fun i x => py_index inputs i = Ok x) indices xs)
  /\ (input_transform self = None ->
      in_index self = PyInt (-1) ->
      _transform_inputs self align_corners inputs
      = match last inputs with
        | Some x => Ok (One x)
        | None => Raise IndexError
        end).
Proof.
  split.
  - intros indices Htr Hidx Hall. unfold _transform_inputs.
    rewrite Htr, Hidx.
    rewrite bool_decide_eq_false_2 by done.
    rewrite bool_decide_eq_true_2 by done. simpl.
    destruct (select_cases inputs indices) as [[_ (xs & Hxs & H2)]|[Hr _]];
      [|done].
    rewrite Hxs. simpl. exists xs. split; [done|].
    split; [symmetry; by eapply Forall2_length|done].
  - intros Htr Hidx. unfold _transform_inputs. rewrite Htr, Hidx.
    rewrite ?bool_decide_eq_false_2 by done.
    unfold py_index. simpl.
    destruct inputs as [|x inputs _] using rev_ind; [done|].
    rewrite last_snoc, length_app. simpl length.
    destruct (Z.ltb_spec (Z.of_nat (length inputs + 1) + -1) 0); [lia|].
    replace (Z.to_nat (Z.of_nat (length inputs + 1) + -1))
      with (length inputs + 0) by lia.
    by rewrite lookup_app_r, Nat.add_0_r, Nat.sub_diag by lia.
Qed.

End Transform.
End HeadInputs.

(** ** NfBllBaseDecodeHead *)

Module NfBllBaseDecodeHead.
Section Head.
Context `{Backend}.

(** One sample of a feature map, of the logits, and the tensors the loss
    side handles whole. *)
Variable Feat : Type.
Variable Logit : Type.
Variable LabelT : Type.
Variable Weight : Type.
Variable Inputs : Type.

(** [F.conv2d(input, weight, bias)] works on each sample of the batch on
    its own; [conv2d_sample] is what it does to one. *)
Variable conv2d_sample : tensor -> tensor -> Feat -> Logit.

Definition F_conv2d (input : list Feat) (weight bias : tensor) : list Logit :=
  map (conv2d_sample weight bias) input.

(** A loss module built by [build_loss]: its [loss_name], its call with
    the keyword [weight] ([None] when the keyword is left out or is
    [None]), and [get_logs] where the class has it. *)
Record LossModule : Type := mk_loss {
  loss_name : string;
  loss_call : list Logit -> LabelT -> option Weight -> option Z -> Acc;
  get_logs : option (list Logit -> LabelT -> option Z -> gmap string Acc);
}.

(** [self.loss_decode]: one module, or an [nn.ModuleList]. *)
Inductive LossDecode : Type :=
  | SingleLoss (l : LossModule)
  | ModuleList (ls : list LossModule).

Record PixelSampler : Type := mk_sampler {
  sample : list Logit -> LabelT -> Weight;
}.

(** The attributes of a head.  [head_inputs] holds [input_transform],
    [in_index] and [in_channels] as [_init_inputs] sets them. *)
Record t : Type := mk {
  head_inputs : HeadInputs.t;
  channels : nat;
  num_classes : nat;
  dropout : option (list Feat -> list Feat);
  ignore_index : option Z;
  align_corners : bool;
  loss_decode : LossDecode;
  sampler : option PixelSampler;
  conv_seg_weight : tensor;
  conv_seg_bias : tensor;
  latent_dim : nat;
  flow_type : string;
  flow_length : nat;
  nsamples_train : nat;
  nsamples_test : nat;
  density_estimation : NormalizingFlowDensity.t;
  w_shape : list nat;
  b_shape : list nat;
  w_numel : nat;
  b_numel : nat;
  initial_p : list R;
}.

Variable Radial : nat -> nat -> result NormalizingFlowDensity.transform.
Variable Planar : nat -> nat -> result NormalizingFlowDensity.transform.
Variable affine_autoregressive :
  nat -> nat -> result NormalizingFlowDensity.transform.

(** The configuration dictionaries of a loss and of a pixel sampler, and
    the registry builders [build_loss] and [build_pixel_sampler], which
    raise for a configuration they cannot build. *)
Variable LossCfg : Type.
Variable SamplerCfg : Type.
Variable build_loss : LossCfg -> result LossModule.
Variable build_pixel_sampler : SamplerCfg -> result PixelSampler.

(** The argument [loss_decode] of [__init__]: a dict, a list or tuple of
    dicts, or anything else (with what [type(loss_decode)] prints as). *)
Inductive loss_config : Type :=
  | LossDict (cfg : LossCfg)
  | LossSeq (cfgs : list LossCfg)
  | LossOther (type_repr : string).

(** The message of the [TypeError]; the line continuation inside the
    literal keeps the indentation of the second line. *)
Definition loss_decode_msg (type_repr : string) : string :=
  String.append
    "loss_decode must be a dict or sequence of dict,                but got "
    type_repr.

(** [for loss in loss_decode: self.loss_decode.append(build_loss(loss))]. *)
Fixpoint build_losses (cfgs : list LossCfg) : result (list LossModule) :=
  match cfgs with
  | [] => Ok []
  | cfg :: rest =>
      rbind (build_loss cfg) (fun l =>
      rbind (build_losses rest) (fun ls => Ok (l :: ls)))
  end.

Definition build_loss_decode (loss_decode : loss_config) : result LossDecode :=
  match loss_decode with
  | LossDict cfg => rbind (build_loss cfg) (fun l => Ok (SingleLoss l))
  | LossSeq cfgs => rbind (build_losses cfgs) (fun ls => Ok (ModuleList ls))
  | LossOther type_repr => Raise (TypeError (loss_decode_msg type_repr))
  end.

Definition build_sampler (sampler : option SamplerCfg)
  : result (option PixelSampler) :=
  match sampler with
  | Some cfg => rbind (build_pixel_sampler cfg) (fun smp => Ok (Some smp))
  | None => Ok None
  end.

(** [torch.cat([weight.reshape(-1), bias.reshape(-1)])]. *)
Definition flat_params (weight bias : tensor) : list R :=
  t_data weight ++ t_data bias.

(** [__init__].  [dropout] is the [nn.Dropout2d] made for a positive
    [dropout_ratio] ([None] otherwise); [weight] and [bias] are the
    parameters [nn.Conv2d(channels, num_classes, kernel_size=1)] was
    initialised to. *)
Definition init (in_channels in_index : HeadInputs.py_ints)
    (input_transform : option string) (channels num_classes : nat)
    (dropout : option (list Feat -> list Feat)) (ignore_index : option Z)
    (align_corners : bool) (loss_decode : loss_config)
    (sampler : option SamplerCfg) (weight bias : tensor)
    (flow_type : string) (flow_length nsamples_train : nat) : result t :=
  rbind (HeadInputs._init_inputs in_channels in_index input_transform)
    (fun head_inputs =>
  rbind (build_loss_decode loss_decode) (fun loss_decode =>
  rbind (build_sampler sampler) (fun sampler =>
  let latent_dim := numel weight + numel bias in
  if bool_decide (flow_type ∈ ["iaf_flow"; "planar_flow"; "radial_flow"]) then
    rbind (NormalizingFlowDensity.init Radial Planar affine_autoregressive
             latent_dim flow_length flow_type)
      (fun density_estimation =>
         Ok {| head_inputs := head_inputs;
               channels := channels; num_classes := num_classes;
               dropout := dropout; ignore_index := ignore_index;
               align_corners := align_corners; loss_decode := loss_decode;
               sampler := sampler;
               conv_seg_weight := weight; conv_seg_bias := bias;
               latent_dim := latent_dim;
               flow_type := flow_type; flow_length := flow_length;
               nsamples_train := nsamples_train; nsamples_test := 1;
               density_estimation := density_estimation;
               w_shape := t_shape weight; b_shape := t_shape bias;
               w_numel := numel weight; b_numel := numel bias;
               initial_p := flat_params weight bias |})
  else Raise NotImplementedError))).

(** Loading a checkpoint replaces the parameters of [conv_seg]. *)
Definition load_conv_seg (self : t) (weight bias : tensor) : t :=
  {| head_inputs := head_inputs self; channels := channels self; num_classes := num_classes self;
     dropout := dropout self; ignore_index := ignore_index self;
     align_corners := align_corners self; loss_decode := loss_decode self;
     sampler := sampler self;
     conv_seg_weight := weight; conv_seg_bias := bias;
     latent_dim := latent_dim self;
     flow_type := flow_type self; flow_length := flow_length self;
     nsamples_train := nsamples_train self; nsamples_test := nsamples_test self;
     density_estimation := density_estimation self;
     w_shape := w_shape self; b_shape := b_shape self;
     w_numel := w_numel self; b_numel := b_numel self;
     initial_p := initial_p self |}.

(** [self.density_estimation.mean = value]: the attribute [mean] of the
    density object is (re)bound; its other attributes stay. *)
Definition set_mean (d : NormalizingFlowDensity.t) (value : list R)
  : NormalizingFlowDensity.t :=
  {| NormalizingFlowDensity.dim := NormalizingFlowDensity.dim d;
     NormalizingFlowDensity.flow_length := NormalizingFlowDensity.flow_length d;
     NormalizingFlowDensity.flow_type := NormalizingFlowDensity.flow_type d;
     NormalizingFlowDensity.z0_mean := NormalizingFlowDensity.z0_mean d;
     NormalizingFlowDensity.z0_cov := NormalizingFlowDensity.z0_cov d;
     NormalizingFlowDensity.transforms := NormalizingFlowDensity.transforms d;
     NormalizingFlowDensity.mean := Some value |}.

Definition update_z0_params (self : t) : t :=
  let initial_p := flat_params (conv_seg_weight self) (conv_seg_bias self) in
  {| head_inputs := head_inputs self; channels := channels self; num_classes := num_classes self;
     dropout := dropout self; ignore_index := ignore_index self;
     align_corners := align_corners self; loss_decode := loss_decode self;
     sampler := sampler self;
     conv_seg_weight := conv_seg_weight self;
     conv_seg_bias := conv_seg_bias self;
     latent_dim := latent_dim self;
     flow_type := flow_type self; flow_length := flow_length self;
     nsamples_train := nsamples_train self; nsamples_test := nsamples_test self;
     density_estimation := set_mean (density_estimation self) initial_p;
     w_shape := w_shape self; b_shape := b_shape self;
     w_numel := w_numel self; b_numel := b_numel self;
     initial_p := initial_p |}.

(** The body of the loop of [conv_seg_forward] for one chunk [z_] of
    [torch.split(z, 1, 0)], a [1 x P] tensor.  [squeeze] drops every
    dimension of size one, so for [P = 1] it leaves a scalar, which
    cannot be sliced. *)
Definition conv_seg_sample (self : t) (x : list Feat) (z_ : list R)
  : result (list Logit) :=
  if Nat.eqb (length z_) 1 then Raise IndexError
  else
    rbind (reshape (slice_to (w_numel self) z_) (w_shape self)) (fun weight =>
    rbind (reshape (slice_last (b_numel self) z_) (b_shape self)) (fun bias =>
    Ok (F_conv2d x weight bias))).

Fixpoint conv_seg_loop (self : t) (x : list Feat) (z_list : list (list R))
  : result (list (list Logit)) :=
  match z_list with
  | [] => Ok []
  | z_ :: rest =>
      rbind (conv_seg_sample self x z_) (fun o =>
      rbind (conv_seg_loop self x rest) (fun output => Ok (o :: output)))
  end.

(** [torch.cat(output, dim=0)] needs a tensor to start from: with no row
    in [z] there is none, and torch raises. *)
Definition conv_seg_forward (self : t) (x : list Feat) (z : list (list R))
  : result (list Logit) :=
  rbind (conv_seg_loop self x z) (fun output =>
  match output with
  | [] => Raise (RuntimeError "expected a non-empty list of Tensors")
  | _ => Ok (concat output)
  end).

Definition cls_seg (self : t) (feat : list Feat) (z : list (list R))
  : result (list Logit) :=
  let feat := match dropout self with
              | Some drop_fn => drop_fn feat
              | None => feat
              end in
  conv_seg_forward self feat z.

(** The classification of a head without flow: [self.conv_seg(feat)]. *)
Definition conv_seg (self : t) (feat : list Feat) : list Logit :=
  F_conv2d feat (conv_seg_weight self) (conv_seg_bias self).

(** *** The loss side *)

Variable resize : list Logit -> LabelT -> bool -> list Logit.
Variable label_repeat : LabelT -> nat -> LabelT.
Variable accuracy : list Logit -> LabelT -> option Z -> Acc.
Variable acc_numel : Acc -> nat.
Variable acc_mean : Acc -> Acc.
Variable detach : Acc -> Acc.

(** The forward of the concrete head (the base class leaves it abstract).
    The second argument is the sample count the caller passes, [None]
    when the caller passes none. *)
Variable forward : t -> Inputs -> option nat -> result (list Logit * Acc).

(** [loss_name.startswith("loss_edl")]. *)
Definition is_edl (name : string) : bool := String.prefix "loss_edl" name.

(** A call of a loss module, as seen from outside: which module, and the
    [weight] it was given. *)
Definition loss_call_record : Type := LossModule * option Weight.

Definition call_loss (ld : LossModule) (seg_logit : list Logit) (seg_label : LabelT)
    (weight : option Weight) (ignore_index : option Z)
  : M (list loss_call_record) Acc :=
  do modify (fun calls => calls ++ [(ld, weight)]) then
  mret (loss_call ld seg_logit seg_label weight ignore_index).

Definition losses_decode_list (self : t) : list LossModule :=
  match loss_decode self with
  | SingleLoss l => [l]
  | ModuleList ls => ls
  end.

(** The body of the loop over [losses_decode]; [loss] is the dictionary
    being filled. *)
Definition losses_body (self : t) (seg_logit : list Logit) (seg_label : LabelT)
    (seg_weight : option Weight) (sum_log_jacobians : Acc)
    (loss : gmap string Acc) (ld : LossModule)
  : M (list loss_call_record) (gmap string Acc) :=
  match loss !! loss_name ld with
  | None =>
      let* v := call_loss ld seg_logit seg_label None (ignore_index self) in
      let loss := <[loss_name ld := acc_add v (acc_mean sum_log_jacobians)]> loss in
      if is_edl (loss_name ld) then
        match get_logs ld with
        | None => mraise (AttributeError "get_logs")
        | Some get_logs_fn =>
            let logs := get_logs_fn seg_logit seg_label (ignore_index self) in
            let logs := <["mean_jacobian_logdet" := detach (acc_mean sum_log_jacobians)]> logs in
            (* loss.update(logs): the entries of logs win *)
            mret (logs ∪ loss)
        end
      else mret loss
  | Some old =>
      let* v := call_loss ld seg_logit seg_label seg_weight (ignore_index self) in
      let loss := <[loss_name ld := acc_add old v]> loss in
      if is_edl (loss_name ld) then mraise NotImplementedError
      else mret loss
  end.

(** The label map and logits the loss modules are called with. *)
Definition resized_logit (self : t) (seg_logit : list Logit) (seg_label : LabelT)
  : list Logit :=
  resize seg_logit seg_label (align_corners self).

Definition repeated_label (seg_label : LabelT) (sum_log_jacobians : Acc) : LabelT :=
  label_repeat seg_label (acc_numel sum_log_jacobians).

Definition sampled_weight (self : t) (seg_logit : list Logit) (seg_label : LabelT)
  : option Weight :=
  match sampler self with
  | Some smp => Some (sample smp (resized_logit self seg_logit seg_label) seg_label)
  | None => None
  end.

(** [sum_log_jacobians.numel()] is the first use of the sum as a tensor:
    a Python number (the [0] that [forward] of an empty chain returns)
    has no such method. *)
Definition losses (self : t) (seg_logit : list Logit) (seg_label : LabelT)
    (sum_log_jacobians : Acc) : M (list loss_call_record) (gmap string Acc) :=
  let loss : gmap string Acc := ∅ in
  let seg_weight := sampled_weight self seg_logit seg_label in
  let seg_logit := resized_logit self seg_logit seg_label in
  if is_tensor sum_log_jacobians then
    let seg_label := repeated_label seg_label sum_log_jacobians in
    let losses_decode := losses_decode_list self in
    let loss :=
      <["acc_seg" := accuracy seg_logit seg_label (ignore_index self)]> loss in
    for_each losses_decode loss
      (losses_body self seg_logit seg_label seg_weight sum_log_jacobians)
  else mraise (AttributeError "numel").

Definition forward_train (self : t) (inputs : Inputs) (gt_semantic_seg : LabelT)
  : M (list loss_call_record) (gmap string Acc) :=
  match forward self inputs (Some (nsamples_train self)) with
  | Ok (seg_logits, sum_log_jacobians) =>
      losses self seg_logits gt_semantic_seg sum_log_jacobians
  | Raise e => mraise e
  end.

Definition forward_test (self : t) (inputs : Inputs) : result (list Logit * Acc) :=
  forward self inputs None.

(** *** Properties of the head *)

(** A call of [losses] on a tensor is the loop over the configured
    losses, started on the dictionary that holds [acc_seg]; on a number
    it raises at once. *)
Lemma losses_tensor (self : t) (seg_logit : list Logit) (seg_label : LabelT)
    (sum_log_jacobians : Acc) :
  is_tensor sum_log_jacobians = true ->
  losses self seg_logit seg_label sum_log_jacobians
  = for_each (losses_decode_list self)
      (<["acc_seg" := accuracy (resized_logit self seg_logit seg_label)
                        (repeated_label seg_label sum_log_jacobians)
                        (ignore_index self)]> ∅)
      (losses_body self (resized_logit self seg_logit seg_label)
         (repeated_label seg_label sum_log_jacobians)
         (sampled_weight self seg_logit seg_label) sum_log_jacobians).
Proof. unfold losses. by intros ->. Qed.

Lemma losses_number (self : t) (seg_logit : list Logit) (seg_label : LabelT)
    (sum_log_jacobians : Acc) (s : list loss_call_record) :
  is_tensor sum_log_jacobians = false ->
  losses self seg_logit seg_label sum_log_jacobians s
  = (s, Raise (AttributeError "numel")).
Proof. unfold losses. by intros ->. Qed.

Lemma losses_ok_tensor (self : t) (seg_logit : list Logit) (seg_label : LabelT)
    (sum_log_jacobians : Acc) (s : list loss_call_record) :
  is_ok (losses self seg_logit seg_label sum_log_jacobians s).2 = true ->
  is_tensor sum_log_jacobians = true.
Proof.
  destruct (is_tensor sum_log_jacobians) eqn:Ht; [done|].
  by rewrite losses_number.
Qed.

(** What [__init__] establishes between the attributes, and what loading
    parameters of the same shapes keeps: the recorded shapes and sizes
    are those of [conv_seg], whose tensors hold as many elements as their
    shapes say, at least one each. *)
Definition consistent (self : t) : Prop :=
  w_shape self = t_shape (conv_seg_weight self)
  /\ b_shape self = t_shape (conv_seg_bias self)
  /\ w_numel self = numel (conv_seg_weight self)
  /\ b_numel self = numel (conv_seg_bias self)
  /\ shape_numel (w_shape self) = w_numel self
  /\ shape_numel (b_shape self) = b_numel self
  /\ 0 < w_numel self
  /\ 0 < b_numel self.

(** The (weight, bias) pair a sampled row stands for. *)
Definition row_weight (self : t) (row : list R) : tensor :=
  mk_tensor (w_shape self) (take (w_numel self) row).

Definition row_bias (self : t) (row : list R) : tensor :=
  mk_tensor (b_shape self) (drop (w_numel self) row).

Lemma reshape_ok (data : list R) (shape : list nat) :
  length data = shape_numel shape -> reshape data shape = Ok (mk_tensor shape data).
Proof.
  intros Hl. unfold reshape. rewrite Hl, Nat.eqb_refl. reflexivity.
Qed.

Lemma slice_last_drop {A} (n m : nat) (l : list A) :
  0 < n -> length l = m + n -> slice_last n l = drop m l.
Proof.
  intros Hn Hl. unfold slice_last.
  destruct (Nat.eqb_spec n 0) as [->|_]; [lia|].
  f_equal. lia.
Qed.

Lemma conv_seg_sample_ok (self : t) (x : list Feat) (row : list R) :
  consistent self ->
  length row = w_numel self + b_numel self ->
  conv_seg_sample self x row
  = Ok (F_conv2d x (row_weight self row) (row_bias self row)).
Proof.
  intros (_ & _ & _ & _ & Hw & Hb & Hwpos & Hbpos) Hlen.
  unfold conv_seg_sample.
  destruct (Nat.eqb_spec (length row) 1) as [H1|_]; [lia|].
  unfold slice_to. rewrite reshape_ok by (rewrite length_take; lia). simpl.
  rewrite (slice_last_drop _ (w_numel self)) by lia.
  rewrite reshape_ok by (rewrite length_drop; lia). reflexivity.
Qed.

Lemma conv_seg_loop_ok (self : t) (x : list Feat) (z : list (list R)) :
  consistent self ->
  Forall (fun row => length row = w_numel self + b_numel self) z ->
  conv_seg_loop self x z
  = Ok (map (fun row => F_conv2d x (row_weight self row) (row_bias self row)) z).
Proof.
  intros Hc Hz. induction Hz as [|row z Hrow Hz IH]; simpl.
  - reflexivity.
  - rewrite conv_seg_sample_ok by assumption. simpl. rewrite IH. reflexivity.
Qed.

Lemma length_concat_conv (self : t) (x : list Feat) (z : list (list R)) :
  length (concat (map (fun row => F_conv2d x (row_weight self row) (row_bias self row)) z))
  = length z * length x.
Proof.
  induction z as [|row z IH]; simpl.
  - reflexivity.
  - rewrite length_app, IH. unfold F_conv2d. rewrite length_map. reflexivity.
Qed.

Lemma row_of_conv_seg (self : t) :
  consistent self ->
  let row := flat_params (conv_seg_weight self) (conv_seg_bias self) in
  length row = w_numel self + b_numel self
  /\ row_weight self row = conv_seg_weight self
  /\ row_bias self row = conv_seg_bias self.
Proof.
  intros (Hws & Hbs & Hwn & Hbn & _). simpl.
  unfold flat_params, row_weight, row_bias, numel in *.
  rewrite length_app, Hwn, Hbn, Hws, Hbs.
  rewrite take_app_length, drop_app_length.
  destruct (conv_seg_weight self), (conv_seg_bias self). auto.
Qed.

(** C4: for a feature map [x] of [b] samples and a matrix [z] of [n >= 1]
    sampled parameter vectors (each as long as the weight and the bias of
    [conv_seg] together), [conv_seg_forward] returns the concatenation,
    along the batch dimension, of the [n] convolutions of [x] with the
    (weight, bias) pair of each row, a tensor whose leading dimension is
    [n * b]; for [n = 1] this is the classification of [x] with the
    parameters of the row, and for the row of [conv_seg]'s own parameters
    it is [conv_seg(x)]. *)
Theorem conv_seg_forward_batch (self : t) (x : list Feat) (z : list (list R)) :
  consistent self ->
  z <> [] ->
  Forall (fun row => length row = w_numel self + b_numel self) z ->
  (exists out,
      conv_seg_forward self x z = Ok out
      /\ out = concat (map (fun row =>
                  F_conv2d x (row_weight self row) (row_bias self row)) z)
      /\ length out = length z * length x)
  /\ (forall row, z = [row] ->
        conv_seg_forward self x z
        = Ok (F_conv2d x (row_weight self row) (row_bias self row)))
  /\ conv_seg_forward self x
       [flat_params (conv_seg_weight self) (conv_seg_bias self)]
     = Ok (conv_seg self x).
Proof.
  intros Hc Hne Hz.
  assert (Hrun : forall z', z' <> [] ->
            Forall (fun row => length row = w_numel self + b_numel self) z' ->
            conv_seg_forward self x z'
            = Ok (concat (map (fun row =>
                   F_conv2d x (row_weight self row) (row_bias self row)) z'))).
  { intros z' Hne' Hz'. unfold conv_seg_forward.
    rewrite conv_seg_loop_ok by assumption. simpl.
    destruct z' as [|row z']; [congruence|]. reflexivity. }
  split; [|split].
  - eexists. split; [apply Hrun; assumption|].
    split; [reflexivity|apply length_concat_conv].
  - intros row ->. rewrite Hrun by assumption. simpl.
    rewrite app_nil_r. reflexivity.
  - destruct (row_of_conv_seg self Hc) as (Hlen & Hw & Hb).
    rewrite Hrun by (try congruence; repeat constructor; exact Hlen).
    simpl. rewrite app_nil_r, Hw, Hb. reflexivity.
Qed.

(** **** The loss dictionary *)

Definition mjl : string := "mean_jacobian_logdet".

(** The keys the loss modules log are not names of configured losses. *)
Definition logs_apart (ls : list LossModule) (seg_logit : list Logit)
    (seg_label : LabelT) (ignore : option Z) : Prop :=
  forall l l' f, l ∈ ls -> l' ∈ ls -> get_logs l' = Some f ->
    f seg_logit seg_label ignore !! loss_name l = None.

Definition any_edl (ls : list LossModule) : bool :=
  existsb (fun l => is_edl (loss_name l)) ls.

Lemma is_edl_not_mjl (k : string) : is_edl k = true -> k <> mjl.
Proof. intros Hk ->. discriminate Hk. Qed.

Ltac run_body :=
  unfold losses_body, call_loss, mbind, modify, mret, mraise in *; simpl in *.

(** An entry under an evidential name survives the rest of a loop that
    returns: a later module of that name would raise, and no log
    overwrites it. *)
Lemma losses_loop_keeps (self : t) (sl : list Logit) (lb : LabelT)
    (sw : option Weight) (slj : Acc) (ls : list LossModule)
    (loss : gmap string Acc) (s s' : list loss_call_record)
    (d : gmap string Acc) (k : string) (v : Acc) :
  for_each ls loss (losses_body self sl lb sw slj) s = (s', Ok d) ->
  loss !! k = Some v ->
  is_edl k = true ->
  (forall l' f, l' ∈ ls -> get_logs l' = Some f ->
                f sl lb (ignore_index self) !! k = None) ->
  d !! k = Some v.
Proof.
  revert loss s. induction ls as [|l ls IH]; intros loss s Hrun Hk Hedl Hlogs.
  - simpl in Hrun. unfold mret in Hrun. by simplify_eq.
  - simpl in Hrun. unfold mbind at 1 in Hrun.
    destruct (losses_body self sl lb sw slj loss l s) as [s1 [loss1|e]] eqn:Hb;
      [|discriminate].
    eapply (IH loss1 s1); [exact Hrun| |exact Hedl|].
    2:{ intros l' f Hl'. apply Hlogs. by right. }
    clear IH Hrun. run_body.
    destruct (loss !! loss_name l) as [old|] eqn:Hl; simpl in Hb.
    + destruct (is_edl (loss_name l)) eqn:Hle; simplify_eq.
      rewrite lookup_insert_ne; [done|congruence].
    + assert (loss_name l <> k) by congruence.
      destruct (is_edl (loss_name l)) eqn:Hle.
      * destruct (get_logs l) as [f|] eqn:Hf; simplify_eq.
        rewrite lookup_union_r.
        -- by rewrite lookup_insert_ne.
        -- rewrite lookup_insert_ne by (apply not_eq_sym, is_edl_not_mjl, Hedl).
           eapply Hlogs; [by left|exact Hf].
      * simplify_eq. by rewrite lookup_insert_ne.
Qed.

Lemma losses_loop_edl_entry (self : t) (sl : list Logit) (lb : LabelT)
    (sw : option Weight) (slj : Acc) (ls : list LossModule)
    (loss : gmap string Acc) (s s' : list loss_call_record)
    (d : gmap string Acc) (l : LossModule) :
  for_each ls loss (losses_body self sl lb sw slj) s = (s', Ok d) ->
  l ∈ ls ->
  is_edl (loss_name l) = true ->
  (forall l' f, l' ∈ ls -> get_logs l' = Some f ->
                f sl lb (ignore_index self) !! loss_name l = None) ->
  d !! loss_name l
  = Some (acc_add (loss_call l sl lb None (ignore_index self)) (acc_mean slj)).
Proof.
  revert loss s. induction ls as [|l0 ls IH]; intros loss s Hrun Hin Hedl Hlogs.
  - by apply elem_of_nil in Hin.
  - simpl in Hrun. unfold mbind at 1 in Hrun.
    destruct (losses_body self sl lb sw slj loss l0 s) as [s1 [loss1|e]] eqn:Hb;
      [|discriminate].
    apply elem_of_cons in Hin as [->|Hin].
    + eapply losses_loop_keeps; [exact Hrun| |exact Hedl|].
      2:{ intros l' f Hl'. apply Hlogs. by right. }
      clear IH Hrun. run_body. rewrite Hedl in Hb.
      destruct (loss !! loss_name l0) as [old|] eqn:Hl; simpl in Hb;
        [discriminate|].
      destruct (get_logs l0) as [f|] eqn:Hf; simplify_eq.
      rewrite lookup_union_r.
      * by rewrite lookup_insert_eq.
      * rewrite lookup_insert_ne by (apply not_eq_sym, is_edl_not_mjl, Hedl).
        eapply Hlogs; [by left|exact Hf].
    + eapply (IH loss1 s1); [exact Hrun|exact Hin|exact Hedl|].
      intros l' f Hl'. apply Hlogs. by right.
Qed.

Lemma losses_loop_mjl (self : t) (sl : list Logit) (lb : LabelT)
    (sw : option Weight) (slj : Acc) (ls : list LossModule)
    (loss : gmap string Acc) (s s' : list loss_call_record)
    (d : gmap string Acc) :
  for_each ls loss (losses_body self sl lb sw slj) s = (s', Ok d) ->
  (forall l, l ∈ ls -> loss_name l <> mjl) ->
  d !! mjl = if any_edl ls then Some (detach (acc_mean slj)) else loss !! mjl.
Proof.
  revert loss s. induction ls as [|l ls IH]; intros loss s Hrun Hnames.
  - simpl in *. unfold mret in Hrun. by simplify_eq.
  - simpl in Hrun. unfold mbind at 1 in Hrun.
    destruct (losses_body self sl lb sw slj loss l s) as [s1 [loss1|e]] eqn:Hb;
      [|discriminate].
    assert (Hne : loss_name l <> mjl) by (apply Hnames; by left).
    rewrite (IH loss1 s1 Hrun) by (intros l' Hl'; apply Hnames; by right).
    clear IH Hrun. run_body.
    destruct (loss !! loss_name l) as [old|] eqn:Hl; simpl in Hb.
    + destruct (is_edl (loss_name l)) eqn:Hle; simplify_eq. simpl.
      by rewrite lookup_insert_ne.
    + destruct (is_edl (loss_name l)) eqn:Hle; simpl.
      * destruct (get_logs l) as [f|] eqn:Hf; simplify_eq.
        destruct (any_edl ls); [done|].
        erewrite lookup_union_Some_l; [done|]. apply lookup_insert_eq.
      * simplify_eq. by rewrite lookup_insert_ne.
Qed.

(** C5: in a call of [losses] that returns (no log key being the name of
    a configured loss, and no loss being named [mean_jacobian_logdet]),
    every loss whose name starts with [loss_edl] has, under its name, its
    value (computed without sampler weight) plus the mean of
    [sum_log_jacobians]; and the dictionary holds
    [mean_jacobian_logdet], the detached mean, exactly when some
    configured loss has such a name. *)
Theorem losses_jacobian_term (self : t) (seg_logit : list Logit)
    (seg_label : LabelT) (sum_log_jacobians : Acc)
    (calls : list loss_call_record) (d : gmap string Acc) :
  let sl := resized_logit self seg_logit seg_label in
  let lb := repeated_label seg_label sum_log_jacobians in
  losses self seg_logit seg_label sum_log_jacobians [] = (calls, Ok d) ->
  logs_apart (losses_decode_list self) sl lb (ignore_index self) ->
  (forall l, l ∈ losses_decode_list self -> loss_name l <> mjl) ->
  (forall l, l ∈ losses_decode_list self -> is_edl (loss_name l) = true ->
     d !! loss_name l
     = Some (acc_add (loss_call l sl lb None (ignore_index self))
                     (acc_mean sum_log_jacobians)))
  /\ d !! mjl = (if any_edl (losses_decode_list self)
                 then Some (detach (acc_mean sum_log_jacobians)) else None).
Proof.
  intros sl lb Hrun Hlogs Hnames.
  rewrite losses_tensor in Hrun by (eapply losses_ok_tensor; by rewrite Hrun). split.
  - intros l Hin Hedl.
    eapply losses_loop_edl_entry; [exact Hrun|exact Hin|exact Hedl|].
    intros l' f Hl' Hf. by eapply Hlogs.
  - rewrite (losses_loop_mjl _ _ _ _ _ _ _ _ _ _ Hrun Hnames).
    destruct (any_edl _); [done|].
    by rewrite lookup_insert_ne.
Qed.

(** **** The sampler weight *)





(** **** The base distribution and the parameters of [conv_seg] *)

Lemma update_z0_params_density (self : t) :
  NormalizingFlowDensity.base_dist (density_estimation (update_z0_params self))
  = NormalizingFlowDensity.base_dist (density_estimation self)
  /\ NormalizingFlowDensity.mean (density_estimation (update_z0_params self))
     = Some (flat_params (conv_seg_weight self) (conv_seg_bias self))
  /\ initial_p (update_z0_params self)
     = flat_params (conv_seg_weight self) (conv_seg_bias self).
Proof. by repeat split. Qed.


Lemma init_density (ic ii : HeadInputs.py_ints) (tr : option string)
    (n_channels n_classes : nat)
    (drop_fn : option (list Feat -> list Feat)) (ign : option Z)
    (ac : bool) (lc : loss_config)
    (sc : option SamplerCfg) (weight bias : tensor)
    (ft : string) (n_flow n_train : nat) (self : t) :
  init ic ii tr n_channels n_classes drop_fn ign ac lc sc weight bias ft
       n_flow n_train = Ok self ->
  NormalizingFlowDensity.loc
    (NormalizingFlowDensity.base_dist (density_estimation self))
  = zeros (numel weight + numel bias)
  /\ nsamples_test self = 1.
Proof.
  unfold init. intros Hi.
  destruct (HeadInputs._init_inputs ic ii tr); simpl in Hi; [|done].
  destruct (build_loss_decode lc); simpl in Hi; [|done].
  destruct (build_sampler sc); simpl in Hi; [|done].
  destruct (bool_decide _); [|done].
  destruct (NormalizingFlowDensity.init _ _ _ _ _ _) as [de|e] eqn:Hde;
    simpl in Hi; [|done].
  injection Hi as <-. simpl.
  destruct (NormalizingFlowDensity.init_ok_fields _ _ _ _ _ _ _ Hde)
    as (_ & Hz & _).
  by rewrite Hz.
Qed.

(** **** Inference *)

(** C8 (what the code does): [forward_test] calls [forward] with the
    inputs alone, passing no sample count ([nsamples_test] is not read),
    and returns whatever [forward] returns, the Jacobian term included;
    [forward_train], next to it, passes [nsamples_train] and takes the
    pair apart. *)
Theorem forward_test_passes_no_count (self : t) (inputs : Inputs) :
  forward_test self inputs = forward self inputs None
  /\ forall gt_semantic_seg,
       forward_train self inputs gt_semantic_seg
       = match forward self inputs (Some (nsamples_train self)) with
         | Ok (seg_logits, sum_log_jacobians) =>
             losses self seg_logits gt_semantic_seg sum_log_jacobians
         | Raise e => mraise e
         end.
Proof. split; [reflexivity|]. intros gt. reflexivity. Qed.

(** *** More on the head *)


(** X4: [update_z0_params] can be run again without further change; it
    leaves the parameters of [conv_seg], the recorded shapes and the
    base Gaussian as they are, and on a consistent head it leaves
    [initial_p] as long as the weights and biases together. *)
Theorem update_z0_params_again (self : t) :
  update_z0_params (update_z0_params self) = update_z0_params self
  /\ conv_seg_weight (update_z0_params self) = conv_seg_weight self
  /\ conv_seg_bias (update_z0_params self) = conv_seg_bias self
  /\ NormalizingFlowDensity.z0_mean (density_estimation (update_z0_params self))
     = NormalizingFlowDensity.z0_mean (density_estimation self)
  /\ (consistent self ->
      consistent (update_z0_params self)
      /\ length (initial_p (update_z0_params self))
         = w_numel self + b_numel self).
Proof.
  split; [done|]. split; [done|]. split; [done|]. split; [done|].
  intros (? & ? & Hw & Hb & ? & ? & ? & ?). split.
  - by repeat split.
  - simpl. unfold flat_params, numel in *. rewrite length_app. lia.
Qed.

(** **** Rows of other lengths *)

Lemma slice_last_length {A} (n : nat) (l : list A) :
  0 < n -> length (slice_last n l) = Nat.min n (length l).
Proof.
  intros Hn. unfold slice_last.
  destruct (Nat.eqb_spec n 0); [lia|]. rewrite length_drop. lia.
Qed.

Lemma conv_seg_sample_cases (self : t) (x : list Feat) (row : list R) :
  consistent self ->
  if bool_decide (w_numel self <= length row /\ b_numel self <= length row
                  /\ length row <> 1)
  then conv_seg_sample self x row
       = Ok (F_conv2d x (mk_tensor (w_shape self) (take (w_numel self) row))
               (mk_tensor (b_shape self) (slice_last (b_numel self) row)))
  else is_ok (conv_seg_sample self x row) = false.
Proof.
  intros (_ & _ & _ & _ & Hw & Hb & Hwpos & Hbpos).
  unfold conv_seg_sample, reshape, slice_to.
  rewrite length_take, slice_last_length, Hw, Hb by done.
  case_bool_decide as Hc.
  - destruct Hc as (H1 & H2 & H3).
    destruct (Nat.eqb_spec (length row) 1); [done|].
    destruct (Nat.eqb_spec (Nat.min (w_numel self) (length row)) (w_numel self));
      [|lia]. simpl.
    destruct (Nat.eqb_spec (Nat.min (b_numel self) (length row)) (b_numel self));
      [|lia]. done.
  - destruct (Nat.eqb_spec (length row) 1); [done|].
    destruct (Nat.eqb_spec (Nat.min (w_numel self) (length row)) (w_numel self));
      [|done]. simpl.
    destruct (Nat.eqb_spec (Nat.min (b_numel self) (length row)) (b_numel self));
      [|done]. exfalso. apply Hc. lia.
Qed.

(** X5: on a consistent head, [conv_seg_forward] returns logits exactly
    when [z] has a row and every row is at least as long as the weights
    and as the biases (and is not of length one); it then classifies with
    the first [w_numel] entries of each row as weights and its last
    [b_numel] entries as biases, whatever lies between.  With no row, or
    with a row too short, it raises. *)
Theorem conv_seg_forward_row_lengths (self : t) (x : list Feat)
    (z : list (list R)) :
  consistent self ->
  let fits (row : list R) :=
    w_numel self <= length row /\ b_numel self <= length row
    /\ length row <> 1 in
  (is_ok (conv_seg_forward self x z) = true <-> z <> [] /\ Forall fits z)
  /\ (forall out, conv_seg_forward self x z = Ok out ->
        out = concat (map (fun row =>
                F_conv2d x (mk_tensor (w_shape self) (take (w_numel self) row))
                  (mk_tensor (b_shape self) (slice_last (b_numel self) row))) z)
        /\ length out = length z * length x).
Proof.
  intros Hc fits.
  assert (Hloop : if bool_decide (Forall fits z)
            then conv_seg_loop self x z
                 = Ok (map (fun row =>
                         F_conv2d x
                           (mk_tensor (w_shape self) (take (w_numel self) row))
                           (mk_tensor (b_shape self)
                              (slice_last (b_numel self) row))) z)
            else is_ok (conv_seg_loop self x z) = false).
  { induction z as [|row z IH].
    - rewrite bool_decide_eq_true_2 by constructor. done.
    - pose proof (conv_seg_sample_cases self x row Hc) as Hrow.
      fold (fits row) in Hrow. simpl.
      case_bool_decide as Hr.
      + rewrite Hrow. simpl. case_bool_decide as Hz.
        * rewrite bool_decide_eq_true_2 by (by constructor).
          by rewrite IH.
        * rewrite bool_decide_eq_false_2
            by (intros Hall; apply Hz; by inversion Hall).
          by destruct (conv_seg_loop self x z).
      + rewrite bool_decide_eq_false_2
          by (intros Hall; apply Hr; by inversion Hall).
        by destruct (conv_seg_sample self x row). }
  unfold conv_seg_forward. case_bool_decide as Hall.
  - rewrite Hloop. simpl. destruct z as [|row z]; simpl.
    + split; [split; [done|by intros [? _]]|done].
    + split; [split; [done|intros _; by split]|].
      intros out Hout. simplify_eq. split; [done|].
      rewrite length_app. unfold F_conv2d at 1. rewrite length_map. f_equal.
      clear. induction z as [|r z IH]; simpl; [done|].
      rewrite length_app, IH. unfold F_conv2d. by rewrite length_map.
  - destruct (conv_seg_loop self x z); [done|]. simpl.
    split; [split; [done|by intros [_ ?]]|done].
Qed.

(** **** The calls and the keys of [losses] *)

Lemma losses_body_call (self : t) (sl : list Logit) (lb : LabelT)
    (sw : option Weight) (slj : Acc) (loss : gmap string Acc)
    (l : LossModule) (s : list loss_call_record) :
  exists wopt,
    (losses_body self sl lb sw slj loss l s).1 = s ++ [(l, wopt)]
    /\ wopt = match loss !! loss_name l with Some _ => sw | None => None end.
Proof.
  run_body. destruct (loss !! loss_name l) as [old|]; simpl.
  - exists sw. by destruct (is_edl (loss_name l)).
  - exists None.
    destruct (is_edl (loss_name l)); [destruct (get_logs l)|]; done.
Qed.

Lemma losses_loop_calls (self : t) (sl : list Logit) (lb : LabelT)
    (sw : option Weight) (slj : Acc) (ls : list LossModule)
    (loss : gmap string Acc) (s s' : list loss_call_record)
    (r : result (gmap string Acc)) :
  for_each ls loss (losses_body self sl lb sw slj) s = (s', r) ->
  exists k, k <= length ls
    /\ map fst s' = map fst s ++ take k ls
    /\ (is_ok r = true -> k = length ls).
Proof.
  revert loss s. induction ls as [|l ls IH]; intros loss s Hrun.
  - simpl in Hrun. unfold mret in Hrun. simplify_eq.
    exists 0. by rewrite app_nil_r.
  - simpl in Hrun. unfold mbind at 1 in Hrun.
    destruct (losses_body_call self sl lb sw slj loss l s) as (wopt & Hs & _).
    destruct (losses_body self sl lb sw slj loss l s) as [s1 [loss1|e]];
      simpl in Hs; subst s1.
    + destruct (IH _ _ Hrun) as (k & Hk & Hcalls & Hok).
      exists (S k). split; [simpl; lia|].
      rewrite Hcalls, map_app, <- app_assoc. simpl.
      split; [done|]. intros Hr. by rewrite Hok.
    + simplify_eq. exists 1. split; [simpl; lia|].
      rewrite map_app. simpl. by rewrite take_0.
Qed.

(** X6: [losses] calls the configured loss modules in their order, each
    at most once, and stops at the first that makes it raise: the
    modules called are a prefix of the configured ones, and all of them
    when a dictionary is returned. *)
Theorem losses_calls_in_order (self : t) (seg_logit : list Logit)
    (seg_label : LabelT) (sum_log_jacobians : Acc) :
  let run := losses self seg_logit seg_label sum_log_jacobians [] in
  (exists k, map fst run.1 = take k (losses_decode_list self))
  /\ (is_ok run.2 = true -> map fst run.1 = losses_decode_list self).
Proof.
  intros run.
  destruct run as [calls r] eqn:Hrun. unfold run in Hrun.
  destruct (is_tensor sum_log_jacobians) eqn:Ht.
  - rewrite losses_tensor in Hrun by done.
    destruct (losses_loop_calls _ _ _ _ _ _ _ _ _ _ Hrun)
      as (k & Hk & Hc & Hok).
    simpl in *. split; [by exists k|].
    intros Hr. rewrite Hc, (Hok Hr). by rewrite take_ge.
  - rewrite losses_number in Hrun by done. simplify_eq. simpl.
    split; [by exists 0|done].
Qed.

(** Set goals are solved from the goal alone. *)
Ltac solve_sets :=
  repeat match goal with H : _ |- _ => clear H end; set_solver.

Lemma losses_loop_dom (self : t) (sl : list Logit) (lb : LabelT)
    (sw : option Weight) (slj : Acc) (ls : list LossModule)
    (loss : gmap string Acc) (s s' : list loss_call_record)
    (d : gmap string Acc) :
  for_each ls loss (losses_body self sl lb sw slj) s = (s', Ok d) ->
  any_edl ls = false ->
  dom d = dom loss ∪ list_to_set (map loss_name ls)
  /\ forall k, (forall l, l ∈ ls -> loss_name l <> k) -> d !! k = loss !! k.
Proof.
  revert loss s. induction ls as [|l ls IH]; intros loss s Hrun Hedl.
  - simpl in *. unfold mret in Hrun. simplify_eq.
    split; [solve_sets|done].
  - simpl in Hrun, Hedl. unfold mbind at 1 in Hrun.
    apply orb_false_iff in Hedl as [Hl Hls].
    destruct (losses_body self sl lb sw slj loss l s) as [s1 [loss1|e]] eqn:Hb;
      [|discriminate].
    destruct (IH _ _ Hrun Hls) as [Hdom Hkeep].
    assert (Hstep : exists v, loss1 = <[loss_name l := v]> loss).
    { clear IH Hrun. run_body. rewrite Hl in Hb.
      destruct (loss !! loss_name l); simplify_eq; by eexists. }
    destruct Hstep as [v ->]. split.
    + rewrite Hdom, dom_insert_L. simpl. solve_sets.
    + intros k Hk. rewrite Hkeep by (intros l' Hl'; apply Hk; by right).
      rewrite lookup_insert_ne; [done|]. apply Hk. by left.
Qed.

(** X7: with no evidential loss configured, the dictionary [losses]
    returns holds exactly [acc_seg] and the names of the configured
    losses; when none of them is called [acc_seg], the entry [acc_seg]
    is the accuracy of the resized logits against the repeated labels. *)
Theorem losses_keys_without_edl (self : t) (seg_logit : list Logit)
    (seg_label : LabelT) (sum_log_jacobians : Acc)
    (calls : list loss_call_record) (d : gmap string Acc) :
  losses self seg_logit seg_label sum_log_jacobians [] = (calls, Ok d) ->
  any_edl (losses_decode_list self) = false ->
  dom d = {["acc_seg"]} ∪ list_to_set (map loss_name (losses_decode_list self))
  /\ ((forall l, l ∈ losses_decode_list self -> loss_name l <> "acc_seg") ->
      d !! "acc_seg"
      = Some (accuracy (resized_logit self seg_logit seg_label)
                (repeated_label seg_label sum_log_jacobians)
                (ignore_index self))).
Proof.
  intros Hrun Hedl.
  rewrite losses_tensor in Hrun by (eapply losses_ok_tensor; by rewrite Hrun).
  destruct (losses_loop_dom _ _ _ _ _ _ _ _ _ _ Hrun Hedl) as [Hdom Hkeep].
  split.
  - rewrite Hdom, dom_insert_L. solve_sets.
  - intros Hacc. rewrite (Hkeep _ Hacc). apply lookup_insert_eq.
Qed.

(** X8: when [sum_log_jacobians] is a tensor, two losses configured
    under one name that is not evidential (and not [acc_seg]) share an
    entry: the first is computed without weight and gets the mean of
    [sum_log_jacobians] added, the second is computed with the sampler's
    weight (if any) and added on top; the mean is added once.  When
    [sum_log_jacobians] is a Python number, [losses] raises
    [AttributeError] before any loss is called. *)
Theorem losses_shared_name (self : t) (seg_logit : list Logit)
    (seg_label : LabelT) (sum_log_jacobians : Acc) (l1 l2 : LossModule) :
  let sl := resized_logit self seg_logit seg_label in
  let lb := repeated_label seg_label sum_log_jacobians in
  let sw := sampled_weight self seg_logit seg_label in
  loss_decode self = ModuleList [l1; l2] ->
  loss_name l2 = loss_name l1 ->
  is_edl (loss_name l1) = false ->
  loss_name l1 <> "acc_seg" ->
  if is_tensor sum_log_jacobians then
    exists d,
      losses self seg_logit seg_label sum_log_jacobians []
      = ([(l1, None); (l2, sw)], Ok d)
      /\ d !! loss_name l1
         = Some (acc_add
                   (acc_add (loss_call l1 sl lb None (ignore_index self))
                            (acc_mean sum_log_jacobians))
                   (loss_call l2 sl lb sw (ignore_index self)))
      /\ d !! "acc_seg" = Some (accuracy sl lb (ignore_index self))
      /\ dom d = {["acc_seg"; loss_name l1]}
  else
    losses self seg_logit seg_label sum_log_jacobians []
    = ([], Raise (AttributeError "numel")).
Proof.
  intros sl lb sw Hld Hname Hedl Hacc.
  destruct (is_tensor sum_log_jacobians) eqn:Ht;
    [|by rewrite losses_number].
  rewrite losses_tensor by done.
  unfold losses_decode_list. rewrite Hld. simpl for_each.
  fold sl lb sw.
  unfold losses_body at 1.
  rewrite lookup_insert_ne, lookup_empty by done.
  unfold call_loss, mbind, modify, mret. simpl. rewrite Hedl.
  unfold losses_body, call_loss, mbind, modify, mret. simpl.
  rewrite Hname, lookup_insert_eq, Hedl.
  eexists. split; [reflexivity|].
  rewrite insert_insert_eq.
  split; [apply lookup_insert_eq|].
  split; [by rewrite lookup_insert_ne, lookup_insert_eq|].
  rewrite !dom_insert_L. solve_sets.
Qed.

Lemma losses_body_grows (self : t) (sl : list Logit) (lb : LabelT)
    (sw : option Weight) (slj : Acc) (loss loss1 : gmap string Acc)
    (l : LossModule) (s s1 : list loss_call_record) :
  losses_body self sl lb sw slj loss l s = (s1, Ok loss1) ->
  is_Some (loss1 !! loss_name l)
  /\ forall k, is_Some (loss !! k) -> is_Some (loss1 !! k).
Proof.
  intros Hb. run_body.
  destruct (loss !! loss_name l) as [old|] eqn:Hl; simpl in Hb.
  - destruct (is_edl (loss_name l)); simplify_eq. split.
    + rewrite lookup_insert_eq. by eexists.
    + intros k Hk. rewrite lookup_insert. case_decide; [by eexists|done].
  - assert (Hins : forall v k, is_Some (loss !! k) ->
              is_Some (<[loss_name l := v]> loss !! k)).
    { intros v k Hk. rewrite lookup_insert. case_decide; [by eexists|done]. }
    destruct (is_edl (loss_name l)); [destruct (get_logs l) as [f|]|];
      simplify_eq.
    + split.
      * apply lookup_union_is_Some. right. rewrite lookup_insert_eq. by eexists.
      * intros k Hk. apply lookup_union_is_Some. right. by apply Hins.
    + split; [rewrite lookup_insert_eq; by eexists|]. intros k. apply Hins.
Qed.

Lemma losses_loop_blocks (self : t) (sl : list Logit) (lb : LabelT)
    (sw : option Weight) (slj : Acc) (ls : list LossModule)
    (loss : gmap string Acc) (s s' : list loss_call_record)
    (d : gmap string Acc) (k : string) :
  for_each ls loss (losses_body self sl lb sw slj) s = (s', Ok d) ->
  is_Some (loss !! k) ->
  is_edl k = true ->
  forall l, l ∈ ls -> loss_name l <> k.
Proof.
  revert loss s. induction ls as [|l0 ls IH]; intros loss s Hrun Hk Hedl l Hin.
  - by apply elem_of_nil in Hin.
  - simpl in Hrun. unfold mbind at 1 in Hrun.
    destruct (losses_body self sl lb sw slj loss l0 s) as [s1 [loss1|e]] eqn:Hb;
      [|discriminate].
    apply elem_of_cons in Hin as [->|Hin].
    + intros Heq. destruct Hk as [v Hv]. run_body.
      rewrite Heq, Hv, Hedl in Hb. simpl in Hb. discriminate.
    + destruct (losses_body_grows _ _ _ _ _ _ _ _ _ _ Hb) as [_ Hmono].
      by eapply (IH loss1 s1 Hrun (Hmono _ Hk)).
Qed.

(** X9: a call of [losses] that returns a dictionary was configured with
    pairwise distinct evidential loss names: two losses under one name
    starting with [loss_edl] make it raise, with or without a sampler. *)
Theorem losses_edl_names_distinct (self : t) (seg_logit : list Logit)
    (seg_label : LabelT) (sum_log_jacobians : Acc) (i j : nat)
    (l1 l2 : LossModule) :
  is_ok (losses self seg_logit seg_label sum_log_jacobians []).2 = true ->
  losses_decode_list self !! i = Some l1 ->
  losses_decode_list self !! j = Some l2 ->
  is_edl (loss_name l1) = true ->
  loss_name l2 = loss_name l1 ->
  i = j.
Proof.
  intros Hok.
  destruct (losses self seg_logit seg_label sum_log_jacobians []) as [calls r]
    eqn:Hrun.
  destruct r as [d|e]; [|discriminate]. clear Hok.
  rewrite losses_tensor in Hrun by (eapply losses_ok_tensor; by rewrite Hrun).
  revert Hrun. generalize (@nil loss_call_record) as s.
  generalize (<["acc_seg" := accuracy (resized_logit self seg_logit seg_label)
                  (repeated_label seg_label sum_log_jacobians)
                  (ignore_index self)]> (∅ : gmap string Acc)) as loss.
  assert (Hgen : forall ls loss s a b la lb',
            for_each ls loss
              (losses_body self (resized_logit self seg_logit seg_label)
                 (repeated_label seg_label sum_log_jacobians)
                 (sampled_weight self seg_logit seg_label) sum_log_jacobians) s
            = (calls, Ok d) ->
            a < b -> ls !! a = Some la -> ls !! b = Some lb' ->
            is_edl (loss_name la) = true -> loss_name lb' = loss_name la ->
            False).
  { induction ls as [|l0 ls IH]; intros loss s a b la lb' Hrun Hab Ha Hb He Hn.
    - done.
    - simpl in Hrun. unfold mbind at 1 in Hrun.
      destruct (losses_body self _ _ _ _ loss l0 s) as [s1 [loss1|e]] eqn:Hbody;
        [|discriminate].
      destruct b as [|b]; [lia|]. simpl in Hb.
      destruct a as [|a]; simpl in Ha.
      + simplify_eq.
        destruct (losses_body_grows _ _ _ _ _ _ _ _ _ _ Hbody) as [Hin _].
        eapply (losses_loop_blocks _ _ _ _ _ _ _ _ _ _ _ Hrun Hin He);
          [|exact Hn].
        by eapply list_elem_of_lookup_2.
      + eapply (IH loss1 s1 a b); eauto. lia. }
  intros loss s Hrun Hi Hj He Hn.
  destruct (Nat.lt_trichotomy i j) as [Hlt|[Heq|Hgt]]; [|done|].
  - exfalso. by eapply (Hgen _ _ _ i j l1 l2).
  - exfalso. eapply (Hgen _ _ _ j i l2 l1); eauto; congruence.
Qed.

End Head.
End NfBllBaseDecodeHead.

(** ** The evaluation loops of [mmseg/apis/test.py] *)

(** A Python [str] is a sequence of characters; a [string] here holds
    its UTF-8 encoding, in which a character is one byte or a leading
    byte followed by continuation bytes (those of the form [10xxxxxx]). *)
Definition is_continuation (b : Ascii.ascii) : bool :=
  match b with
  | Ascii.Ascii _ _ _ _ _ _ b6 b7 => b7 && negb b6
  end.

(** The characters of a string, in order: a byte is put in front of the
    character that follows when that one starts with a continuation
    byte. *)
Definition continues (s : string) : bool :=
  match s with
  | EmptyString => false
  | String b _ => is_continuation b
  end.

Fixpoint chars (s : string) : list string :=
  match s with
  | EmptyString => []
  | String b rest =>
      match chars rest with
      | c :: cs =>
          if continues rest then String b c :: cs
          else String b EmptyString :: c :: cs
      | [] => [String b EmptyString]
      end
  end.

(** The string of a list of characters. *)
Definition join (cs : list string) : string := foldr String.append "" cs.

(** [s[:-4]] and [s[-4:]] on a Python string, which count characters (no
    slice of a string is out of range). *)
Definition str_drop_last4 (s : string) : string :=
  join (take (length (chars s) - 4) (chars s)).

Definition str_last4 (s : string) : string :=
  join (drop (length (chars s) - 4) (chars s)).

(** A string that does not start in the middle of a character. *)
Definition starts_char (s : string) : bool :=
  match s with
  | EmptyString => true
  | String b _ => negb (is_continuation b)
  end.

Lemma chars_cons (b b' : Ascii.ascii) (r : string) :
  exists c cs, chars (String b' r) = c :: cs.
Proof.
  simpl. destruct (chars r) as [|c cs]; [by eexists _, _|].
  destruct (continues r); by eexists _, _.
Qed.

Lemma chars_step (b b' : Ascii.ascii) (r : string) :
  chars (String b (String b' r))
  = match chars (String b' r) with
    | c :: cs =>
        if is_continuation b' then String b c :: cs
        else String b EmptyString :: c :: cs
    | [] => [String b EmptyString]
    end.
Proof. reflexivity. Qed.

Lemma join_chars (s : string) : join (chars s) = s.
Proof.
  induction s as [|b rest IH]; [done|].
  destruct rest as [|b' r]; [done|].
  rewrite chars_step. destruct (chars (String b' r)) as [|c cs] eqn:Hc.
  - destruct (chars_cons b b' r) as (c & cs & Hc'). congruence.
  - destruct (is_continuation b'); rewrite <- IH; reflexivity.
Qed.

Lemma chars_app (stem ext : string) :
  starts_char ext = true ->
  chars (String.append stem ext) = chars stem ++ chars ext.
Proof.
  intros Hext. induction stem as [|b rest IH]; [done|].
  change (String.append (String b rest) ext)
    with (String b (String.append rest ext)).
  destruct rest as [|b' r].
  - change (String.append "" ext) with ext.
    destruct ext as [|e ext']; [done|].
    rewrite chars_step. simpl in Hext.
    destruct (chars_cons b e ext') as (c & cs & ->).
    apply negb_true_iff in Hext. by rewrite Hext.
  - change (String.append (String b' r) ext)
      with (String b' (String.append r ext)) in *.
    rewrite !chars_step, IH.
    destruct (chars_cons b b' r) as (c & cs & ->). simpl.
    by destruct (is_continuation b').
Qed.

(** The truth value of [out_dir]: [None] and the empty string are false. *)
Definition truthy (o : option string) : bool :=
  match o with
  | Some s => negb (String.eqb s "")
  | None => false
  end.

(** [flags.count(True)]. *)
Definition count_true (flags : list bool) : nat :=
  length (filter (fun b => b = true) flags).

Definition exclusive_msg : string :=
  "``efficient_test``, ``pre_eval`` and ``format_only`` are mutually exclusive, only one of them could be true .".

Definition deprecation_msg : string :=
  "DeprecationWarning: ``efficient_test`` will be deprecated, the evaluation is CPU memory friendly with pre_eval=True".

Module Test.
Section Eval.

(** What the loop only passes around: a prediction, the logits of a
    batch, a ground-truth map, the collated input of a batch, and the
    values the dataset reduces them to. *)
Variable Pred : Type.
Variable LogitT : Type.
Variable GtMap : Type.
Variable Data : Type.
Variable Fmt : Type.
Variable SegPre : Type.
Variable OthPre : Type.
Variable FormatArgs : Type.
Variable BagsKwargs : Type.

(** One image of a batch, as [data['img_metas'][0].data[0]] lists them,
    with the fields the loop reads. *)
Record ImgMeta : Type := mk_meta {
  img_shape : nat * nat * nat;
  ori_shape : nat * nat * nat;
  ori_filename : string;
}.

(** [data['img_metas'][0].data[0]], and the number of images
    [tensor2imgs(data['img'][0], ...)] returns. *)
Variable data_img_metas : Data -> list ImgMeta.
Variable data_num_imgs : Data -> nat.

(** [osp.join] and [NamedTemporaryFile(suffix='.npy', dir=tmpdir).name],
    the latter by the number of files made before. *)
Variable osp_join : string -> string -> string.
Variable tmp_name : string -> nat -> string.

(** An entry of the result list. *)
Inductive entry : Type :=
  | Raw (p : Pred)
  | Saved (path : string)
  | Formatted (f : Fmt)
  | PreEval (result_seg : SegPre) (result_oth : OthPre).

(** What [logit_fn] is bound to when [pre_eval_custom] is called. *)
Inductive logit_fn : Type :=
  | logit2alpha (pow_alpha : bool)
  | logit2prob_softplus
  | logit2prob_softmax.

Inductive custom_arg : Type :=
  | LogitFn (f : logit_fn)
  | Bags (use_bags : bool) (bags_kwargs : BagsKwargs).

Record Dataset : Type := mk_dataset {
  ds_len : nat;
  get_gt_seg_map_by_idx_and_reduce_zero_label : nat -> GtMap;
  format_results : list entry -> list nat -> FormatArgs -> list Fmt;
  pre_eval : list entry -> list nat -> list SegPre;
  pre_eval_custom : LogitT -> GtMap -> string -> custom_arg -> OthPre;
  has_ood_indices : bool;
}.

(** The attributes of a loss module the loops read. *)
Record LossAttrs : Type := mk_loss_attrs {
  loss_name : string;
  pow_alpha : bool;
  use_softplus : bool;
}.

(** [decode_head.loss_decode]: one loss module, or the [nn.ModuleList]
    the head builds for a sequence of losses. *)
Inductive LossDecode : Type :=
  | SingleLoss (l : LossAttrs)
  | ModuleList (ls : list LossAttrs).

(** The attributes of [decode_head] the loops read; [use_bags] is
    [getattr(decode_head, 'use_bags', False)]. *)
Record DecodeHead : Type := mk_decode_head {
  use_bags : bool;
  bags_kwargs : BagsKwargs;
  loss_decode : LossDecode;
}.

(** A segmentor, or an mmrazor [BaseAlgorithm] around one (which has no
    [decode_head] of its own). *)
Inductive net : Type :=
  | Segmentor (decode_head : DecodeHead)
  | Algorithm (architecture_model : DecodeHead).

Record Model : Type := mk_model {
  is_module_wrapper : bool;
  the_net : net;
  call : Data -> bool -> list Pred * LogitT;
}.

Record DataLoader : Type := mk_loader {
  batch_size : option nat;
  dataset : Dataset;
  (** [zip(data_loader.batch_sampler, data_loader)] *)
  batches : list (list nat * Data);
}.

(** What a rendering shows. *)
Inductive picture : Type :=
  | Prediction | GroundTruth
  | EdlU | EdlDiss | EdlConf | SmConf
  | EdgeMask | OodMask.

Inductive event : Type :=
  | Warn (msg : string)
  | ModelEval
  | ModelCall (data : Data) (rescale : bool)
  | ShowResult (what : picture) (show : bool) (out_file : option string)
  | Plot (what : picture) (file : string)
  | ProgressBar (n : nat)
  | ProgressUpdate.

(** The world around a process: the directories and the temporary files
    it has made, and what it has done in order. *)
Record World : Type := mk_world {
  dirs : gset string;
  tmp_files : list string;
  log : list event;
}.

Definition emit (e : event) : M World unit :=
  modify (fun w => mk_world (dirs w) (tmp_files w) (log w ++ [e])).

Definition mkdir_or_exist (d : string) : M World unit :=
  modify (fun w => mk_world ({[d]} ∪ dirs w) (tmp_files w) (log w)).

Definition np2tmp (tmpdir : string) (array : entry) : M World entry :=
  let* n := gets (fun w => length (tmp_files w)) in
  let temp_file_name := tmp_name tmpdir n in
  do modify (fun w => mk_world (dirs w) (tmp_files w ++ [temp_file_name]) (log w)) then
  mret (Saved temp_file_name).

Fixpoint map_m {S A B} (f : A -> M S B) (xs : list A) : M S (list B) :=
  match xs with
  | [] => mret []
  | x :: xs' => let* y := f x in let* ys := map_m f xs' in mret (y :: ys)
  end.

Fixpoint repeat_m {S} (n : nat) (m : M S unit) : M S unit :=
  match n with
  | O => mret tt
  | S n' => do m then repeat_m n' m
  end.

(** [xs[0]]. *)
Definition index0 {S A} (xs : list A) : M S A :=
  match xs with
  | x :: _ => mret x
  | [] => mraise IndexError
  end.

(** [model.module], [x.decode_head]. *)
Definition module_of {S} (model : Model) : M S net :=
  if is_module_wrapper model then mret (the_net model)
  else mraise (AttributeError "module").

Definition decode_head_of {S} (n : net) : M S DecodeHead :=
  match n with
  | Segmentor dh => mret dh
  | Algorithm _ => mraise (AttributeError "decode_head")
  end.

(** [out_file[:-4] + tag + out_file[-4:]]; [None] has no slices. *)
Definition tagged {S} (out_file : option string) (tag : string) : M S string :=
  match out_file with
  | Some f => mret (String.append (str_drop_last4 f) (String.append tag (str_last4 f)))
  | None => mraise (TypeError "'NoneType' object is not subscriptable")
  end.

Definition is_edl (name : string) : bool := String.prefix "loss_edl" name.

(** [decode_head.loss_decode.loss_name]: an [nn.ModuleList] has no such
    attribute. *)
Definition single_loss (dh : DecodeHead) : result LossAttrs :=
  match loss_decode dh with
  | SingleLoss l => Ok l
  | ModuleList _ => Raise (AttributeError "loss_name")
  end.

Definition lift_result {S A} (r : result A) : M S A :=
  match r with Ok a => mret a | Raise e => mraise e end.

(** The body of [for img, img_meta in zip(imgs, img_metas)]. *)
Definition show_one (model : Model) (ds : Dataset) (show : bool)
    (out_dir : option string) (result : list Pred) (img_meta : ImgMeta)
  : M World unit :=
  let out_file :=
    if truthy out_dir
    then Some (osp_join (default "" out_dir) (ori_filename img_meta))
    else None in
  let* _result := index0 result in
  let* m := module_of model in
  do emit (ShowResult Prediction show out_file) then
  let* m := module_of model in
  let* gt_file := tagged out_file "_gt" in
  do emit (ShowResult GroundTruth show (Some gt_file)) then
  let* m := module_of model in
  let* dh := decode_head_of m in
  do (if negb (use_bags dh) then
        let* l := lift_result (single_loss dh) in
        if is_edl (loss_name l) then
          let* f := tagged out_file "_edl_u" in
          do emit (Plot EdlU f) then
          let* f := tagged out_file "_edl_diss" in
          do emit (Plot EdlDiss f) then
          let* f := tagged out_file "_edl_conf" in
          emit (Plot EdlConf f)
        else
          let* f := tagged out_file "_sm_conf" in
          emit (Plot SmConf f)
      else mret tt) then
  let* f := tagged out_file "_edge_mask" in
  do emit (Plot EdgeMask f) then
  if has_ood_indices ds then
    let* f := tagged out_file "_ood_mask" in
    emit (Plot OodMask f)
  else mret tt.

(** The branch [if (show or out_dir)]. *)
Definition visualize (model : Model) (ds : Dataset) (show : bool)
    (out_dir : option string) (data : Data) (result : list Pred)
  : M World unit :=
  let img_metas := data_img_metas data in
  let* _norm := index0 img_metas in
  do py_assert (Nat.eqb (data_num_imgs data) (length img_metas)) "" then
  for_each img_metas tt (fun _ img_meta =>
    show_one model ds show out_dir result img_meta).

(** The auxiliary pre-result of [pre_eval], read from the decode head
    [dh] of the unwrapped model; [bags_of] is the head the bag branch
    reads its configuration from. *)
Definition pre_eval_oth {S} (ds : Dataset) (dh : DecodeHead) (bags_of : M S DecodeHead)
    (seg_logit : LogitT) (seg_gt : GtMap) : M S OthPre :=
  if negb (use_bags dh) then
    let* l := lift_result (single_loss dh) in
    if is_edl (loss_name l) then
      mret (pre_eval_custom ds seg_logit seg_gt "edl" (LogitFn (logit2alpha (pow_alpha l))))
    else if use_softplus l then
      mret (pre_eval_custom ds seg_logit seg_gt "softmax" (LogitFn logit2prob_softplus))
    else
      mret (pre_eval_custom ds seg_logit seg_gt "softmax" (LogitFn logit2prob_softmax))
  else
    let* bh := bags_of in
    mret (pre_eval_custom ds seg_logit seg_gt "softmax" (Bags (use_bags bh) (bags_kwargs bh))).

(** [_model]: the model without its wrapper, and without the algorithm
    around it. *)
Definition unwrapped_head (model : Model) : DecodeHead :=
  match the_net model with
  | Segmentor dh => dh
  | Algorithm dh => dh
  end.

(** The steps both loops take with the [result] of a batch; they return
    what the batch adds to [results]. *)
Definition collect_batch (model : Model) (ds : Dataset)
    (efficient_test pre_eval_flag format_only : bool) (format_args : FormatArgs)
    (bags_of : M World DecodeHead)
    (batch_indices : list nat) (result : list Pred) (seg_logit : LogitT)
    (seg_gt : GtMap) : M World (list entry) :=
  let result := map Raw result in
  let* result :=
    if efficient_test then map_m (np2tmp ".efficient_test") result
    else mret result in
  let result :=
    if format_only
    then map Formatted (format_results ds result batch_indices format_args)
    else result in
  if pre_eval_flag then
    let* result_seg := index0 (pre_eval ds result batch_indices) in
    let* result_oth :=
      pre_eval_oth ds (unwrapped_head model) bags_of seg_logit seg_gt in
    mret [PreEval result_seg result_oth]
  else mret result.

(** The statements before the loop that both functions share. *)
Definition check_modes (efficient_test pre_eval_flag format_only : bool)
  : M World unit :=
  do (if efficient_test then
        do emit (Warn deprecation_msg) then
        mkdir_or_exist ".efficient_test"
      else mret tt) then
  py_assert (Nat.leb (count_true [efficient_test; pre_eval_flag; format_only]) 1)
    exclusive_msg.

Definition single_gpu_body (model : Model) (ds : Dataset) (show : bool)
    (out_dir : option string) (efficient_test pre_eval_flag format_only : bool)
    (format_args : FormatArgs) (results : list entry)
    (batch : list nat * Data) : M World (list entry) :=
  let '(batch_indices, data) := batch in
  do emit (ModelCall data false) then
  let '(result, seg_logit) := call model data false in
  let* idx := index0 batch_indices in
  let seg_gt := get_gt_seg_map_by_idx_and_reduce_zero_label ds idx in
  do (if show || truthy out_dir
      then visualize model ds show out_dir data result
      else mret tt) then
  let* result :=
    collect_batch model ds efficient_test pre_eval_flag format_only format_args
      (let* m := module_of model in decode_head_of m)
      batch_indices result seg_logit seg_gt in
  let batch_size := length result in
  do repeat_m batch_size (emit ProgressUpdate) then
  mret (results ++ result).

Definition single_gpu_test (model : Model) (data_loader : DataLoader)
    (show : bool) (out_dir : option string)
    (efficient_test pre_eval_flag format_only : bool)
    (format_args : FormatArgs) : M World (list entry) :=
  do check_modes efficient_test pre_eval_flag format_only then
  do emit ModelEval then
  do py_assert (bool_decide (batch_size data_loader = Some 1))
       "TEST SCRIPT ONLY WORKS WITH BATCH SIZE=1" then
  let ds := dataset data_loader in
  do emit (ProgressBar (ds_len ds)) then
  for_each (batches data_loader) []
    (single_gpu_body model ds show out_dir efficient_test pre_eval_flag
       format_only format_args).

Definition multi_gpu_body (model : Model) (ds : Dataset) (rank world_size : nat)
    (efficient_test pre_eval_flag format_only : bool)
    (format_args : FormatArgs) (results : list entry)
    (batch : list nat * Data) : M World (list entry) :=
  let '(batch_indices, data) := batch in
  do emit (ModelCall data true) then
  let '(result, seg_logit) := call model data true in
  let* idx := index0 batch_indices in
  let seg_gt := get_gt_seg_map_by_idx_and_reduce_zero_label ds idx in
  let* result :=
    collect_batch model ds efficient_test pre_eval_flag format_only format_args
      (mret (unwrapped_head model))
      batch_indices result seg_logit seg_gt in
  do (if Nat.eqb rank 0 then
        let batch_size := length result * world_size in
        repeat_m batch_size (emit ProgressUpdate)
      else mret tt) then
  mret (results ++ result).

(** [multi_gpu_test] up to the collection: what one process computes on
    its own. *)
Definition multi_gpu_loop (model : Model) (data_loader : DataLoader)
    (rank world_size : nat) (efficient_test pre_eval_flag format_only : bool)
    (format_args : FormatArgs) : M World (list entry) :=
  do check_modes efficient_test pre_eval_flag format_only then
  do emit ModelEval then
  let ds := dataset data_loader in
  do (if Nat.eqb rank 0 then emit (ProgressBar (ds_len ds)) else mret tt) then
  for_each (batches data_loader) []
    (multi_gpu_body model ds rank world_size efficient_test pre_eval_flag
       format_only format_args).

(** *** The collection

    [collect_results_cpu] and [collect_results_gpu] are functions of the
    library mmcv ([mmcv/engine/test.py]), not of the sources, which only
    call them.  They are modelled after the library: every process hands
    over its part; the process of rank [0] takes the parts of all ranks
    in order, leaves out the empty ones, goes through them in parallel
    ([zip], which stops with the shortest part), chains the tuples and
    keeps the first [size] entries; every other process gets [None].
    How the parts travel (files under [tmpdir], or collective
    communication) is the library's business and not modelled. *)

Definition nonempty (part : list entry) : bool :=
  match part with [] => false | _ :: _ => true end.

(** The length of the shortest part; [0] when there is no part. *)
Definition shortest (part_list : list (list entry)) : nat :=
  match part_list with
  | [] => 0
  | part :: rest => foldr (fun q n => Nat.min (length q) n) (length part) rest
  end.

(** [zip] over the parts: for every position of the shortest part, the
    entries the parts hold there, in the order of the parts. *)
Definition zip_parts (part_list : list (list entry)) : list (list entry) :=
  map (fun j => omap (fun part => part !! j) part_list)
      (seq 0 (shortest part_list)).

Definition ordered_results (parts : list (list entry)) (size : nat)
  : list entry :=
  let part_list := List.filter nonempty parts in
  take size (concat (zip_parts part_list)).

(** The parts by rank, as the process [rank] sees them: its own
    [result_part], and for every other rank the part listed in [peers]
    (a rank beyond the list has handed over nothing). *)
Definition parts_by_rank (rank world_size : nat) (result_part : list entry)
    (peers : list (list entry)) : list (list entry) :=
  map (fun i => if Nat.eqb i rank then result_part
                else default [] (peers !! i))
      (seq 0 world_size).

Definition collect_results_cpu (rank world_size : nat)
    (result_part : list entry) (peers : list (list entry)) (size : nat)
    (tmpdir : option string) : option (list entry) :=
  if Nat.eqb rank 0
  then Some (ordered_results (parts_by_rank rank world_size result_part peers)
               size)
  else None.

Definition collect_results_gpu (rank world_size : nat)
    (result_part : list entry) (peers : list (list entry)) (size : nat)
  : option (list entry) :=
  if Nat.eqb rank 0
  then Some (ordered_results (parts_by_rank rank world_size result_part peers)
               size)
  else None.

(** [multi_gpu_test] in the process of rank [rank] among [world_size]
    processes; [peers] lists by rank the parts the other processes hand
    to the collection.  What is returned is [None] in every process but
    the one of rank [0]. *)
Definition multi_gpu_test (model : Model) (data_loader : DataLoader)
    (tmpdir : option string) (gpu_collect : bool)
    (efficient_test pre_eval_flag format_only : bool)
    (format_args : FormatArgs) (rank world_size : nat)
    (peers : list (list entry)) : M World (option (list entry)) :=
  let* results :=
    multi_gpu_loop model data_loader rank world_size efficient_test
      pre_eval_flag format_only format_args in
  let size := ds_len (dataset data_loader) in
  if gpu_collect
  then mret (collect_results_gpu rank world_size results peers size)
  else mret (collect_results_cpu rank world_size results peers size tmpdir).

(** *** Properties of the evaluation loops *)

(** The world [check_modes] leaves: with [efficient_test] the warning is
    out and the directory exists, whatever the assertion then says. *)
Definition after_check (efficient_test : bool) (w : World) : World :=
  if efficient_test
  then mk_world ({[".efficient_test"]} ∪ dirs w) (tmp_files w)
                (log w ++ [Warn deprecation_msg])
  else w.

Lemma world_eta (w : World) : mk_world (dirs w) (tmp_files w) (log w) = w.
Proof. by destruct w. Qed.

Lemma check_modes_run (efficient_test pre_eval_flag format_only : bool) (w : World) :
  check_modes efficient_test pre_eval_flag format_only w
  = (after_check efficient_test w,
     if Nat.leb (count_true [efficient_test; pre_eval_flag; format_only]) 1
     then Ok tt else Raise (AssertionError exclusive_msg)).
Proof.
  unfold check_modes, after_check, py_assert, mbind, emit, mkdir_or_exist,
    modify, mret, mraise.
  destruct efficient_test, pre_eval_flag, format_only; simpl; reflexivity.
Qed.

(** C2 (amended): for both entry points, when more than one of
    [efficient_test], [pre_eval], [format_only] is true the call raises
    the assertion error with the message on mutual exclusion before the
    model is put in evaluation mode or run on any batch; nothing is
    changed when [efficient_test] is false, and when it is true the
    deprecation warning has been issued and the directory
    [.efficient_test] has been made before the rejection. *)
Theorem conflicting_modes_rejected (model : Model) (data_loader : DataLoader)
    (show : bool) (out_dir tmpdir : option string) (gpu_collect : bool)
    (efficient_test pre_eval_flag format_only : bool) (format_args : FormatArgs)
    (rank world_size : nat) (peers : list (list entry)) (w : World) :
  1 < count_true [efficient_test; pre_eval_flag; format_only] ->
  single_gpu_test model data_loader show out_dir efficient_test pre_eval_flag
    format_only format_args w
  = (after_check efficient_test w, Raise (AssertionError exclusive_msg))
  /\ multi_gpu_test model data_loader tmpdir gpu_collect efficient_test
       pre_eval_flag format_only format_args rank world_size peers w
     = (after_check efficient_test w, Raise (AssertionError exclusive_msg)).
Proof.
  intros Hc.
  assert (Hleb : Nat.leb (count_true [efficient_test; pre_eval_flag; format_only]) 1
                 = false) by (apply Nat.leb_gt; exact Hc).
  assert (Hchk : check_modes efficient_test pre_eval_flag format_only w
                 = (after_check efficient_test w,
                    Raise (AssertionError exclusive_msg)))
    by (rewrite check_modes_run, Hleb; reflexivity).
  unfold single_gpu_test, multi_gpu_test, multi_gpu_loop. split.
  - by apply mbind_raise.
  - by apply mbind_raise, mbind_raise.
Qed.

Lemma multi_gpu_test_ignores_batch_size (model : Model) (ds : Dataset)
    (bts : list (list nat * Data)) (bs : option nat)
    (tmpdir : option string) (gpu_collect : bool)
    (efficient_test pre_eval_flag format_only : bool) (format_args : FormatArgs)
    (rank world_size : nat) (peers : list (list entry)) :
  multi_gpu_test model (mk_loader bs ds bts) tmpdir gpu_collect efficient_test
    pre_eval_flag format_only format_args rank world_size peers
  = multi_gpu_test model (mk_loader (Some 1) ds bts) tmpdir gpu_collect
      efficient_test pre_eval_flag format_only format_args rank world_size peers.
Proof. reflexivity. Qed.

Lemma single_gpu_test_batch_size (model : Model) (data_loader : DataLoader)
    (show : bool) (out_dir : option string)
    (efficient_test pre_eval_flag format_only : bool) (format_args : FormatArgs)
    (w : World) :
  count_true [efficient_test; pre_eval_flag; format_only] <= 1 ->
  batch_size data_loader <> Some 1 ->
  single_gpu_test model data_loader show out_dir efficient_test pre_eval_flag
    format_only format_args w
  = (let w1 := after_check efficient_test w in
     mk_world (dirs w1) (tmp_files w1) (log w1 ++ [ModelEval]),
     Raise (AssertionError "TEST SCRIPT ONLY WORKS WITH BATCH SIZE=1")).
Proof.
  intros Hc Hbs. apply Nat.leb_le in Hc.
  unfold single_gpu_test.
  erewrite mbind_ok by (rewrite check_modes_run, Hc; reflexivity).
  unfold mbind, emit, modify, py_assert. simpl.
  rewrite bool_decide_eq_false_2 by exact Hbs. reflexivity.
Qed.

(** **** Showing without an output directory *)

Definition logged (w : World) (es : list event) : World :=
  mk_world (dirs w) (tmp_files w) (log w ++ es).

Definition none_type_error : exn :=
  TypeError "'NoneType' object is not subscriptable".

Lemma show_one_no_out_dir (model : Model) (ds : Dataset) (show : bool)
    (out_dir : option string) (result : list Pred) (img_meta : ImgMeta)
    (w : World) :
  truthy out_dir = false ->
  result <> [] ->
  is_module_wrapper model = true ->
  show_one model ds show out_dir result img_meta w
  = (logged w [ShowResult Prediction show None], Raise none_type_error).
Proof.
  intros Hdir Hres Hwrap. unfold show_one. rewrite Hdir.
  destruct result as [|p result]; [done|].
  unfold module_of. rewrite Hwrap.
  reflexivity.
Qed.

Lemma visualize_no_out_dir (model : Model) (ds : Dataset) (show : bool)
    (out_dir : option string) (data : Data) (result : list Pred) (w : World) :
  truthy out_dir = false ->
  result <> [] ->
  is_module_wrapper model = true ->
  data_img_metas data <> [] ->
  data_num_imgs data = length (data_img_metas data) ->
  visualize model ds show out_dir data result w
  = (logged w [ShowResult Prediction show None], Raise none_type_error).
Proof.
  intros Hdir Hres Hwrap Hmetas Hnum. unfold visualize.
  destruct (data_img_metas data) as [|meta metas] eqn:Hm; [done|].
  rewrite Hnum. simpl length. rewrite Nat.eqb_refl.
  unfold index0, py_assert.
  erewrite mbind_ok by reflexivity. erewrite mbind_ok by reflexivity.
  simpl for_each. apply mbind_raise.
  by apply show_one_no_out_dir.
Qed.

(** The first batch of a loader fit for [show]: it names an index, holds
    at least one image with its meta data, and the model (inside its
    wrapper) returns a prediction for it. *)
Definition first_batch_shows (model : Model) (data_loader : DataLoader)
    (data : Data) : Prop :=
  (exists batch_indices rest,
      batches data_loader = (batch_indices, data) :: rest
      /\ batch_indices <> [])
  /\ data_img_metas data <> []
  /\ data_num_imgs data = length (data_img_metas data)
  /\ (call model data false).1 <> []
  /\ is_module_wrapper model = true.

Lemma single_gpu_test_no_out_dir (model : Model) (data_loader : DataLoader)
    (show : bool) (out_dir : option string)
    (efficient_test pre_eval_flag format_only : bool) (format_args : FormatArgs)
    (data : Data) (w : World) :
  count_true [efficient_test; pre_eval_flag; format_only] <= 1 ->
  batch_size data_loader = Some 1 ->
  first_batch_shows model data_loader data ->
  show = true ->
  truthy out_dir = false ->
  single_gpu_test model data_loader show out_dir efficient_test pre_eval_flag
    format_only format_args w
  = (logged (after_check efficient_test w)
       [ModelEval; ProgressBar (ds_len (dataset data_loader));
        ModelCall data false; ShowResult Prediction true None],
     Raise none_type_error).
Proof.
  intros Hc Hbs ((idxs & rest & Hb & Hidx) & Hmetas & Hnum & Hres & Hwrap) -> Hdir.
  apply Nat.leb_le in Hc.
  unfold single_gpu_test.
  erewrite mbind_ok by (rewrite check_modes_run, Hc; reflexivity).
  erewrite mbind_ok by reflexivity.
  rewrite Hbs, bool_decide_eq_true_2 by reflexivity.
  erewrite mbind_ok by reflexivity.
  erewrite mbind_ok by reflexivity.
  rewrite Hb. simpl for_each. apply mbind_raise.
  unfold single_gpu_body.
  erewrite mbind_ok by reflexivity.
  destruct (call model data false) as [result seg_logit] eqn:Hcall.
  destruct idxs as [|idx idxs]; [done|].
  erewrite mbind_ok by reflexivity.
  apply mbind_raise. simpl orb. cbv iota.
  rewrite visualize_no_out_dir by assumption.
  unfold logged. simpl. by rewrite <- !app_assoc.
Qed.

(** C10: when [single_gpu_test] is called with [show=True] and
    [out_dir=None] (the modes not in conflict, the loader of batch size
    one, its first batch holding an image the wrapped model predicts
    for), the first batch draws the prediction with [out_file] bound to
    [None] and then raises the [TypeError] of [out_file[:-4]] in place
    of the ground-truth overlay: no result list is returned.  Hence a
    call that shows and returns has [out_dir] set. *)
Theorem show_without_out_dir_raises (model : Model) (data_loader : DataLoader)
    (efficient_test pre_eval_flag format_only : bool) (format_args : FormatArgs)
    (data : Data) (w : World) :
  count_true [efficient_test; pre_eval_flag; format_only] <= 1 ->
  batch_size data_loader = Some 1 ->
  first_batch_shows model data_loader data ->
  single_gpu_test model data_loader true None efficient_test pre_eval_flag
    format_only format_args w
  = (logged (after_check efficient_test w)
       [ModelEval; ProgressBar (ds_len (dataset data_loader));
        ModelCall data false; ShowResult Prediction true None],
     Raise none_type_error)
  /\ (forall out_dir,
        is_ok (single_gpu_test model data_loader true out_dir efficient_test
                 pre_eval_flag format_only format_args w).2 = true ->
        truthy out_dir = true).
Proof.
  intros Hc Hbs Hfirst. split.
  - by apply single_gpu_test_no_out_dir.
  - intros out_dir Hok. destruct (truthy out_dir) eqn:Hdir; [done|].
    rewrite (single_gpu_test_no_out_dir _ _ true out_dir _ _ _ _ data)
      in Hok by done.
    discriminate.
Qed.

(** **** What a batch adds to the results *)

(** The names [np2tmp] gives [k] arrays when [n] files were made before. *)
Definition saved_names (n k : nat) : list string :=
  map (fun i => tmp_name ".efficient_test" (n + i)) (seq 0 k).

Definition batch_indices_of (batch : list nat * Data) : list nat := batch.1.

Definition pre_eval_oth_value (ds : Dataset) (dh : DecodeHead)
    (seg_logit : LogitT) (seg_gt : GtMap) : result OthPre :=
  if negb (use_bags dh) then
    rbind (single_loss dh) (fun l =>
    if is_edl (loss_name l) then
      Ok (pre_eval_custom ds seg_logit seg_gt "edl"
            (LogitFn (logit2alpha (pow_alpha l))))
    else if use_softplus l then
      Ok (pre_eval_custom ds seg_logit seg_gt "softmax"
            (LogitFn logit2prob_softplus))
    else
      Ok (pre_eval_custom ds seg_logit seg_gt "softmax"
            (LogitFn logit2prob_softmax)))
  else
    Ok (pre_eval_custom ds seg_logit seg_gt "softmax"
          (Bags (use_bags dh) (bags_kwargs dh))).

(** What [collect_batch] returns in [multi_gpu_test], as a function of
    the number [n] of temporary files the process has made before. *)
Definition entries_of (model : Model) (ds : Dataset)
    (efficient_test pre_eval_flag format_only : bool) (format_args : FormatArgs)
    (n : nat) (batch_indices : list nat) (preds : list Pred)
    (seg_logit : LogitT) (seg_gt : GtMap) : result (list entry) :=
  let result := map Raw preds in
  let result :=
    if efficient_test then map Saved (saved_names n (length result))
    else result in
  let result :=
    if format_only
    then map Formatted (format_results ds result batch_indices format_args)
    else result in
  if pre_eval_flag then
    match pre_eval ds result batch_indices with
    | [] => Raise IndexError
    | result_seg :: _ =>
        rbind (pre_eval_oth_value ds (unwrapped_head model) seg_logit seg_gt)
          (fun result_oth => Ok [PreEval result_seg result_oth])
    end
  else Ok result.

(** The entries the body of [multi_gpu_test] computes for a batch. *)
Definition batch_entries (model : Model) (ds : Dataset)
    (efficient_test pre_eval_flag format_only : bool) (format_args : FormatArgs)
    (n : nat) (batch : list nat * Data) : result (list entry) :=
  match batch_indices_of batch with
  | [] => Raise IndexError
  | idx :: _ =>
      entries_of model ds efficient_test pre_eval_flag format_only format_args
        n (batch_indices_of batch) (call model (batch.2) true).1
        (call model (batch.2) true).2
        (get_gt_seg_map_by_idx_and_reduce_zero_label ds idx)
  end.

Definition head_entry (r : result (list entry)) : option entry :=
  match r with
  | Ok (e :: _) => Some e
  | _ => None
  end.

(** The number of temporary files of a process before its [j]-th batch,
    when every batch holds one prediction. *)
Definition tmp_count (efficient_test : bool) (n0 j : nat) : nat :=
  if efficient_test then n0 + j else n0.

Lemma saved_names_S (n k : nat) :
  saved_names n (S k) = tmp_name ".efficient_test" n :: saved_names (n + 1) k.
Proof.
  unfold saved_names. simpl. rewrite Nat.add_0_r. f_equal.
  rewrite <- seq_shift, map_map. apply map_ext. intros i. f_equal. lia.
Qed.

Lemma map_m_np2tmp (xs : list entry) (w : World) :
  map_m (np2tmp ".efficient_test") xs w
  = (mk_world (dirs w)
       (tmp_files w ++ saved_names (length (tmp_files w)) (length xs)) (log w),
     Ok (map Saved (saved_names (length (tmp_files w)) (length xs)))).
Proof.
  revert w. induction xs as [|x xs IH]; intros w.
  - simpl. unfold mret, saved_names. simpl. by rewrite app_nil_r, world_eta.
  - simpl map_m. unfold np2tmp at 1.
    unfold mbind at 1. unfold mbind at 1. unfold gets.
    unfold mbind at 1. unfold modify, mret at 1.
    unfold mbind at 1. rewrite IH. simpl dirs. simpl tmp_files. simpl log.
    rewrite length_app. simpl length. rewrite saved_names_S.
    unfold mret. simpl. by rewrite <- app_assoc.
Qed.

Lemma pre_eval_oth_run (ds : Dataset) (dh : DecodeHead) (seg_logit : LogitT)
    (seg_gt : GtMap) (w : World) :
  pre_eval_oth ds dh (mret dh) seg_logit seg_gt w
  = (w, pre_eval_oth_value ds dh seg_logit seg_gt).
Proof.
  unfold pre_eval_oth, pre_eval_oth_value, single_loss.
  destruct (use_bags dh) eqn:Hb; simpl;
    [unfold mbind, mret; by rewrite Hb|].
  destruct (loss_decode dh) as [l|ls]; simpl; [|reflexivity].
  unfold mbind, lift_result, mret. simpl.
  repeat case_match; reflexivity.
Qed.

Lemma repeat_m_emit (k : nat) (e : event) (w : World) :
  repeat_m k (emit e) w = (logged w (replicate k e), Ok tt).
Proof.
  revert w. induction k as [|k IH]; intros w; simpl.
  - unfold mret, logged. by rewrite app_nil_r, world_eta.
  - erewrite mbind_ok by reflexivity. rewrite IH.
    unfold logged. simpl. by rewrite <- app_assoc.
Qed.

(** The world after [collect_batch]: with [efficient_test] one file per
    prediction has been added. *)
Definition spilled (efficient_test : bool) (k : nat) (w : World) : World :=
  if efficient_test
  then mk_world (dirs w)
         (tmp_files w ++ saved_names (length (tmp_files w)) k) (log w)
  else w.

Lemma collect_batch_run (model : Model) (ds : Dataset)
    (efficient_test pre_eval_flag format_only : bool) (format_args : FormatArgs)
    (batch_indices : list nat) (result : list Pred) (seg_logit : LogitT)
    (seg_gt : GtMap) (w : World) :
  collect_batch model ds efficient_test pre_eval_flag format_only format_args
    (mret (unwrapped_head model)) batch_indices result seg_logit seg_gt w
  = (spilled efficient_test (length result) w,
     entries_of model ds efficient_test pre_eval_flag format_only format_args
       (length (tmp_files w)) batch_indices result seg_logit seg_gt).
Proof.
  unfold collect_batch, entries_of, spilled.
  destruct efficient_test.
  - erewrite mbind_ok by apply map_m_np2tmp. rewrite !length_map.
    destruct pre_eval_flag; [|reflexivity].
    destruct (pre_eval ds _ batch_indices) as [|result_seg tl]; [reflexivity|].
    erewrite mbind_ok by reflexivity.
    unfold mbind at 1. rewrite pre_eval_oth_run.
    by destruct (pre_eval_oth_value _ _ _ _).
  - erewrite mbind_ok by reflexivity.
    destruct pre_eval_flag; [|reflexivity].
    destruct (pre_eval ds _ batch_indices) as [|result_seg tl]; [reflexivity|].
    erewrite mbind_ok by reflexivity.
    unfold mbind at 1. rewrite pre_eval_oth_run.
    by destruct (pre_eval_oth_value _ _ _ _).
Qed.

Lemma entries_of_one_spill (model : Model) (ds : Dataset)
    (pre_eval_flag format_only : bool) (format_args : FormatArgs)
    (n : nat) (batch_indices : list nat) (result : list Pred)
    (seg_logit : LogitT) (seg_gt : GtMap) (e : entry) :
  count_true [true; pre_eval_flag; format_only] <= 1 ->
  entries_of model ds true pre_eval_flag format_only format_args n
    batch_indices result seg_logit seg_gt = Ok [e] ->
  length result = 1.
Proof.
  intros Hc. destruct pre_eval_flag, format_only;
    try (exfalso; vm_compute in Hc; lia).
  unfold entries_of. intros He. simplify_eq.
  apply (f_equal length) in He. unfold saved_names in He.
  by rewrite !length_map, length_seq, ?length_map in He.
Qed.

Lemma multi_gpu_body_one (model : Model) (ds : Dataset) (rank world_size : nat)
    (efficient_test pre_eval_flag format_only : bool) (format_args : FormatArgs)
    (results : list entry) (batch : list nat * Data) (w : World) (e : entry) :
  count_true [efficient_test; pre_eval_flag; format_only] <= 1 ->
  batch_entries model ds efficient_test pre_eval_flag format_only format_args
    (length (tmp_files w)) batch = Ok [e] ->
  exists w',
    multi_gpu_body model ds rank world_size efficient_test pre_eval_flag
      format_only format_args results batch w = (w', Ok (results ++ [e]))
    /\ length (tmp_files w')
       = tmp_count efficient_test (length (tmp_files w)) 1.
Proof.
  intros Hc He. destruct batch as [idxs data].
  unfold batch_entries, batch_indices_of in He. simpl in He.
  unfold multi_gpu_body.
  erewrite mbind_ok by reflexivity.
  destruct (call model data true) as [result seg_logit] eqn:Hcall.
  destruct idxs as [|idx idxs]; [discriminate|]. simpl in He.
  erewrite mbind_ok by reflexivity.
  unfold mbind at 1. rewrite collect_batch_run. simpl tmp_files. rewrite He.
  destruct (Nat.eqb rank 0).
  - erewrite mbind_ok by apply repeat_m_emit.
    eexists. split; [reflexivity|].
    unfold tmp_count, spilled. destruct efficient_test; simpl; [|done].
    rewrite length_app. unfold saved_names. rewrite length_map, length_seq.
    by rewrite (entries_of_one_spill _ _ _ _ _ _ _ _ _ _ _ Hc He).
  - erewrite mbind_ok by reflexivity.
    eexists. split; [reflexivity|].
    unfold tmp_count, spilled. destruct efficient_test; simpl; [|done].
    rewrite length_app. unfold saved_names. rewrite length_map, length_seq.
    by rewrite (entries_of_one_spill _ _ _ _ _ _ _ _ _ _ _ Hc He).
Qed.

Lemma tmp_count_0 (efficient_test : bool) (n0 : nat) :
  tmp_count efficient_test n0 0 = n0.
Proof. unfold tmp_count. destruct efficient_test; lia. Qed.

Lemma tmp_count_S (efficient_test : bool) (n0 j : nat) :
  tmp_count efficient_test (tmp_count efficient_test n0 1) j
  = tmp_count efficient_test n0 (S j).
Proof. unfold tmp_count. destruct efficient_test; lia. Qed.

(** The loop over the batches of one process, every batch adding one
    entry: the entries come in the order of the batches. *)
Lemma multi_gpu_batches_run (model : Model) (ds : Dataset) (rank world_size : nat)
    (efficient_test pre_eval_flag format_only : bool) (format_args : FormatArgs)
    (bts : list (list nat * Data)) (results : list entry) (w : World) :
  count_true [efficient_test; pre_eval_flag; format_only] <= 1 ->
  (forall j b, bts !! j = Some b ->
     exists e, batch_entries model ds efficient_test pre_eval_flag format_only
                 format_args (tmp_count efficient_test (length (tmp_files w)) j) b
               = Ok [e]) ->
  exists w' es,
    for_each bts results
      (multi_gpu_body model ds rank world_size efficient_test pre_eval_flag
         format_only format_args) w = (w', Ok (results ++ es))
    /\ length es = length bts
    /\ forall j b, bts !! j = Some b ->
         es !! j
         = head_entry (batch_entries model ds efficient_test pre_eval_flag
                         format_only format_args
                         (tmp_count efficient_test (length (tmp_files w)) j) b).
Proof.
  intros Hc. revert results w.
  induction bts as [|b0 bts IH]; intros results w Hone.
  - exists w, []. simpl. unfold mret. rewrite app_nil_r.
    split; [done|]. split; [done|]. intros j b Hj. done.
  - destruct (Hone 0 b0 eq_refl) as [e0 He0]. rewrite tmp_count_0 in He0.
    destruct (multi_gpu_body_one model ds rank world_size _ _ _ format_args
                results b0 w e0 Hc He0) as (w1 & Hbody & Htmp).
    destruct (IH (results ++ [e0]) w1) as (w' & es & Hrun & Hlen & Hes).
    { intros j b Hj. rewrite Htmp, tmp_count_S. by apply (Hone (S j)). }
    exists w', (e0 :: es). simpl for_each.
    erewrite mbind_ok by exact Hbody. rewrite Hrun, <- app_assoc.
    split; [done|]. split; [simpl; by rewrite Hlen|].
    intros [|j] b Hj; simpl in Hj.
    + simplify_eq. by rewrite tmp_count_0, He0.
    + simpl. rewrite (Hes j b Hj), Htmp, tmp_count_S. done.
Qed.

Lemma multi_gpu_loop_run (model : Model) (data_loader : DataLoader)
    (rank world_size : nat)
    (efficient_test pre_eval_flag format_only : bool) (format_args : FormatArgs)
    (w : World) :
  count_true [efficient_test; pre_eval_flag; format_only] <= 1 ->
  (forall j b, batches data_loader !! j = Some b ->
     exists e, batch_entries model (dataset data_loader) efficient_test
                 pre_eval_flag format_only format_args
                 (tmp_count efficient_test (length (tmp_files w)) j) b
               = Ok [e]) ->
  exists w' es,
    multi_gpu_loop model data_loader rank world_size efficient_test
      pre_eval_flag format_only format_args w = (w', Ok es)
    /\ length es = length (batches data_loader)
    /\ forall j b, batches data_loader !! j = Some b ->
         es !! j
         = head_entry (batch_entries model (dataset data_loader) efficient_test
                         pre_eval_flag format_only format_args
                         (tmp_count efficient_test (length (tmp_files w)) j) b).
Proof.
  intros Hc Hone. unfold multi_gpu_loop.
  pose proof Hc as Hleb. apply Nat.leb_le in Hleb.
  erewrite mbind_ok by (rewrite check_modes_run, Hleb; reflexivity).
  erewrite mbind_ok by reflexivity.
  set (w1 := mk_world _ _ _).
  assert (Htmp1 : length (tmp_files w1) = length (tmp_files w))
    by (unfold w1, after_check; by destruct efficient_test).
  clearbody w1.
  assert (Hgo : forall w2, length (tmp_files w2) = length (tmp_files w) ->
            exists w' es,
              for_each (batches data_loader) []
                (multi_gpu_body model (dataset data_loader) rank world_size
                   efficient_test pre_eval_flag format_only format_args) w2
              = (w', Ok es)
              /\ length es = length (batches data_loader)
              /\ forall j b, batches data_loader !! j = Some b ->
                   es !! j
                   = head_entry
                       (batch_entries model (dataset data_loader) efficient_test
                          pre_eval_flag format_only format_args
                          (tmp_count efficient_test (length (tmp_files w)) j) b)).
  { intros w2 Htmp2.
    destruct (multi_gpu_batches_run model (dataset data_loader) rank world_size
                _ _ _ format_args (batches data_loader) [] w2 Hc)
      as (w' & es & Hrun & Hlen & Hes).
    { intros j b Hj. rewrite Htmp2. by apply Hone. }
    exists w', es. split; [exact Hrun|]. split; [exact Hlen|].
    intros j b Hj. rewrite (Hes j b Hj). by rewrite Htmp2. }
  destruct (Nat.eqb rank 0).
  - erewrite mbind_ok by reflexivity. apply Hgo. exact Htmp1.
  - erewrite mbind_ok by reflexivity. apply Hgo. exact Htmp1.
Qed.

(** **** The collection *)

(** The entry of the dataset index [i] among the parts of [world_size]
    processes. *)
Definition part_entry (parts : list (list entry)) (i : nat) : option entry :=
  parts !! (i mod length parts) ≫= (.!! (i / length parts)).

Lemma shortest_le (part_list : list (list entry)) (part : list entry) :
  part ∈ part_list -> shortest part_list <= length part.
Proof.
  destruct part_list as [|p0 rest]; [by intros ?%elem_of_nil|].
  unfold shortest.
  assert (Hfold : forall n, foldr (fun q m => Nat.min (length q) m) n rest <= n
            /\ forall q, q ∈ rest ->
                 foldr (fun q m => Nat.min (length q) m) n rest <= length q).
  { intros n. induction rest as [|q0 rest IH]; simpl.
    - split; [done|]. by intros q ?%elem_of_nil.
    - destruct IH as [IH1 IH2]. split; [lia|].
      intros q [->|Hq]%elem_of_cons; [lia|]. specialize (IH2 q Hq). lia. }
  destruct (Hfold (length p0)) as [H1 H2]. intros Hin.
  apply elem_of_cons in Hin as [->|Hin]; [done|by apply H2].
Qed.

Lemma shortest_uniform (part_list : list (list entry)) (n : nat) :
  part_list <> [] ->
  Forall (fun part => length part = n) part_list ->
  shortest part_list = n.
Proof.
  destruct part_list as [|p0 rest]; [done|]. intros _ Hall.
  apply Forall_cons in Hall as [Hp0 Hrest]. unfold shortest. rewrite Hp0.
  induction Hrest as [|q rest Hq _ IH]; simpl; [done|]. rewrite IH. lia.
Qed.

(** A row of [zip_parts] holds one entry of every part. *)
Lemma zip_row (part_list : list (list entry)) (j : nat) :
  j < shortest part_list ->
  length (omap (fun part => part !! j) part_list) = length part_list
  /\ forall r, omap (fun part => part !! j) part_list !! r
              = part_list !! r ≫= (.!! j).
Proof.
  intros Hj.
  assert (Hall : Forall (fun part => j < length part) part_list).
  { apply Forall_forall. intros part Hin.
    pose proof (shortest_le _ _ Hin). lia. }
  clear Hj. induction Hall as [|part rest Hp _ [IH1 IH2]]; [done|].
  destruct (lookup_lt_is_Some_2 part j Hp) as [e He].
  simpl. rewrite He. simpl. split; [f_equal; exact IH1|].
  intros [|r]; simpl; [done|apply IH2].
Qed.

(** The chained rows of a table whose rows all hold [m] entries. *)
Lemma concat_rows {A} (rows : list (list A)) (m : nat) :
  Forall (fun row => length row = m) rows ->
  length (concat rows) = length rows * m
  /\ forall i, 0 < m ->
        concat rows !! i = rows !! (i / m) ≫= (.!! (i mod m)).
Proof.
  induction 1 as [|row rows Hrow _ [IH1 IH2]]; [done|].
  simpl. rewrite length_app, IH1, Hrow. split; [lia|].
  intros i Hm. destruct (decide (i < m)) as [Hi|Hi].
  - rewrite lookup_app_l by lia.
    rewrite Nat.div_small, Nat.mod_small by done. done.
  - rewrite lookup_app_r by lia. rewrite Hrow, IH2 by done.
    replace i with ((i - m) + 1 * m) at 3 4 by lia.
    rewrite Nat.div_add, Nat.Div0.mod_add by lia.
    by replace ((i - m) `div` m + 1) with (S ((i - m) `div` m)) by lia.
Qed.

Lemma zip_parts_rows (part_list : list (list entry)) :
  length (zip_parts part_list) = shortest part_list
  /\ Forall (fun row => length row = length part_list) (zip_parts part_list).
Proof.
  unfold zip_parts. rewrite length_map, length_seq. split; [done|].
  apply Forall_forall. intros row Hin.
  apply list_elem_of_fmap in Hin as (j & -> & Hj). apply elem_of_seq in Hj.
  apply zip_row. lia.
Qed.

Lemma length_ordered_results (parts : list (list entry)) (size : nat) :
  length (ordered_results parts size)
  = Nat.min size (shortest (List.filter nonempty parts)
                  * length (List.filter nonempty parts)).
Proof.
  unfold ordered_results. rewrite length_take.
  destruct (zip_parts_rows (List.filter nonempty parts)) as [Hlen Hrows].
  destruct (concat_rows _ _ Hrows) as [Hcat _]. by rewrite Hcat, Hlen.
Qed.

(** When every process hands over [n] entries, the collection is the
    round-robin interleaving of the parts, cut at [size]. *)
Lemma ordered_results_uniform (parts : list (list entry)) (n size : nat) :
  Forall (fun part => length part = n) parts ->
  size <= length parts * n ->
  length (ordered_results parts size) = size
  /\ forall i, i < size -> ordered_results parts size !! i = part_entry parts i.
Proof.
  intros Hall Hsize.
  destruct (decide (size = 0)) as [->|Hpos].
  { unfold ordered_results. rewrite take_0. split; [done|]. lia. }
  assert (Hn : 0 < n) by (destruct n; [lia|lia]).
  assert (Hparts : parts <> []) by (intros ->; simpl in Hsize; lia).
  assert (Hfilter : List.filter nonempty parts = parts).
  { clear Hsize Hparts. induction Hall as [|part rest Hp _ IH]; [done|].
    simpl. destruct part; [simpl in Hp; lia|]. simpl. by rewrite IH. }
  pose proof (shortest_uniform _ _ Hparts Hall) as Hshort.
  unfold ordered_results. rewrite Hfilter.
  destruct (zip_parts_rows parts) as [Hlen Hrows].
  destruct (concat_rows _ _ Hrows) as [Hcat Hlook].
  rewrite Hlen, Hshort in Hcat.
  split; [rewrite length_take, Hcat; lia|].
  intros i Hi. rewrite lookup_take_lt by done.
  assert (Hw : 0 < length parts) by (destruct parts; [done|simpl; lia]).
  rewrite Hlook by done. unfold part_entry, zip_parts.
  assert (Hdiv : i / length parts < n).
  { apply Nat.Div0.div_lt_upper_bound. lia. }
  rewrite list_lookup_fmap, lookup_seq_lt by (rewrite Hshort; exact Hdiv).
  simpl. destruct (zip_row parts (i / length parts)) as [_ Hrow];
    [by rewrite Hshort|].
  apply Hrow.
Qed.

(** The list a process holds when its loop is over. *)
Definition local_part (model : Model) (data_loader : DataLoader)
    (rank world_size : nat)
    (efficient_test pre_eval_flag format_only : bool) (format_args : FormatArgs)
    (w : World) : list entry :=
  match (multi_gpu_loop model data_loader rank world_size efficient_test
           pre_eval_flag format_only format_args w).2 with
  | Ok results => results
  | Raise _ => []
  end.

Lemma multi_gpu_test_collects (model : Model) (data_loader : DataLoader)
    (tmpdir : option string) (gpu_collect : bool)
    (efficient_test pre_eval_flag format_only : bool)
    (format_args : FormatArgs) (rank world_size : nat)
    (peers : list (list entry)) (w w' : World) (results : list entry) :
  multi_gpu_loop model data_loader rank world_size efficient_test
    pre_eval_flag format_only format_args w = (w', Ok results) ->
  multi_gpu_test model data_loader tmpdir gpu_collect efficient_test
    pre_eval_flag format_only format_args rank world_size peers w
  = (w', Ok (if Nat.eqb rank 0
             then Some (ordered_results
                          (parts_by_rank rank world_size results peers)
                          (ds_len (dataset data_loader)))
             else None)).
Proof.
  intros Hloop. unfold multi_gpu_test. erewrite mbind_ok by exact Hloop.
  unfold collect_results_gpu, collect_results_cpu, mret.
  by destruct gpu_collect.
Qed.

(** C7 (as amended): [world_size] processes evaluate a dataset of [D]
    samples, the process of rank [r] on its own loader and in its own
    world.  When every batch adds one entry and the loaders follow the
    round-robin sampling with padding (every process has [n] batches,
    [world_size * n >= D], and the batch [i / world_size] of the process
    [i mod world_size] is the sample of index [i]), every process
    finishes its loop, and [multi_gpu_test] in the process of rank [0],
    given the parts of the others, returns a list of length exactly [D]
    whose entry [i] is the entry computed from the sample of index [i],
    the padding being dropped, for any [D] and [world_size >= 1]; in the
    other processes it returns [None].  The collection never fails: with
    any parts whatever it returns a list, which is shorter than [D] as
    soon as a part that is not empty holds too few entries. *)
Theorem multi_gpu_test_round_robin (model : Model) (ds : Dataset)
    (bs : option nat) (batches_of : nat -> list (list nat * Data))
    (world_of : nat -> World) (data_of : nat -> Data) (world_size n : nat)
    (tmpdir : option string) (gpu_collect : bool)
    (efficient_test pre_eval_flag format_only : bool)
    (format_args : FormatArgs) :
  let loader_of r := mk_loader bs ds (batches_of r) in
  let entries n b :=
    batch_entries model ds efficient_test pre_eval_flag format_only
      format_args n b in
  let before r j := tmp_count efficient_test (length (tmp_files (world_of r))) j in
  let part r :=
    local_part model (loader_of r) r world_size efficient_test pre_eval_flag
      format_only format_args (world_of r) in
  let run r peers :=
    multi_gpu_test model (loader_of r) tmpdir gpu_collect efficient_test
      pre_eval_flag format_only format_args r world_size peers (world_of r) in
  0 < world_size ->
  count_true [efficient_test; pre_eval_flag; format_only] <= 1 ->
  (forall r j b, r < world_size -> batches_of r !! j = Some b ->
     exists e, entries (before r j) b = Ok [e]) ->
  (forall r, r < world_size -> length (batches_of r) = n) ->
  ds_len ds <= world_size * n ->
  (forall i, i < ds_len ds ->
     batches_of (i mod world_size) !! (i / world_size) = Some ([i], data_of i)) ->
  (forall r, r < world_size ->
     (multi_gpu_loop model (loader_of r) r world_size efficient_test
        pre_eval_flag format_only format_args (world_of r)).2 = Ok (part r))
  /\ (forall peers,
        (forall r, 0 < r < world_size -> peers !! r = Some (part r)) ->
        exists w' l,
          run 0 peers = (w', Ok (Some l))
          /\ length l = ds_len ds
          /\ forall i, i < ds_len ds ->
               is_Some (l !! i)
               /\ l !! i
                  = head_entry
                      (entries (before (i mod world_size) (i / world_size))
                         ([i], data_of i)))
  /\ (forall r peers, 0 < r < world_size -> (run r peers).2 = Ok None)
  /\ (forall peers,
        exists l,
          (run 0 peers).2 = Ok (Some l)
          /\ length l <= ds_len ds
          /\ forall r short, 0 < r < world_size ->
               peers !! r = Some short -> short <> [] ->
               length l <= world_size * length short).
Proof.
  intros loader_of entries before part run HW Hc Hone Hn Hsize Hrr.
  assert (Hloop : forall r, r < world_size ->
            exists w',
              multi_gpu_loop model (loader_of r) r world_size efficient_test
                pre_eval_flag format_only format_args (world_of r)
              = (w', Ok (part r))
              /\ length (part r) = n
              /\ forall j b, batches_of r !! j = Some b ->
                   part r !! j = head_entry (entries (before r j) b)).
  { intros r Hr.
    destruct (multi_gpu_loop_run model (loader_of r) r world_size _ _ _
                format_args (world_of r) Hc) as (w' & es & Hrun & Hlen & Hes).
    { intros j b Hj. by apply (Hone r). }
    assert (Hpart : part r = es) by (unfold part, local_part; by rewrite Hrun).
    exists w'. rewrite Hpart. split; [exact Hrun|].
    split; [|exact Hes]. rewrite Hlen. simpl. by apply Hn. }
  assert (Hrun : forall r peers, r < world_size ->
            exists w',
              run r peers
              = (w', Ok (if Nat.eqb r 0
                         then Some (ordered_results
                                      (parts_by_rank r world_size (part r) peers)
                                      (ds_len ds))
                         else None))).
  { intros r peers Hr. destruct (Hloop r Hr) as (w' & Hl & _).
    exists w'. unfold run.
    by rewrite (multi_gpu_test_collects _ _ _ _ _ _ _ _ _ _ _ _ _ _ Hl). }
  split; [|split; [|split]].
  - intros r Hr. destruct (Hloop r Hr) as (w' & Hl & _). by rewrite Hl.
  - intros peers Hpeers.
    destruct (Hrun 0 peers HW) as (w' & Hr0). simpl in Hr0.
    set (parts := parts_by_rank 0 world_size (part 0) peers) in *.
    assert (Hparts_len : length parts = world_size)
      by (unfold parts, parts_by_rank; by rewrite length_map, length_seq).
    assert (Hparts : forall r, r < world_size -> parts !! r = Some (part r)).
    { intros r Hr. unfold parts, parts_by_rank.
      rewrite list_lookup_fmap, lookup_seq_lt by done. simpl.
      destruct r as [|r]; [done|]. simpl.
      by rewrite (Hpeers (S r)) by lia. }
    assert (Hall : Forall (fun p => length p = n) parts).
    { apply Forall_lookup. intros r p Hp.
      assert (Hr : r < world_size)
        by (rewrite <- Hparts_len; by eapply lookup_lt_Some).
      rewrite (Hparts r Hr) in Hp. injection Hp as <-.
      by destruct (Hloop r Hr) as (_ & _ & Hlen & _). }
    destruct (ordered_results_uniform parts n (ds_len ds) Hall) as [Hlen Hlook];
      [by rewrite Hparts_len|].
    exists w', (ordered_results parts (ds_len ds)).
    split; [exact Hr0|]. split; [exact Hlen|].
    intros i Hi. rewrite (Hlook i Hi). unfold part_entry. rewrite Hparts_len.
    assert (Hr : i mod world_size < world_size)
      by (apply Nat.mod_upper_bound; lia).
    rewrite (Hparts _ Hr). simpl.
    destruct (Hloop _ Hr) as (_ & _ & _ & Hes).
    rewrite (Hes _ _ (Hrr i Hi)).
    destruct (Hone _ _ _ Hr (Hrr i Hi)) as [e He]. rewrite He. simpl.
    split; [by eexists|done].
  - intros r peers [Hr0 Hr]. destruct (Hrun r peers Hr) as (w' & ->).
    simpl. by destruct r; [lia|].
  - intros peers. destruct (Hrun 0 peers HW) as (w' & Hr0). simpl in Hr0.
    eexists. rewrite Hr0. split; [done|].
    rewrite length_ordered_results. split; [lia|].
    intros r short [Hr0' Hr] Hshort Hne.
    set (parts := parts_by_rank 0 world_size (part 0) peers).
    assert (Hin : short ∈ List.filter nonempty parts).
    { apply list_elem_of_In, filter_In. split.
      - apply list_elem_of_In. apply (list_elem_of_lookup_2 _ r).
        unfold parts, parts_by_rank.
        rewrite list_lookup_fmap, lookup_seq_lt by done. simpl.
        destruct r as [|r]; [lia|]. simpl. by rewrite Hshort.
      - by destruct short. }
    pose proof (shortest_le _ _ Hin) as Hle.
    assert (Hlen : length (List.filter nonempty parts) <= world_size).
    { transitivity (length parts).
      - clear. induction parts as [|p ps IH]; [done|]. simpl.
        destruct (nonempty p); simpl; lia.
      - unfold parts, parts_by_rank. by rewrite length_map, length_seq. }
    etransitivity; [apply Nat.le_min_r|].
    rewrite Nat.mul_comm. by apply Nat.mul_le_mono.
Qed.

(** *** More on the evaluation loops *)

(** X10: [single_gpu_test] with modes that do not conflict and a loader
    whose [batch_size] is not one (or is [None]) puts the model in
    evaluation mode and then raises its assertion error: no batch is
    fetched, the model is not run, no progress bar is made. *)
Theorem single_gpu_test_rejects_batch_size (model : Model)
    (data_loader : DataLoader) (show : bool) (out_dir : option string)
    (efficient_test pre_eval_flag format_only : bool) (format_args : FormatArgs)
    (w : World) :
  count_true [efficient_test; pre_eval_flag; format_only] <= 1 ->
  batch_size data_loader <> Some 1 ->
  single_gpu_test model data_loader show out_dir efficient_test pre_eval_flag
    format_only format_args w
  = (logged (after_check efficient_test w) [ModelEval],
     Raise (AssertionError "TEST SCRIPT ONLY WORKS WITH BATCH SIZE=1")).
Proof.
  intros Hc Hbs. apply Nat.leb_le in Hc.
  unfold single_gpu_test.
  erewrite mbind_ok by (rewrite check_modes_run, Hc; reflexivity).
  erewrite mbind_ok by reflexivity.
  apply mbind_raise. unfold py_assert.
  by rewrite bool_decide_eq_false_2.
Qed.

(** X11: on a loader with no batch, both loops return the empty list
    after putting the model in evaluation mode, whatever [show] and
    [out_dir] are; the model is never run.  ([single_gpu_test] needs the
    batch size to be one even then, and the progress bar is made by
    [single_gpu_test] and by the coordinator only.) *)
Theorem empty_loader_runs (model : Model) (data_loader : DataLoader)
    (show : bool) (out_dir : option string)
    (efficient_test pre_eval_flag format_only : bool) (format_args : FormatArgs)
    (rank world_size : nat) (w : World) :
  count_true [efficient_test; pre_eval_flag; format_only] <= 1 ->
  batches data_loader = [] ->
  (batch_size data_loader = Some 1 ->
   single_gpu_test model data_loader show out_dir efficient_test pre_eval_flag
     format_only format_args w
   = (logged (after_check efficient_test w)
        [ModelEval; ProgressBar (ds_len (dataset data_loader))], Ok []))
  /\ multi_gpu_loop model data_loader rank world_size efficient_test
       pre_eval_flag format_only format_args w
     = (logged (after_check efficient_test w)
          (ModelEval :: if Nat.eqb rank 0
                        then [ProgressBar (ds_len (dataset data_loader))]
                        else []),
        Ok []).
Proof.
  intros Hc Hb. apply Nat.leb_le in Hc. split.
  - intros Hbs. unfold single_gpu_test.
    erewrite mbind_ok by (rewrite check_modes_run, Hc; reflexivity).
    erewrite mbind_ok by reflexivity.
    rewrite Hbs, bool_decide_eq_true_2 by done.
    erewrite mbind_ok by reflexivity.
    erewrite mbind_ok by reflexivity.
    rewrite Hb. simpl. unfold mret, logged. simpl.
    by rewrite <- app_assoc.
  - unfold multi_gpu_loop.
    erewrite mbind_ok by (rewrite check_modes_run, Hc; reflexivity).
    erewrite mbind_ok by reflexivity.
    rewrite Hb. destruct (Nat.eqb rank 0).
    + erewrite mbind_ok by reflexivity. simpl. unfold mret, logged. simpl.
      by rewrite <- app_assoc.
    + erewrite mbind_ok by reflexivity. reflexivity.
Qed.

(** **** Runs that do not draw *)

(** What a batch adds to the results of [single_gpu_test] when
    [pre_eval] is off, [n] temporary files having been made before. *)
Definition kept_entries (model : Model) (ds : Dataset)
    (efficient_test format_only : bool) (format_args : FormatArgs)
    (n : nat) (batch : list nat * Data) : list entry :=
  let preds := (call model batch.2 false).1 in
  let kept :=
    if efficient_test then map Saved (saved_names n (length preds))
    else map Raw preds in
  if format_only
  then map Formatted (format_results ds kept batch.1 format_args)
  else kept.

Definition spill_count (model : Model) (efficient_test : bool)
    (batch : list nat * Data) : nat :=
  if efficient_test then length (call model batch.2 false).1 else 0.

(** The entries, the file names and the events of a whole loop. *)
Fixpoint kept_all (model : Model) (ds : Dataset)
    (efficient_test format_only : bool) (format_args : FormatArgs)
    (n : nat) (bts : list (list nat * Data)) : list entry :=
  match bts with
  | [] => []
  | b :: bts' =>
      kept_entries model ds efficient_test format_only format_args n b
      ++ kept_all model ds efficient_test format_only format_args
           (n + spill_count model efficient_test b) bts'
  end.

Fixpoint kept_files (model : Model) (efficient_test : bool)
    (n : nat) (bts : list (list nat * Data)) : list string :=
  match bts with
  | [] => []
  | b :: bts' =>
      saved_names n (spill_count model efficient_test b)
      ++ kept_files model efficient_test
           (n + spill_count model efficient_test b) bts'
  end.

Fixpoint kept_events (model : Model) (ds : Dataset)
    (efficient_test format_only : bool) (format_args : FormatArgs)
    (n : nat) (bts : list (list nat * Data)) : list event :=
  match bts with
  | [] => []
  | b :: bts' =>
      ModelCall b.2 false
      :: replicate
           (length (kept_entries model ds efficient_test format_only
                      format_args n b))
           ProgressUpdate
      ++ kept_events model ds efficient_test format_only format_args
           (n + spill_count model efficient_test b) bts'
  end.

Lemma length_saved_names (n k : nat) : length (saved_names n k) = k.
Proof. unfold saved_names. by rewrite length_map, length_seq. Qed.

Lemma saved_names_0 (n : nat) : saved_names n 0 = [].
Proof. reflexivity. Qed.

Lemma saved_names_add (n a b : nat) :
  saved_names n (a + b) = saved_names n a ++ saved_names (n + a) b.
Proof.
  revert n. induction a as [|a IH]; intros n.
  - simpl. by rewrite Nat.add_0_r.
  - replace (S a + b) with (S (a + b)) by lia.
    rewrite !saved_names_S, IH. simpl.
    by replace (n + S a) with (n + 1 + a) by lia.
Qed.

Lemma collect_batch_kept (model : Model) (ds : Dataset)
    (efficient_test format_only : bool) (format_args : FormatArgs)
    (bags_of : M World DecodeHead)
    (batch_indices : list nat) (data : Data) (seg_logit : LogitT)
    (seg_gt : GtMap) (w : World) :
  collect_batch model ds efficient_test false format_only format_args bags_of
    batch_indices (call model data false).1 seg_logit seg_gt w
  = (mk_world (dirs w)
       (tmp_files w
        ++ saved_names (length (tmp_files w))
             (spill_count model efficient_test (batch_indices, data)))
       (log w),
     Ok (kept_entries model ds efficient_test format_only format_args
           (length (tmp_files w)) (batch_indices, data))).
Proof.
  unfold collect_batch, kept_entries, spill_count. simpl.
  destruct efficient_test.
  - erewrite mbind_ok by apply map_m_np2tmp. by rewrite !length_map.
  - erewrite mbind_ok by reflexivity. unfold mret.
    by rewrite saved_names_0, app_nil_r, world_eta.
Qed.

Lemma single_gpu_body_kept (model : Model) (ds : Dataset)
    (out_dir : option string) (efficient_test format_only : bool)
    (format_args : FormatArgs) (results : list entry)
    (b : list nat * Data) (w : World) :
  truthy out_dir = false ->
  b.1 <> [] ->
  single_gpu_body model ds false out_dir efficient_test false format_only
    format_args results b w
  = (mk_world (dirs w)
       (tmp_files w
        ++ saved_names (length (tmp_files w))
             (spill_count model efficient_test b))
       (log w
        ++ ModelCall b.2 false
           :: replicate
                (length (kept_entries model ds efficient_test format_only
                           format_args (length (tmp_files w)) b))
                ProgressUpdate),
     Ok (results
         ++ kept_entries model ds efficient_test format_only format_args
              (length (tmp_files w)) b)).
Proof.
  intros Hdir Hidx. destruct b as [idxs data]. simpl in Hidx.
  unfold single_gpu_body.
  erewrite mbind_ok by reflexivity.
  destruct (call model data false) as [preds seg_logit] eqn:Hcall.
  destruct idxs as [|idx idxs]; [done|].
  erewrite mbind_ok by reflexivity.
  rewrite Hdir. simpl orb. cbv iota.
  erewrite mbind_ok by reflexivity.
  replace preds with (call model data false).1 by (by rewrite Hcall).
  erewrite mbind_ok by apply collect_batch_kept.
  erewrite mbind_ok by apply repeat_m_emit.
  unfold mret, logged. simpl. by rewrite <- app_assoc.
Qed.

Lemma single_gpu_batches_kept (model : Model) (ds : Dataset)
    (out_dir : option string) (efficient_test format_only : bool)
    (format_args : FormatArgs) (bts : list (list nat * Data))
    (results : list entry) (w : World) :
  truthy out_dir = false ->
  Forall (fun b : list nat * Data => b.1 <> []) bts ->
  for_each bts results
    (single_gpu_body model ds false out_dir efficient_test false format_only
       format_args) w
  = (mk_world (dirs w)
       (tmp_files w
        ++ kept_files model efficient_test (length (tmp_files w)) bts)
       (log w
        ++ kept_events model ds efficient_test format_only format_args
             (length (tmp_files w)) bts),
     Ok (results
         ++ kept_all model ds efficient_test format_only format_args
              (length (tmp_files w)) bts)).
Proof.
  intros Hdir Hall. revert results w.
  induction Hall as [|b bts Hidx Hall IH]; intros results w.
  - simpl. unfold mret. by rewrite !app_nil_r, world_eta.
  - simpl for_each.
    erewrite mbind_ok by (by apply single_gpu_body_kept).
    rewrite IH. simpl. rewrite length_app, !length_saved_names.
    by rewrite <- !app_assoc.
Qed.

(** The predictions of all batches, in order. *)
Definition all_preds (model : Model) (bts : list (list nat * Data)) : list Pred :=
  concat (map (fun b : list nat * Data => (call model b.2 false).1) bts).

Definition call_events (model : Model) (bts : list (list nat * Data))
  : list event :=
  concat (map (fun b : list nat * Data =>
            ModelCall b.2 false
            :: replicate (length (call model b.2 false).1) ProgressUpdate)
          bts).

Lemma kept_plain (model : Model) (ds : Dataset) (format_args : FormatArgs)
    (n : nat) (bts : list (list nat * Data)) :
  kept_all model ds false false format_args n bts
  = map Raw (all_preds model bts)
  /\ kept_files model false n bts = []
  /\ kept_events model ds false false format_args n bts
     = call_events model bts.
Proof.
  revert n. induction bts as [|b bts IH]; intros n; [done|].
  destruct (IH (n + 0)) as (Ha & Hf & He).
  simpl. unfold spill_count. rewrite Ha, Hf, He.
  unfold kept_entries, all_preds, call_events. simpl.
  by rewrite map_app, length_map.
Qed.

Lemma kept_spill (model : Model) (ds : Dataset) (format_args : FormatArgs)
    (n : nat) (bts : list (list nat * Data)) :
  kept_all model ds true false format_args n bts
  = map Saved (saved_names n (length (all_preds model bts)))
  /\ kept_files model true n bts
     = saved_names n (length (all_preds model bts))
  /\ kept_events model ds true false format_args n bts
     = call_events model bts.
Proof.
  revert n. induction bts as [|b bts IH]; intros n; [done|].
  destruct (IH (n + length (call model b.2 false).1)) as (Ha & Hf & He).
  simpl. unfold spill_count. rewrite Ha, Hf, He.
  unfold kept_entries, all_preds, call_events. simpl.
  by rewrite length_app, saved_names_add, map_app, !length_map,
    length_saved_names.
Qed.

(** X12: without any mode flag and without drawing ([show] false, no
    [out_dir]), [single_gpu_test] on a loader of batch size one whose
    batches each name an index returns the predictions of the model,
    batch after batch in the order of the loader; the model is run once
    per batch, the progress bar moves once per prediction, and no
    directory or file is made. *)
Theorem single_gpu_test_plain (model : Model) (data_loader : DataLoader)
    (out_dir : option string) (format_args : FormatArgs) (w : World) :
  batch_size data_loader = Some 1 ->
  truthy out_dir = false ->
  Forall (fun b : list nat * Data => b.1 <> []) (batches data_loader) ->
  single_gpu_test model data_loader false out_dir false false false
    format_args w
  = (logged w
       ([ModelEval; ProgressBar (ds_len (dataset data_loader))]
        ++ call_events model (batches data_loader)),
     Ok (map Raw (all_preds model (batches data_loader)))).
Proof.
  intros Hbs Hdir Hall. unfold single_gpu_test.
  erewrite mbind_ok by (rewrite check_modes_run; reflexivity).
  erewrite mbind_ok by reflexivity.
  rewrite Hbs, bool_decide_eq_true_2 by done.
  erewrite mbind_ok by reflexivity.
  erewrite mbind_ok by reflexivity.
  rewrite (single_gpu_batches_kept _ _ out_dir) by done.
  destruct (kept_plain model (dataset data_loader) format_args
              (length (tmp_files w)) (batches data_loader)) as (Ha & Hf & He).
  simpl. rewrite Ha, Hf, He.
  unfold logged. simpl. by rewrite app_nil_r, <- !app_assoc.
Qed.

(** X13: with [efficient_test] alone (and no drawing), [single_gpu_test]
    returns file names only, one for every prediction and in the order
    of the predictions; these files are the ones the call has added,
    and the directory [.efficient_test] exists afterwards. *)
Theorem single_gpu_test_spills (model : Model) (data_loader : DataLoader)
    (out_dir : option string) (format_args : FormatArgs) (w : World) :
  batch_size data_loader = Some 1 ->
  truthy out_dir = false ->
  Forall (fun b : list nat * Data => b.1 <> []) (batches data_loader) ->
  let names :=
    saved_names (length (tmp_files w))
      (length (all_preds model (batches data_loader))) in
  let run :=
    single_gpu_test model data_loader false out_dir true false false
      format_args w in
  run.2 = Ok (map Saved names)
  /\ tmp_files run.1 = tmp_files w ++ names
  /\ dirs run.1 = {[".efficient_test"]} ∪ dirs w
  /\ length names = length (all_preds model (batches data_loader)).
Proof.
  intros Hbs Hdir Hall names run. unfold run, single_gpu_test.
  erewrite mbind_ok by (rewrite check_modes_run; reflexivity).
  erewrite mbind_ok by reflexivity.
  rewrite Hbs, bool_decide_eq_true_2 by done.
  erewrite mbind_ok by reflexivity.
  erewrite mbind_ok by reflexivity.
  rewrite (single_gpu_batches_kept _ _ out_dir) by done.
  destruct (kept_spill model (dataset data_loader) format_args
              (length (tmp_files w)) (batches data_loader)) as (Ha & Hf & He).
  simpl. rewrite Ha, Hf.
  repeat split; try done.
  unfold names, saved_names. by rewrite length_map, length_seq.
Qed.

(** **** Pre-evaluation *)

(** The mode and the last argument [pre_eval_custom] is called with. *)
Definition aux_mode (dh : DecodeHead) (l : LossAttrs) : string :=
  if negb (use_bags dh) && is_edl (loss_name l) then "edl" else "softmax".

Definition aux_arg (dh : DecodeHead) (l : LossAttrs) : custom_arg :=
  if use_bags dh then Bags (use_bags dh) (bags_kwargs dh)
  else if is_edl (loss_name l) then LogitFn (logit2alpha (pow_alpha l))
  else if use_softplus l then LogitFn logit2prob_softplus
  else LogitFn logit2prob_softmax.

Lemma pre_eval_oth_value_mode (ds : Dataset) (dh : DecodeHead) (l : LossAttrs)
    (seg_logit : LogitT) (seg_gt : GtMap) :
  loss_decode dh = SingleLoss l ->
  pre_eval_oth_value ds dh seg_logit seg_gt
  = Ok (pre_eval_custom ds seg_logit seg_gt (aux_mode dh l) (aux_arg dh l)).
Proof.
  intros Hl. unfold pre_eval_oth_value, single_loss, aux_mode, aux_arg.
  rewrite Hl. simpl.
  destruct (use_bags dh), (is_edl (loss_name l)), (use_softplus l); done.
Qed.

Lemma pre_eval_oth_value_list (ds : Dataset) (dh : DecodeHead)
    (ls : list LossAttrs) (seg_logit : LogitT) (seg_gt : GtMap) :
  use_bags dh = false ->
  loss_decode dh = ModuleList ls ->
  pre_eval_oth_value ds dh seg_logit seg_gt
  = Raise (AttributeError "loss_name").
Proof.
  intros Hb Hl. unfold pre_eval_oth_value, single_loss.
  by rewrite Hb, Hl.
Qed.

(** X14: in [pre_eval] mode, for a head with one loss module, every
    batch of [multi_gpu_test] adds exactly one entry (whatever the
    number of predictions of the batch): the pair of the first
    pre-result of [dataset.pre_eval] and of the auxiliary pre-result,
    computed from the logits and the ground truth of the first index of
    the batch in the mode [edl] when the head is not a bag head and its
    loss name starts with [loss_edl], and in the mode [softmax]
    otherwise.  For a head that is not a bag head and holds a list of
    loss modules the loop ends at its first batch: the list has no
    [loss_name], and the call raises [AttributeError]. *)
Theorem multi_gpu_loop_pre_eval (model : Model) (data_loader : DataLoader)
    (rank world_size : nat) (format_args : FormatArgs) (w : World) :
  let ds := dataset data_loader in
  let dh := unwrapped_head model in
  Forall (fun b : list nat * Data =>
            b.1 <> []
            /\ pre_eval ds (map Raw (call model b.2 true).1) b.1 <> [])
         (batches data_loader) ->
  match loss_decode dh with
  | SingleLoss l =>
      exists w' es,
        multi_gpu_loop model data_loader rank world_size false true false
          format_args w = (w', Ok es)
        /\ length es = length (batches data_loader)
        /\ forall j b, batches data_loader !! j = Some b ->
             exists idx seg,
               head b.1 = Some idx
               /\ head (pre_eval ds (map Raw (call model b.2 true).1) b.1)
                  = Some seg
               /\ es !! j
                  = Some (PreEval seg
                            (pre_eval_custom ds (call model b.2 true).2
                               (get_gt_seg_map_by_idx_and_reduce_zero_label
                                  ds idx)
                               (aux_mode dh l) (aux_arg dh l)))
  | ModuleList _ =>
      use_bags dh = false -> batches data_loader <> [] ->
      (multi_gpu_loop model data_loader rank world_size false true false
         format_args w).2 = Raise (AttributeError "loss_name")
  end.
Proof.
  intros ds dh Hall. destruct (loss_decode dh) as [l|ls] eqn:Hld.
  - assert (Hentry : forall n b, b ∈ batches data_loader ->
              exists idx seg,
                head b.1 = Some idx
                /\ head (pre_eval ds (map Raw (call model b.2 true).1) b.1)
                   = Some seg
                /\ batch_entries model ds false true false format_args n b
                   = Ok [PreEval seg
                           (pre_eval_custom ds (call model b.2 true).2
                              (get_gt_seg_map_by_idx_and_reduce_zero_label
                                 ds idx)
                              (aux_mode dh l) (aux_arg dh l))]).
    { intros n b Hb. rewrite Forall_forall in Hall.
      destruct (Hall b Hb) as [Hidx Hpre].
      unfold batch_entries, batch_indices_of, entries_of.
      destruct b.1 as [|idx idxs] eqn:Hb1; [done|].
      destruct (pre_eval ds _ (idx :: idxs)) as [|seg segs] eqn:Hp; [done|].
      exists idx, seg. by rewrite (pre_eval_oth_value_mode _ _ l). }
    destruct (multi_gpu_loop_run model data_loader rank world_size false true
                false format_args w) as (w' & es & Hrun & Hlen & Hes).
    { vm_compute. lia. }
    { intros j b Hj.
      destruct (Hentry (tmp_count false (length (tmp_files w)) j) b)
        as (idx & seg & _ & _ & He); [by eapply list_elem_of_lookup_2|].
      by eexists. }
    exists w', es. split; [done|]. split; [done|].
    intros j b Hj.
    destruct (Hentry (tmp_count false (length (tmp_files w)) j) b)
      as (idx & seg & Hi & Hs & He); [by eapply list_elem_of_lookup_2|].
    exists idx, seg. split; [done|]. split; [done|].
    rewrite (Hes j b Hj). fold ds. by rewrite He.
  - intros Hbags Hne.
    destruct (batches data_loader) as [|[idxs data] rest] eqn:Hbs; [done|].
    apply Forall_cons in Hall as [[Hidx Hpre] _]. simpl in Hidx, Hpre.
    unfold multi_gpu_loop. rewrite Hbs.
    erewrite mbind_ok by (rewrite check_modes_run; reflexivity).
    erewrite mbind_ok by reflexivity.
    assert (Hbody : forall w1,
              (for_each ((idxs, data) :: rest) []
                 (multi_gpu_body model ds rank world_size false true false
                    format_args) w1).2 = Raise (AttributeError "loss_name")).
    { intros w1. simpl for_each. unfold mbind at 1. unfold multi_gpu_body.
      erewrite mbind_ok by reflexivity.
      destruct (call model data true) as [preds seg_logit] eqn:Hcall.
      simpl in Hpre.
      destruct idxs as [|idx idxs]; [done|].
      erewrite mbind_ok by reflexivity.
      unfold mbind at 1. rewrite collect_batch_run.
      unfold entries_of.
      destruct (pre_eval ds (map Raw preds) (idx :: idxs)) as [|seg segs];
        [done|].
      by rewrite (pre_eval_oth_value_list _ _ ls). }
    destruct (Nat.eqb rank 0).
    + erewrite mbind_ok by reflexivity. apply Hbody.
    + erewrite mbind_ok by reflexivity. apply Hbody.
Qed.

(** X15: in [pre_eval] mode with a bag head ([use_bags]) on a model that
    is not inside a module wrapper, the two loops part: the body of
    [single_gpu_test] reads the bag configuration from [model.module]
    and raises [AttributeError], the body of [multi_gpu_test] reads it
    from the unwrapped model and returns the entry. *)
Theorem bag_head_without_wrapper (model : Model) (ds : Dataset)
    (out_dir : option string) (format_args : FormatArgs)
    (rank world_size : nat) (results : list entry)
    (batch : list nat * Data) (w : World) :
  is_module_wrapper model = false ->
  use_bags (unwrapped_head model) = true ->
  truthy out_dir = false ->
  batch.1 <> [] ->
  pre_eval ds (map Raw (call model batch.2 false).1) batch.1 <> [] ->
  pre_eval ds (map Raw (call model batch.2 true).1) batch.1 <> [] ->
  (single_gpu_body model ds false out_dir false true false format_args
     results batch w).2 = Raise (AttributeError "module")
  /\ exists e,
       (multi_gpu_body model ds rank world_size false true false format_args
          results batch w).2 = Ok (results ++ [e]).
Proof.
  intros Hwrap Hbags Hdir Hidx Hpre1 Hpre2.
  destruct batch as [idxs data]. simpl in Hidx, Hpre1, Hpre2.
  destruct idxs as [|idx idxs]; [done|]. split.
  - unfold single_gpu_body, mbind, emit, modify, index0, mret. simpl.
    destruct (call model data false) as [preds seg_logit]. simpl in *.
    rewrite Hdir. simpl.
    unfold collect_batch, mbind, mret, index0. simpl.
    destruct (pre_eval ds (map Raw preds) (idx :: idxs)); [done|]. simpl.
    unfold pre_eval_oth, mbind. rewrite Hbags. simpl.
    unfold module_of. by rewrite Hwrap.
  - destruct (pre_eval ds (map Raw (call model data true).1) (idx :: idxs))
      as [|seg segs] eqn:Hp; [done|].
    destruct (multi_gpu_body_one model ds rank world_size false true false
                format_args results (idx :: idxs, data) w
                (PreEval seg
                   (pre_eval_custom ds (call model data true).2
                      (get_gt_seg_map_by_idx_and_reduce_zero_label ds idx)
                      "softmax"
                      (Bags (use_bags (unwrapped_head model))
                         (bags_kwargs (unwrapped_head model))))))
      as (w' & Hrun & _).
    + vm_compute. lia.
    + unfold batch_entries, batch_indices_of, entries_of. simpl.
      rewrite Hp. unfold pre_eval_oth_value. by rewrite Hbags.
    + eexists. by rewrite Hrun.
Qed.

(** **** Progress in a process that is not the coordinator *)

Lemma multi_gpu_body_log (model : Model) (ds : Dataset) (rank world_size : nat)
    (efficient_test pre_eval_flag format_only : bool) (format_args : FormatArgs)
    (results : list entry) (batch : list nat * Data) (w : World) :
  Nat.eqb rank 0 = false ->
  log (multi_gpu_body model ds rank world_size efficient_test pre_eval_flag
         format_only format_args results batch w).1
  = log w ++ [ModelCall batch.2 true].
Proof.
  intros Hrank. destruct batch as [idxs data]. unfold multi_gpu_body.
  erewrite mbind_ok by reflexivity.
  destruct (call model data true) as [preds seg_logit].
  destruct idxs as [|idx idxs]; [done|].
  erewrite mbind_ok by reflexivity.
  unfold mbind at 1. rewrite collect_batch_run.
  destruct (entries_of _ _ _ _ _ _ _ _ _ _ _) as [es|e].
  - rewrite Hrank. erewrite mbind_ok by reflexivity.
    unfold mret, spilled. by destruct efficient_test.
  - unfold spilled. by destruct efficient_test.
Qed.

Lemma multi_gpu_batches_log (model : Model) (ds : Dataset) (rank world_size : nat)
    (efficient_test pre_eval_flag format_only : bool) (format_args : FormatArgs)
    (bts : list (list nat * Data)) (results : list entry) (w : World) :
  Nat.eqb rank 0 = false ->
  exists k,
    log (for_each bts results
           (multi_gpu_body model ds rank world_size efficient_test
              pre_eval_flag format_only format_args) w).1
    = log w ++ map (fun b : list nat * Data => ModelCall b.2 true) (take k bts).
Proof.
  intros Hrank. revert results w.
  induction bts as [|b bts IH]; intros results w.
  - exists 0. simpl. by rewrite app_nil_r.
  - simpl for_each. unfold mbind at 1.
    pose proof (multi_gpu_body_log model ds rank world_size efficient_test
                  pre_eval_flag format_only format_args results b w Hrank)
      as Hlog.
    destruct (multi_gpu_body model ds rank world_size efficient_test
                pre_eval_flag format_only format_args results b w)
      as [w1 [results1|e]]; simpl in Hlog.
    + destruct (IH results1 w1) as [k Hk]. exists (S k).
      rewrite Hk, Hlog, <- app_assoc. done.
    + exists 1. simpl. by rewrite ?take_0.
Qed.

Lemma multi_gpu_loop_log (model : Model) (data_loader : DataLoader)
    (efficient_test pre_eval_flag format_only : bool) (format_args : FormatArgs)
    (rank world_size : nat) (w : World) :
  Nat.eqb rank 0 = false ->
  exists k,
    log (multi_gpu_loop model data_loader rank world_size efficient_test
           pre_eval_flag format_only format_args w).1
    = log (after_check efficient_test w)
      ++ (if Nat.leb (count_true [efficient_test; pre_eval_flag; format_only]) 1
          then ModelEval
               :: map (fun b : list nat * Data => ModelCall b.2 true)
                    (take k (batches data_loader))
          else []).
Proof.
  intros Hrank. unfold multi_gpu_loop.
  destruct (Nat.leb (count_true [efficient_test; pre_eval_flag; format_only]) 1)
    eqn:Hc.
  - erewrite mbind_ok by (rewrite check_modes_run, Hc; reflexivity).
    erewrite mbind_ok by reflexivity.
    rewrite Hrank. erewrite mbind_ok by reflexivity.
    match goal with
    | |- context [for_each ?bts ?r ?body ?w1] =>
        destruct (multi_gpu_batches_log model (dataset data_loader) rank
                    world_size efficient_test pre_eval_flag format_only
                    format_args bts r w1 Hrank) as [k Hk]
    end.
    exists k. rewrite Hk. simpl. by rewrite <- app_assoc.
  - exists 0.
    erewrite mbind_raise by (rewrite check_modes_run, Hc; reflexivity).
    simpl. by rewrite app_nil_r.
Qed.

(** X16: a process whose rank is not [0] never makes or moves a
    progress bar in [multi_gpu_test]: whatever the flags and however the
    call ends, what it does is the warning and the directory of
    [efficient_test], then (the modes not in conflict) putting the model
    in evaluation mode and running it on its batches in order, up to
    the batch at which the call raises, if it does. *)
Theorem multi_gpu_test_quiet_rank (model : Model) (data_loader : DataLoader)
    (tmpdir : option string) (gpu_collect : bool)
    (efficient_test pre_eval_flag format_only : bool) (format_args : FormatArgs)
    (rank world_size : nat) (peers : list (list entry)) (w : World) :
  rank <> 0 ->
  exists k,
    log (multi_gpu_test model data_loader tmpdir gpu_collect efficient_test
           pre_eval_flag format_only format_args rank world_size peers w).1
    = log (after_check efficient_test w)
      ++ (if Nat.leb (count_true [efficient_test; pre_eval_flag; format_only]) 1
          then ModelEval
               :: map (fun b : list nat * Data => ModelCall b.2 true)
                    (take k (batches data_loader))
          else []).
Proof.
  intros Hrank. apply Nat.eqb_neq in Hrank.
  destruct (multi_gpu_loop_log model data_loader efficient_test pre_eval_flag
              format_only format_args rank world_size w Hrank) as [k Hk].
  exists k. rewrite <- Hk. unfold multi_gpu_test, mbind.
  destruct (multi_gpu_loop model data_loader rank world_size efficient_test
              pre_eval_flag format_only format_args w) as [w2 [results|e]];
    [|done].
  by destruct gpu_collect.
Qed.

(** **** File names of the pictures *)

(** X17: the file of a picture other than the prediction is named by
    putting its tag before the last four characters of [out_file]: for
    [out_file] made of a stem and an extension of four characters (ASCII
    or not) the name is the stem, the tag, the extension; a name of fewer
    than four characters gets the tag in front; and without [out_file]
    there is no name but a [TypeError]. *)
Theorem tagged_names (stem ext short tag : string) (w : World) :
  length (chars ext) = 4 ->
  starts_char ext = true ->
  length (chars short) < 4 ->
  tagged (Some (String.append stem ext)) tag w
  = (w, Ok (String.append stem (String.append tag ext)))
  /\ tagged (Some short) tag w = (w, Ok (String.append tag short))
  /\ tagged None tag w = (w, Raise none_type_error).
Proof.
  intros Hext Hstart Hshort.
  unfold tagged, mret, mraise, str_drop_last4, str_last4.
  rewrite chars_app by done. rewrite length_app, Hext.
  replace (length (chars stem) + 4 - 4) with (length (chars stem)) by lia.
  rewrite take_app_length, drop_app_length, !join_chars.
  replace (length (chars short) - 4) with 0 by lia.
  rewrite take_0, drop_0, join_chars.
  split; [done|]. split; [|done]. by destruct short.
Qed.

(** X18: drawing needs the module wrapper: when [single_gpu_test] is to
    show or to write pictures and the model is not inside a wrapper, it
    runs the model on the first batch and then raises [AttributeError]
    for [model.module] before anything is drawn. *)
Theorem drawing_without_wrapper (model : Model) (data_loader : DataLoader)
    (show : bool) (out_dir : option string)
    (efficient_test pre_eval_flag format_only : bool) (format_args : FormatArgs)
    (batch_indices : list nat) (data : Data) (rest : list (list nat * Data))
    (w : World) :
  count_true [efficient_test; pre_eval_flag; format_only] <= 1 ->
  batch_size data_loader = Some 1 ->
  batches data_loader = (batch_indices, data) :: rest ->
  batch_indices <> [] ->
  data_img_metas data <> [] ->
  data_num_imgs data = length (data_img_metas data) ->
  (call model data false).1 <> [] ->
  show || truthy out_dir = true ->
  is_module_wrapper model = false ->
  single_gpu_test model data_loader show out_dir efficient_test pre_eval_flag
    format_only format_args w
  = (logged (after_check efficient_test w)
       [ModelEval; ProgressBar (ds_len (dataset data_loader));
        ModelCall data false],
     Raise (AttributeError "module")).
Proof.
  intros Hc Hbs Hb Hidx Hmetas Hnum Hres Hshow Hwrap.
  apply Nat.leb_le in Hc. unfold single_gpu_test.
  erewrite mbind_ok by (rewrite check_modes_run, Hc; reflexivity).
  erewrite mbind_ok by reflexivity.
  rewrite Hbs, bool_decide_eq_true_2 by reflexivity.
  erewrite mbind_ok by reflexivity.
  erewrite mbind_ok by reflexivity.
  rewrite Hb. simpl for_each. apply mbind_raise.
  unfold single_gpu_body.
  erewrite mbind_ok by reflexivity.
  destruct (call model data false) as [preds seg_logit] eqn:Hcall.
  destruct batch_indices as [|idx idxs]; [done|].
  erewrite mbind_ok by reflexivity.
  apply mbind_raise. rewrite Hshow.
  unfold visualize.
  destruct (data_img_metas data) as [|meta metas] eqn:Hm; [done|].
  rewrite Hnum. simpl length. rewrite Nat.eqb_refl.
  unfold index0, py_assert.
  erewrite mbind_ok by reflexivity. erewrite mbind_ok by reflexivity.
  simpl for_each. apply mbind_raise.
  unfold show_one. simpl in Hres.
  destruct preds as [|p preds]; [done|].
  erewrite mbind_ok by reflexivity.
  apply mbind_raise. unfold module_of. rewrite Hwrap.
  unfold mraise, logged. simpl. by rewrite <- !app_assoc.
Qed.

End Eval.
End Test.

(** ** The hooks of [mmseg/core/hook] *)

(** *** ParseEpochToLossHook *)

Module ParseEpochToLossHook.

(** The attributes of the loss the hook reads and writes; [None] for an
    attribute the object does not have. *)
Record Loss : Type := mk_loss {
  epoch_num : option Z;
  total_epochs : option Z;
}.

(** The runner, as far as the hook goes:
    [runner.model.module.decode_head.loss_decode], [runner._max_epochs]
    and [runner.epoch]. *)
Record Runner : Type := mk_runner {
  loss_decode : Loss;
  _max_epochs : Z;
  epoch : Z;
}.

(** [hasattr(loss_decode, "epoch_num")]. *)
Definition hasattr_epoch_num (l : Loss) : bool :=
  match epoch_num l with Some _ => true | None => false end.

Definition before_run (runner : Runner) : Runner :=
  if hasattr_epoch_num (loss_decode runner) then
    mk_runner (mk_loss (epoch_num (loss_decode runner))
                       (Some (_max_epochs runner)))
              (_max_epochs runner) (epoch runner)
  else runner.

Definition before_train_epoch (runner : Runner) : Runner :=
  if hasattr_epoch_num (loss_decode runner) then
    mk_runner (mk_loss (Some (epoch runner))
                       (total_epochs (loss_decode runner)))
              (_max_epochs runner) (epoch runner)
  else runner.

Definition discrepancy_msg : string :=
  "Descrepancy in the stored epoch number between model and runner".

(** [after_epoch] changes nothing; it returns what [print_log] is given. *)
Definition after_epoch (runner : Runner) : list string :=
  match epoch_num (loss_decode runner) with
  | Some n =>
      if bool_decide (n <> epoch runner) then [discrepancy_msg] else []
  | None => []
  end.

(** The runner moving on to another epoch count. *)
Definition at_epoch (runner : Runner) (e : Z) : Runner :=
  mk_runner (loss_decode runner) (_max_epochs runner) e.

(** X22: for a loss without the attribute [epoch_num] the hook does
    nothing at all: no method changes the runner or reports anything.
    For a loss with it, [before_run] and [before_train_epoch] keep the
    attribute, [before_run] records the runner's maximum of epochs, and
    [after_epoch] reports the discrepancy exactly when the epoch count
    of the runner is no longer the one [before_train_epoch] stored. *)
Theorem epoch_is_tracked (runner : Runner) (e : Z) :
  (hasattr_epoch_num (loss_decode runner) = false ->
   before_run runner = runner
   /\ before_train_epoch runner = runner
   /\ after_epoch runner = [])
  /\ hasattr_epoch_num (loss_decode (before_run runner))
     = hasattr_epoch_num (loss_decode runner)
  /\ hasattr_epoch_num (loss_decode (before_train_epoch runner))
     = hasattr_epoch_num (loss_decode runner)
  /\ (hasattr_epoch_num (loss_decode runner) = true ->
      total_epochs (loss_decode (before_run runner))
      = Some (_max_epochs runner)
      /\ epoch_num (loss_decode (before_train_epoch (before_run runner)))
         = Some (epoch runner)
      /\ after_epoch (at_epoch (before_train_epoch runner) e)
         = (if bool_decide (e = epoch runner) then [] else [discrepancy_msg])).
Proof.
  unfold before_run, before_train_epoch, after_epoch, hasattr_epoch_num.
  destruct runner as [[[n|] tot] mx ep]; simpl.
  - repeat split; try done.
    repeat case_bool_decide; congruence.
  - repeat split; done.
Qed.

End ParseEpochToLossHook.

(** *** LoggerHook_ *)

Module LoggerHook_.

(** What the methods of the hook raise. *)
Inductive raised : Type :=
| ValueError (msg : string)
| TypeError (msg : string)
| IndexError.

Inductive outcome (A : Type) : Type :=
| Return (a : A)
| Raise (e : raised).
Arguments Return {A} a.
Arguments Raise {A} e.

Definition oc_bind {A B : Type} (m : outcome A) (k : A -> outcome B)
  : outcome B :=
  match m with
  | Return a => k a
  | Raise e => Raise e
  end.

(** A [for] loop over the items of a dict, threading the state. *)
Fixpoint for_items {K V S : Type} (body : S -> K -> V -> outcome S)
  (items : list (K * V)) (s : S) : outcome S :=
  match items with
  | [] => Return s
  | (k, v) :: rest => oc_bind (body s k v) (for_items body rest)
  end.

Lemma append_inj_l (m a b : string) : m +:+ a = m +:+ b -> a = b.
Proof. induction m as [|c m IH]; simpl; [done | intros [= E]; auto]. Qed.

Section Logger.

(** The numbers ([numbers.Number]) the buffer and the optimizer hold. *)
Variable Num : Type.

(** A value of [runner.log_buffer.output]: a number, a numpy array or a
    torch tensor, each with its shape, or a string. *)
Inductive logval : Type :=
| Number (x : Num)
| NdArray (shape : list nat)
| Tensor (shape : list nat)
| Str (s : string).

(** [runner.current_lr()] and [runner.current_momentum()]: a dict of
    lists by optimizer name, or one list. *)
Inductive rates : Type :=
| PerOptimizer (d : list (string * list Num))
| Groups (l : list Num).

Record Runner : Type := mk_runner {
  mode : string;
  epoch : Z;
  iter : Z;
  inner_iter : Z;
  output : list (string * logval);
  current_lr : rates;
  current_momentum : rates;
}.

Record t : Type := mk {
  interval : Z;
  ignore_last : bool;
  reset_flag : bool;
  by_epoch : bool;
}.

Definition __init__ (interval : Z) (ignore_last reset_flag by_epoch : bool)
  : t := mk interval ignore_last reset_flag by_epoch.

(** [len(val)] of a tensor: its first dimension, none for a 0-d tensor. *)
Definition tensor_len (shape : list nat) : outcome nat :=
  match shape with
  | [] => Raise (TypeError "len() of a 0-d tensor")
  | d :: _ => Return d
  end.

Definition is_scalar (val : logval) (include_np include_torch : bool)
  : outcome bool :=
  match val with
  | Number _ => Return true
  | NdArray shape =>
      if include_np && bool_decide (length shape = 0%nat) then Return true
      else Return false
  | Tensor shape =>
      if include_torch then
        oc_bind (tensor_len shape) (fun n =>
        if bool_decide (n = 1%nat) then Return true else Return false)
      else Return false
  | Str _ => Return false
  end.

Definition mode_msg (runner : Runner) : string :=
  "runner mode should be 'train' or 'val', but got " +:+ mode runner.

Definition get_mode (runner : Runner) : outcome string :=
  if bool_decide (mode runner = "train") then
    if bool_decide ("time" ∈ (output runner).*1) then Return "train"
    else Return "val"
  else if bool_decide (mode runner = "val") then Return "val"
  else Raise (ValueError (mode_msg runner)).

Definition get_epoch (runner : Runner) : outcome Z :=
  if bool_decide (mode runner = "train") then Return (epoch runner + 1)%Z
  else if bool_decide (mode runner = "val") then Return (epoch runner)
  else Raise (ValueError (mode_msg runner)).

Definition get_iter (self : t) (runner : Runner) (inner : bool) : Z :=
  if by_epoch self && inner then (inner_iter runner + 1)%Z
  else (iter runner + 1)%Z.

(** [value[0]]. *)
Definition first_of (value : list Num) : outcome Num :=
  match value with
  | [] => Raise IndexError
  | x :: _ => Return x
  end.

(** The body of the loop of both tag functions:
    [tags[f'{prefix}{name}'] = value[0]]. *)
Definition tag_first (prefix : string) (tags : gmap string Num)
  (name : string) (value : list Num) : outcome (gmap string Num) :=
  oc_bind (first_of value) (fun x => Return (<[prefix +:+ name := x]> tags)).

Definition get_lr_tags (runner : Runner) : outcome (gmap string Num) :=
  match current_lr runner with
  | PerOptimizer d => for_items (tag_first "learning_rate/") d ∅
  | Groups l =>
      oc_bind (first_of l) (fun x => Return (<["learning_rate" := x]> ∅))
  end.

Definition get_momentum_tags (runner : Runner) : outcome (gmap string Num) :=
  match current_momentum runner with
  | PerOptimizer d => for_items (tag_first "momentum/") d ∅
  | Groups l =>
      oc_bind (first_of l) (fun x => Return (<["momentum" := x]> ∅))
  end.

Definition is_str (val : logval) : bool :=
  match val with Str _ => true | _ => false end.

(** [tags.update(more)]: the new entries win. *)
Definition update (tags : gmap string logval) (more : gmap string Num)
  : gmap string logval := (Number <$> more) ∪ tags.

(** The body of the loop of [get_loggable_tags]. *)
Definition loggable_body (runner : Runner)
  (allow_scalar allow_text add_mode : bool) (tags_to_skip : list string)
  (tags : gmap string logval) (var : string) (val : logval)
  : outcome (gmap string logval) :=
  if bool_decide (var ∈ tags_to_skip) then Return tags
  else
    oc_bind (is_scalar val true true) (fun scalar =>
    if scalar && negb allow_scalar then Return tags
    else if is_str val && negb allow_text then Return tags
    else
      oc_bind (if add_mode then
                 oc_bind (get_mode runner) (fun m =>
                 Return (m +:+ "/" +:+ var))
               else Return var) (fun var' =>
      Return (<[var' := val]> tags))).

Definition get_loggable_tags (self : t) (runner : Runner)
  (allow_scalar allow_text add_mode : bool) (tags_to_skip : list string)
  : outcome (gmap string logval) :=
  oc_bind (for_items
             (loggable_body runner allow_scalar allow_text add_mode
                            tags_to_skip)
             (output runner) ∅) (fun tags =>
  oc_bind (get_lr_tags runner) (fun lr =>
  oc_bind (get_momentum_tags runner) (fun momentum =>
  Return (update (update tags lr) momentum)))).

(** The entries of [runner.hooks]. *)
Inductive hook : Type :=
| Logger (h : t)
| Other (name : string).

Definition is_logger (h : hook) : bool :=
  match h with Logger _ => true | Other _ => false end.

(** The loop of [before_run] over the hooks it is given: the first logger
    hook met gets [reset_flag = True] and the loop ends. *)
Fixpoint flag_first (hooks : list hook) : list hook :=
  match hooks with
  | [] => []
  | Logger h :: rest =>
      Logger (mk (interval h) (ignore_last h) true (by_epoch h)) :: rest
  | Other name :: rest => Other name :: flag_first rest
  end.

(** [before_run] walks [runner.hooks[::-1]]; the hooks are returned in
    the order of [runner.hooks]. *)
Definition before_run (hooks : list hook) : list hook :=
  rev (flag_first (rev hooks)).

(** **** Properties *)

(** The buffered values [get_loggable_tags] keeps. *)
Definition kept (allow_scalar allow_text : bool) (tags_to_skip : list string)
  (var : string) (val : logval) : bool :=
  negb (bool_decide (var ∈ tags_to_skip))
  && match is_scalar val true true with
     | Return scalar => negb (scalar && negb allow_scalar)
     | Raise _ => false
     end
  && negb (is_str val && negb allow_text).

(** A 0-d tensor under a name that is not skipped. *)
Definition zero_dim (tags_to_skip : list string) (var : string)
  (val : logval) : bool :=
  negb (bool_decide (var ∈ tags_to_skip))
  && match val with Tensor [] => true | _ => false end.

Definition valid_mode (runner : Runner) : Prop :=
  mode runner = "train" \/ mode runner = "val".

(** The name a kept variable is stored under. *)
Definition tag_name (add_mode : bool) (m var : string) : string :=
  if add_mode then m +:+ "/" +:+ var else var.

(** The tags the loop of [get_loggable_tags] leaves when nothing raises. *)
Definition kept_tags (allow_scalar allow_text add_mode : bool)
  (tags_to_skip : list string) (m : string)
  (items : list (string * logval)) (tags : gmap string logval)
  : gmap string logval :=
  foldl (fun tags '(var, val) =>
           if kept allow_scalar allow_text tags_to_skip var val
           then <[tag_name add_mode m var := val]> tags else tags)
        tags items.

(** What is logged when the buffer contributes nothing. *)
Definition rates_only (runner : Runner) : outcome (gmap string logval) :=
  oc_bind (get_lr_tags runner) (fun lr =>
  oc_bind (get_momentum_tags runner) (fun momentum =>
  Return (update (update ∅ lr) momentum))).

Definition zero_dim_msg : string := "len() of a 0-d tensor".

Definition flagged (h : t) : t :=
  mk (interval h) (ignore_last h) true (by_epoch h).

Definition plain (o : hook) : Prop := is_logger o = false.

Lemma get_mode_valid runner m :
  get_mode runner = Return m -> m = "train" \/ m = "val".
Proof.
  unfold get_mode. repeat case_bool_decide; intros [= <-]; auto.
Qed.

Lemma valid_mode_get_mode runner :
  valid_mode runner -> exists m, get_mode runner = Return m.
Proof.
  unfold valid_mode, get_mode. intros [E | E]; rewrite E; simpl.
  - case_bool_decide; eauto.
  - eauto.
Qed.

Lemma invalid_mode_get_mode runner :
  ~ valid_mode runner -> get_mode runner = Raise (ValueError (mode_msg runner)).
Proof.
  unfold valid_mode, get_mode. intros Hn.
  repeat case_bool_decide; tauto.
Qed.

Lemma tag_name_inj add_mode m v1 v2 :
  tag_name add_mode m v1 = tag_name add_mode m v2 -> v1 = v2.
Proof.
  destruct add_mode; simpl; [|done].
  intros E. apply append_inj_l in E. by injection E.
Qed.

Lemma loggable_body_cases runner allow_scalar allow_text add_mode skip
  tags var val :
  loggable_body runner allow_scalar allow_text add_mode skip tags var val =
  if zero_dim skip var val then Raise (TypeError zero_dim_msg)
  else if kept allow_scalar allow_text skip var val then
    oc_bind (if add_mode then
               oc_bind (get_mode runner) (fun m => Return (m +:+ "/" +:+ var))
             else Return var) (fun var' => Return (<[var' := val]> tags))
  else Return tags.
Proof.
  unfold loggable_body, zero_dim, kept.
  destruct (bool_decide (var ∈ skip)); simpl; [done|].
  destruct val as [x|shape|[|d shape]|s]; simpl; try done.
  - destruct allow_scalar; done.
  - case_bool_decide; destruct allow_scalar; done.
  - case_bool_decide; destruct allow_scalar; done.
  - destruct allow_text; done.
Qed.

Lemma loop_valid runner allow_scalar allow_text add_mode skip m items :
  (add_mode = true -> get_mode runner = Return m) ->
  forall tags,
  for_items (loggable_body runner allow_scalar allow_text add_mode skip)
            items tags
  = if existsb (fun e => zero_dim skip e.1 e.2) items
    then Raise (TypeError zero_dim_msg)
    else Return (kept_tags allow_scalar allow_text add_mode skip m items tags).
Proof.
  intros Hm. induction items as [|[var val] rest IH]; intros tags; simpl.
  - done.
  - rewrite loggable_body_cases.
    destruct (zero_dim skip var val); simpl; [done|].
    destruct (kept allow_scalar allow_text skip var val); simpl.
    + destruct add_mode; simpl.
      * rewrite Hm by done. simpl. apply IH.
      * apply IH.
    + apply IH.
Qed.

Lemma loop_invalid runner allow_scalar allow_text skip e items :
  get_mode runner = Raise e ->
  existsb (fun e => zero_dim skip e.1 e.2) items = false ->
  forall tags,
  for_items (loggable_body runner allow_scalar allow_text true skip)
            items tags
  = if existsb (fun e => kept allow_scalar allow_text skip e.1 e.2) items
    then Raise e else Return tags.
Proof.
  intros Hm. induction items as [|[var val] rest IH]; simpl; intros Hz tags.
  - done.
  - apply orb_false_iff in Hz as [Hz1 Hz2].
    rewrite loggable_body_cases, Hz1.
    destruct (kept allow_scalar allow_text skip var val); simpl.
    + by rewrite Hm.
    + by apply IH.
Qed.

Lemma kept_tags_other allow_scalar allow_text add_mode skip m k items :
  forall tags,
  (forall var val, (var, val) ∈ items ->
     kept allow_scalar allow_text skip var val = true ->
     k <> tag_name add_mode m var) ->
  kept_tags allow_scalar allow_text add_mode skip m items tags !! k
  = tags !! k.
Proof.
  induction items as [|[var val] rest IH]; intros tags Hk; simpl; [done|].
  rewrite IH.
  - destruct (kept allow_scalar allow_text skip var val) eqn:Ek; [|done].
    rewrite lookup_insert_ne; [done|].
    intros E. eapply Hk; [left | exact Ek | by symmetry].
  - intros v x Hin. apply Hk. by right.
Qed.

Lemma kept_tags_lookup allow_scalar allow_text add_mode skip m items :
  forall tags var val,
  NoDup items.*1 ->
  (var, val) ∈ items ->
  kept allow_scalar allow_text skip var val = true ->
  kept_tags allow_scalar allow_text add_mode skip m items tags
    !! tag_name add_mode m var = Some val.
Proof.
  induction items as [|[v0 x0] rest IH]; intros tags var val Hnd Hin Hk.
  - by apply elem_of_nil in Hin.
  - simpl in Hnd. apply NoDup_cons in Hnd as [Hfresh Hnd].
    apply elem_of_cons in Hin as [[= <- <-] | Hin]; simpl.
    + rewrite Hk, kept_tags_other.
      * by rewrite lookup_insert_eq.
      * intros v x Hv _ E. apply tag_name_inj in E. subst v.
        apply Hfresh. apply list_elem_of_fmap. by exists (var, x).
    + by apply IH.
Qed.

Lemma rate_loop_other prefix k d :
  forall tags0 tags,
  for_items (tag_first prefix) d tags0 = Return tags ->
  (forall name, k <> prefix +:+ name) ->
  tags !! k = tags0 !! k.
Proof.
  induction d as [|[name value] rest IH]; intros tags0 tags; simpl.
  - by intros [= <-].
  - destruct value as [|x value]; simpl; [done|].
    intros Hrun Hk. rewrite (IH _ _ Hrun Hk).
    by rewrite lookup_insert_ne.
Qed.

Lemma lr_tags_other runner lr k :
  get_lr_tags runner = Return lr ->
  k <> "learning_rate" ->
  (forall name, k <> "learning_rate/" +:+ name) ->
  lr !! k = None.
Proof.
  unfold get_lr_tags. destruct (current_lr runner) as [d | [|x l]]; simpl.
  - intros Hrun _ Hk. by rewrite (rate_loop_other _ _ _ _ _ Hrun Hk).
  - done.
  - intros [= <-] Hk _. by rewrite lookup_insert_ne.
Qed.

Lemma momentum_tags_other runner momentum k :
  get_momentum_tags runner = Return momentum ->
  k <> "momentum" ->
  (forall name, k <> "momentum/" +:+ name) ->
  momentum !! k = None.
Proof.
  unfold get_momentum_tags.
  destruct (current_momentum runner) as [d | [|x l]]; simpl.
  - intros Hrun _ Hk. by rewrite (rate_loop_other _ _ _ _ _ Hrun Hk).
  - done.
  - intros [= <-] Hk _. by rewrite lookup_insert_ne.
Qed.

Lemma rates_never_type_error runner msg :
  get_lr_tags runner <> Raise (TypeError msg)
  /\ get_momentum_tags runner <> Raise (TypeError msg).
Proof.
  assert (Hloop : forall prefix d tags0,
            for_items (tag_first prefix) d tags0 <> Raise (TypeError msg)).
  { intros prefix d. induction d as [|[name [|x value]] rest IH];
      intros tags0; simpl; [done | done | apply IH]. }
  unfold get_lr_tags, get_momentum_tags. split.
  - destruct (current_lr runner) as [d | [|x l]]; simpl; [apply Hloop|done..].
  - destruct (current_momentum runner) as [d | [|x l]]; simpl;
      [apply Hloop|done..].
Qed.

Lemma flag_first_plain hooks :
  Forall plain hooks -> flag_first hooks = hooks.
Proof.
  induction 1 as [|[h|name] rest Hp _ IH]; simpl; [done | done |].
  by rewrite IH.
Qed.

Lemma flag_first_app pre h post :
  Forall plain pre ->
  flag_first (pre ++ Logger h :: post) = pre ++ Logger (flagged h) :: post.
Proof.
  induction 1 as [|[h0|name] rest Hp _ IH]; simpl; [done | done |].
  by rewrite IH.
Qed.

Lemma before_run_last pre h post :
  Forall plain post ->
  before_run (pre ++ Logger h :: post) = pre ++ Logger (flagged h) :: post.
Proof.
  intros Hp. unfold before_run.
  rewrite rev_app_distr. simpl. rewrite <- app_assoc. simpl.
  rewrite flag_first_app.
  - rewrite rev_app_distr. simpl. rewrite !rev_involutive.
    by rewrite <- app_assoc.
  - by apply Forall_rev.
Qed.

Lemma before_run_plain hooks :
  Forall plain hooks -> before_run hooks = hooks.
Proof.
  intros Hp. unfold before_run. rewrite flag_first_plain.
  - apply rev_involutive.
  - by apply Forall_rev.
Qed.

Lemma last_logger hooks :
  Forall plain hooks
  \/ exists pre h post, hooks = pre ++ Logger h :: post /\ Forall plain post.
Proof.
  induction hooks as [|o rest [Hp | (pre & h & post & -> & Hp)]].
  - by left.
  - destruct o as [h|name].
    + right. by exists [], h, rest.
    + left. by constructor.
  - right. by exists (o :: pre), h, post.
Qed.

(** X23: [get_mode] names only the modes "train" and "val", and "train"
    only for a training runner whose buffer holds the key "time";
    [get_mode] and [get_epoch] raise on the same runners, with the same
    error; and for a training runner whose buffer lacks "time" the mode
    reported is "val" while the epoch reported is still the training
    one, [runner.epoch + 1]. *)
Theorem mode_and_epoch (runner : Runner) :
  (forall m, get_mode runner = Return m -> m = "train" \/ m = "val")
  /\ (get_mode runner = Return "train"
      <-> mode runner = "train" /\ "time" ∈ (output runner).*1)
  /\ (forall e, get_mode runner = Raise e <-> get_epoch runner = Raise e)
  /\ (mode runner = "train" -> "time" ∉ (output runner).*1 ->
      get_mode runner = Return "val"
      /\ get_epoch runner = Return (epoch runner + 1)%Z).
Proof.
  split; [apply get_mode_valid|].
  unfold get_mode, get_epoch.
  repeat split; repeat case_bool_decide; try done; try tauto;
    try (by intros [= ?]); try (by intros [[= ?] ?]); by intros [= <-].
Qed.

(** X24: when [get_loggable_tags] returns with [add_mode] set, a variable
    of the buffer is found in the tags under "<mode>/<name>" with the
    very value the buffer holds, if it is kept (its name not skipped, no
    scalar while scalars are refused, no string while text is refused);
    no value is stored under that name for a variable that is not kept.
    Neither the learning rates nor the momentums overwrite it. *)
Theorem loggable_tags_content (self : t) (runner : Runner)
  (allow_scalar allow_text : bool) (tags_to_skip : list string)
  (m : string) (tags : gmap string logval) :
  NoDup (output runner).*1 ->
  get_mode runner = Return m ->
  get_loggable_tags self runner allow_scalar allow_text true tags_to_skip
    = Return tags ->
  forall var val, (var, val) ∈ output runner ->
    tags !! (m +:+ "/" +:+ var)
    = if kept allow_scalar allow_text tags_to_skip var val
      then Some val else None.
Proof.
  intros Hnd Hm Hrun var val Hin.
  unfold get_loggable_tags in Hrun.
  rewrite (loop_valid _ _ _ _ _ m) in Hrun by done.
  destruct (existsb _ _); [done|]. simpl in Hrun.
  destruct (get_lr_tags runner) as [lr|] eqn:Elr; [|done].
  destruct (get_momentum_tags runner) as [mom|] eqn:Emom; [|done].
  simpl in Hrun. injection Hrun as <-.
  assert (Hkey : m = "train" \/ m = "val") by by eapply get_mode_valid.
  unfold update.
  rewrite lookup_union_r.
  2:{ rewrite lookup_fmap, (momentum_tags_other _ _ _ Emom); [done|..];
      destruct Hkey as [-> | ->]; simpl; try done; by intros name. }
  rewrite lookup_union_r.
  2:{ rewrite lookup_fmap, (lr_tags_other _ _ _ Elr); [done|..];
      destruct Hkey as [-> | ->]; simpl; try done; by intros name. }
  change (m +:+ "/" +:+ var) with (tag_name true m var).
  destruct (kept allow_scalar allow_text tags_to_skip var val) eqn:Ek.
  - by apply kept_tags_lookup.
  - rewrite kept_tags_other; [done|].
    intros v x Hv Hkv E. apply tag_name_inj in E. subst v.
    assert (x = val) as ->; [|congruence].
    pose proof (elem_of_list_to_map_1 (M := gmap string) _ _ _ Hnd Hv) as E1.
    pose proof (elem_of_list_to_map_1 (M := gmap string) _ _ _ Hnd Hin) as E2.
    congruence.
Qed.

(** X25: with a runner mode that is neither "train" nor "val", and no 0-d
    tensor in the way, [get_loggable_tags] with [add_mode] set raises the
    ValueError of [get_mode] exactly when the buffer holds a variable it
    would keep; when every variable is skipped or filtered out (or the
    buffer is empty), the mode is never asked for and the call goes on
    to the learning rates and momentums alone. *)
Theorem unknown_mode_needs_a_kept_variable (self : t) (runner : Runner)
  (allow_scalar allow_text : bool) (tags_to_skip : list string) :
  ~ valid_mode runner ->
  existsb (fun e => zero_dim tags_to_skip e.1 e.2) (output runner) = false ->
  get_loggable_tags self runner allow_scalar allow_text true tags_to_skip
  = if existsb (fun e => kept allow_scalar allow_text tags_to_skip e.1 e.2)
               (output runner)
    then Raise (ValueError (mode_msg runner))
    else rates_only runner.
Proof.
  intros Hmode Hz. unfold get_loggable_tags.
  rewrite (loop_invalid _ _ _ _ _ _ (invalid_mode_get_mode _ Hmode) Hz).
  clear Hz. by destruct (existsb _ _).
Qed.

(** X26: for a runner in mode "train" or "val", [get_loggable_tags]
    raises the TypeError of [len()] exactly when the buffer holds a 0-d
    torch tensor under a name that is not skipped, whatever the other
    arguments are and whatever the optimizer reports. *)
Theorem zero_dim_tensor_raises (self : t) (runner : Runner)
  (allow_scalar allow_text add_mode : bool) (tags_to_skip : list string) :
  valid_mode runner ->
  get_loggable_tags self runner allow_scalar allow_text add_mode tags_to_skip
    = Raise (TypeError zero_dim_msg)
  <-> exists var, (var, Tensor []) ∈ output runner /\ var ∉ tags_to_skip.
Proof.
  intros Hmode. destruct (valid_mode_get_mode _ Hmode) as [m Hm].
  unfold get_loggable_tags.
  rewrite (loop_valid _ _ _ _ _ m) by done.
  destruct (existsb _ _) eqn:Ez; simpl.
  - split; [intros _ | done].
    apply existsb_exists in Ez as ([var val] & Hin & Hz).
    unfold zero_dim in Hz. simpl in Hz.
    apply andb_true_iff in Hz as [Hs Hv].
    apply negb_true_iff, bool_decide_eq_false in Hs.
    exists var. split; [|done].
    destruct val as [|?|[|??]|?]; try done.
    by apply list_elem_of_In.
  - split.
    + intros Hrun. exfalso.
      destruct (rates_never_type_error runner zero_dim_msg) as [Hlr Hmom].
      destruct (get_lr_tags runner); simpl in Hrun;
        [|by injection Hrun as ->].
      destruct (get_momentum_tags runner); simpl in Hrun;
        [done | by injection Hrun as ->].
    + intros (var & Hin & Hs). exfalso.
      assert (existsb (fun e => zero_dim tags_to_skip e.1 e.2)
                      (output runner) = true); [|congruence].
      apply existsb_exists. exists (var, Tensor []).
      split; [by apply list_elem_of_In|].
      unfold zero_dim. simpl. by rewrite bool_decide_eq_false_2.
Qed.

(** X27: whenever [get_loggable_tags] returns and the runner reports its
    learning rates (its momentums) as one list, the list is not empty and
    the tag "learning_rate" ("momentum") holds its first entry, whatever
    the buffer holds, even a variable of that very name logged without
    the mode prefix. *)
Theorem rates_overwrite_buffer (self : t) (runner : Runner)
  (allow_scalar allow_text add_mode : bool) (tags_to_skip : list string)
  (tags : gmap string logval) :
  get_loggable_tags self runner allow_scalar allow_text add_mode tags_to_skip
    = Return tags ->
  (forall l, current_lr runner = Groups l ->
     exists x rest, l = x :: rest
       /\ tags !! "learning_rate" = Some (Number x))
  /\ (forall l, current_momentum runner = Groups l ->
     exists y rest, l = y :: rest /\ tags !! "momentum" = Some (Number y)).
Proof.
  unfold get_loggable_tags. intros Hrun.
  destruct (for_items _ _ _) as [buf|]; [|done]. simpl in Hrun.
  destruct (get_lr_tags runner) as [lr|] eqn:Elr; [|done].
  destruct (get_momentum_tags runner) as [mom|] eqn:Emom; [|done].
  simpl in Hrun. injection Hrun as <-. unfold update. split.
  - intros l El. unfold get_lr_tags in Elr. rewrite El in Elr.
    destruct l as [|x rest]; [done|]. simpl in Elr. injection Elr as <-.
    exists x, rest. split; [done|].
    rewrite lookup_union_r.
    + erewrite lookup_union_Some_l; [done|].
      by rewrite lookup_fmap, lookup_insert_eq.
    + rewrite lookup_fmap, (momentum_tags_other _ _ _ Emom); [done|done|].
      by intros name.
  - intros l El. unfold get_momentum_tags in Emom. rewrite El in Emom.
    destruct l as [|y rest]; [done|]. simpl in Emom. injection Emom as <-.
    exists y, rest. split; [done|].
    erewrite lookup_union_Some_l; [done|].
    by rewrite lookup_fmap, lookup_insert_eq.
Qed.

(** X28: [before_run] sets [reset_flag] on the last logger hook of
    [runner.hooks] and on no other hook: the hooks before it and after it
    stay as they are, also the logger hooks before it; without a logger
    hook nothing changes; and running it again (every logger hook of the
    runner runs it) changes nothing more. *)
Theorem before_run_flags_last_logger (hooks : list hook) :
  (forall pre h post,
     hooks = pre ++ Logger h :: post -> Forall plain post ->
     before_run hooks = pre ++ Logger (flagged h) :: post)
  /\ (Forall plain hooks -> before_run hooks = hooks)
  /\ before_run (before_run hooks) = before_run hooks
  /\ length (before_run hooks) = length hooks.
Proof.
  split; [|split; [|split]].
  - intros pre h post -> Hp. by apply before_run_last.
  - apply before_run_plain.
  - destruct (last_logger hooks) as [Hp | (pre & h & post & -> & Hp)].
    + by rewrite !(before_run_plain hooks).
    + by rewrite (before_run_last pre h), (before_run_last pre (flagged h)).
  - destruct (last_logger hooks) as [Hp | (pre & h & post & -> & Hp)].
    + by rewrite before_run_plain.
    + rewrite before_run_last by done. by rewrite !length_app.
Qed.

End Logger.
End LoggerHook_.

(** ** A small head over the integers

    The definitions above run: here they are on a head of one input
    channel and two classes whose tensors hold integers. *)

Module HeadInstance.

(** Numbers in [Z]; among the accumulated values [0] is the Python
    number and every other integer stands for a tensor. *)
#[local] Instance Z_backend : Backend :=
  {| R := Z; r0 := 0%Z; r1 := 1%Z; Acc := Z; py_zero := 0%Z; acc_add := Z.add;
     is_tensor := fun a => negb (Z.eqb a 0); py_zero_number := eq_refl |}.

(** A feature sample is one number, its logits one number per class. *)
Definition conv2d_sample (weight bias : tensor) (f : Z) : list Z :=
  zip_with (fun w b => (w * f + b)%Z) (t_data weight) (t_data bias).

(** A transform that shifts every coordinate by one. *)
Definition shift (dim i : nat) : NormalizingFlowDensity.transform :=
  NormalizingFlowDensity.mk_transform (map (map (Z.add 1))) (fun _ _ => 2%Z).

Definition weight0 : tensor := mk_tensor [2; 1; 1; 1] [3; 4]%Z.
Definition bias0 : tensor := mk_tensor [2] [1; 2]%Z.

Definition loss_edl : NfBllBaseDecodeHead.LossModule (list Z) unit Z :=
  NfBllBaseDecodeHead.mk_loss (list Z) unit Z "loss_edl"
    (fun _ _ weight _ => match weight with Some w => w | None => 7%Z end)
    (Some (fun _ _ _ => {["mean_ev_sum" := 3%Z]})).

Definition loss_ce : NfBllBaseDecodeHead.LossModule (list Z) unit Z :=
  NfBllBaseDecodeHead.mk_loss (list Z) unit Z "loss_ce"
    (fun _ _ weight _ => match weight with Some w => w | None => 1%Z end)
    None.

Definition sampler0 : NfBllBaseDecodeHead.PixelSampler (list Z) unit Z :=
  NfBllBaseDecodeHead.mk_sampler (list Z) unit Z (fun _ _ => 9%Z).

(** The constructors of the flows: every one returns the shift, but the
    autoregressive one refuses more than 128 coordinates, as pyro's
    does for its two hidden layers of 128 units. *)
Definition shift_flow (dim i : nat) : result NormalizingFlowDensity.transform :=
  Ok (shift dim i).

Definition iaf (dim i : nat) : result NormalizingFlowDensity.transform :=
  if Nat.ltb 128 dim
  then Raise (ValueError "Hidden dimension must not be less than input dimension.")
  else Ok (shift dim i).

Example iaf_flow_of_129_coordinates :
  NormalizingFlowDensity.init shift_flow shift_flow iaf 129 2 "iaf_flow"
  = Raise (ValueError "Hidden dimension must not be less than input dimension.")
  /\ is_ok (NormalizingFlowDensity.init shift_flow shift_flow iaf 129 2
              "planar_flow") = true
  /\ is_ok (NormalizingFlowDensity.init shift_flow shift_flow iaf 128 2
              "iaf_flow") = true.
Proof. repeat split; vm_compute; reflexivity. Qed.

(** Configurations are the modules themselves, which the builders hand
    back. *)
Definition make_head
    (loss_decode : NfBllBaseDecodeHead.loss_config
                     (NfBllBaseDecodeHead.LossModule (list Z) unit Z))
    (sampler : option (NfBllBaseDecodeHead.PixelSampler (list Z) unit Z))
  : result (NfBllBaseDecodeHead.t Z (list Z) unit Z) :=
  NfBllBaseDecodeHead.init Z (list Z) unit Z shift_flow shift_flow iaf
    (NfBllBaseDecodeHead.LossModule (list Z) unit Z)
    (NfBllBaseDecodeHead.PixelSampler (list Z) unit Z) Ok Ok
    (HeadInputs.PyInt 1) (HeadInputs.PyInt (-1)) None
    1 2 None (Some 255%Z) false loss_decode sampler weight0 bias0
    "planar_flow" 2 10.

(** The head [__init__] builds (see [head0_init]). *)
Definition head_with
    (loss_decode : NfBllBaseDecodeHead.LossDecode (list Z) unit Z)
    (sampler : option (NfBllBaseDecodeHead.PixelSampler (list Z) unit Z))
  : NfBllBaseDecodeHead.t Z (list Z) unit Z :=
  NfBllBaseDecodeHead.mk Z (list Z) unit Z
    (HeadInputs.mk None (HeadInputs.PyInt (-1)) (HeadInputs.PyInt 1))
    1 2 None (Some 255%Z) false loss_decode sampler weight0 bias0 4
    "planar_flow" 2 10 1
    (NormalizingFlowDensity.mk 4 2 "planar_flow" (zeros 4) (eye 4)
       [shift 4 0; shift 4 1] None)
    [2; 1; 1; 1] [2] 2 2 [3; 4; 1; 2]%Z.

Definition head0 : NfBllBaseDecodeHead.t Z (list Z) unit Z :=
  head_with (NfBllBaseDecodeHead.ModuleList (list Z) unit Z [loss_edl; loss_ce]) None.

Lemma head0_init :
  make_head (NfBllBaseDecodeHead.LossSeq _ [loss_edl; loss_ce]) None
  = Ok head0.
Proof. reflexivity. Qed.

Lemma head_with_consistent loss_decode sampler :
  NfBllBaseDecodeHead.consistent Z (list Z) unit Z (head_with loss_decode sampler).
Proof. unfold NfBllBaseDecodeHead.consistent. simpl. repeat split; lia. Qed.

(** Two sampled classifiers on a batch of two features: four logits. *)
Example conv_seg_forward_two_samples :
  NfBllBaseDecodeHead.conv_seg_forward Z (list Z) unit Z conv2d_sample head0
    [10; 20]%Z [[1; 0; 0; 0]; [0; 1; 5; 5]]%Z
  = Ok [[10; 0]; [20; 0]; [5; 15]; [5; 25]]%Z.
Proof. reflexivity. Qed.

Lemma conv_seg_forward_batch_witness :
  (exists out,
      NfBllBaseDecodeHead.conv_seg_forward Z (list Z) unit Z conv2d_sample head0
        [10; 20]%Z [[1; 0; 0; 0]; [0; 1; 5; 5]]%Z = Ok out
      /\ out = concat (map (fun row =>
                  NfBllBaseDecodeHead.F_conv2d Z (list Z) conv2d_sample [10; 20]%Z
                    (NfBllBaseDecodeHead.row_weight Z (list Z) unit Z head0 row)
                    (NfBllBaseDecodeHead.row_bias Z (list Z) unit Z head0 row))
                [[1; 0; 0; 0]; [0; 1; 5; 5]]%Z)
      /\ length out = 2 * 2)
  /\ (forall row, [[1; 0; 0; 0]; [0; 1; 5; 5]]%Z = [row] ->
        NfBllBaseDecodeHead.conv_seg_forward Z (list Z) unit Z conv2d_sample head0
          [10; 20]%Z [[1; 0; 0; 0]; [0; 1; 5; 5]]%Z
        = Ok (NfBllBaseDecodeHead.F_conv2d Z (list Z) conv2d_sample [10; 20]%Z
                (NfBllBaseDecodeHead.row_weight Z (list Z) unit Z head0 row)
                (NfBllBaseDecodeHead.row_bias Z (list Z) unit Z head0 row)))
  /\ NfBllBaseDecodeHead.conv_seg_forward Z (list Z) unit Z conv2d_sample head0
       [10; 20]%Z [[3; 4; 1; 2]%Z]
     = Ok (NfBllBaseDecodeHead.conv_seg Z (list Z) unit Z conv2d_sample head0
             [10; 20]%Z).
Proof.
  apply (NfBllBaseDecodeHead.conv_seg_forward_batch Z (list Z) unit Z
           conv2d_sample head0 [10; 20]%Z [[1; 0; 0; 0]; [0; 1; 5; 5]]%Z).
  - unfold NfBllBaseDecodeHead.consistent. simpl. repeat split; lia.
  - discriminate.
  - repeat constructor.
Defined.

(** The collaborators of the loss side, as simple as can be. *)
Definition run_losses (self : NfBllBaseDecodeHead.t Z (list Z) unit Z)
    (sum_log_jacobians : Z) :=
  @NfBllBaseDecodeHead.losses Z_backend Z (list Z) unit Z
    (fun l _ _ => l) (fun lb _ => lb) (fun _ _ _ => 100%Z) (fun _ => 1)
    (fun a => a) (fun a => a) self [] tt sum_log_jacobians [].

Definition loss0 : gmap string Z :=
  <["loss_ce" := 6%Z]> (<["mean_jacobian_logdet" := 5%Z]>
    (<["mean_ev_sum" := 3%Z]> (<["loss_edl" := 12%Z]>
      (<["acc_seg" := 100%Z]> ∅)))).

Example run_losses_head0 :
  run_losses head0 5%Z = ([(loss_edl, None); (loss_ce, None)], Ok loss0).
Proof. reflexivity. Qed.

Lemma losses_jacobian_term_witness :
  (forall l, l ∈ [loss_edl; loss_ce] ->
     NfBllBaseDecodeHead.is_edl (NfBllBaseDecodeHead.loss_name _ _ _ l) = true ->
     loss0 !! NfBllBaseDecodeHead.loss_name _ _ _ l
     = Some (NfBllBaseDecodeHead.loss_call _ _ _ l [] tt None (Some 255%Z) + 5)%Z)
  /\ loss0 !! "mean_jacobian_logdet" = Some 5%Z.
Proof.
  apply (@NfBllBaseDecodeHead.losses_jacobian_term Z_backend Z (list Z) unit Z
           (fun l _ _ => l) (fun lb _ => lb) (fun _ _ _ => 100%Z) (fun _ => 1)
           (fun a => a) (fun a => a) head0 [] tt 5%Z
           [(loss_edl, None); (loss_ce, None)] loss0).
  - reflexivity.
  - intros l l' f Hl Hl' Hf. simpl in Hl, Hl'.
    apply elem_of_cons in Hl' as [->|Hl'].
    + simpl in Hf. injection Hf as <-.
      apply elem_of_cons in Hl as [->|Hl]; [reflexivity|].
      apply list_elem_of_singleton in Hl as ->. reflexivity.
    + apply list_elem_of_singleton in Hl' as ->. discriminate Hf.
  - intros l Hl. simpl in Hl.
    apply elem_of_cons in Hl as [->|Hl]; [discriminate|].
    apply list_elem_of_singleton in Hl as ->. discriminate.
Defined.

(** A head with a pixel sampler and the evidential loss listed twice. *)
Definition head1 : NfBllBaseDecodeHead.t Z (list Z) unit Z :=
  head_with (NfBllBaseDecodeHead.ModuleList (list Z) unit Z [loss_edl; loss_edl])
    (Some sampler0).

Example run_losses_head1 :
  (run_losses head1 5%Z).1 = [(loss_edl, None); (loss_edl, Some 9%Z)]
  /\ (run_losses head1 5%Z).2 = Raise NotImplementedError.
Proof. split; reflexivity. Qed.

(** With a sampler and the evidential loss listed once, the weight is
    drawn and not used: the call returns the unweighted loss. *)
Example run_losses_sampler_single_edl :
  run_losses
    (head_with (NfBllBaseDecodeHead.SingleLoss (list Z) unit Z loss_edl)
       (Some sampler0)) 5%Z
  = ([(loss_edl, None)],
     Ok (<["mean_jacobian_logdet" := 5%Z]> (<["mean_ev_sum" := 3%Z]>
          (<["loss_edl" := 12%Z]> (<["acc_seg" := 100%Z]> ∅))))).
Proof. reflexivity. Qed.




(** New parameters for [conv_seg], as a checkpoint brings them. *)
Definition weight1 : tensor := mk_tensor [2; 1; 1; 1] [5; 6]%Z.
Definition bias1 : tensor := mk_tensor [2] [7; 8]%Z.

Definition head_loaded : NfBllBaseDecodeHead.t Z (list Z) unit Z :=
  NfBllBaseDecodeHead.update_z0_params _ _ _ _
    (NfBllBaseDecodeHead.load_conv_seg _ _ _ _ head0 weight1 bias1).

(** C3 (what the code does): on the head built by [__init__], after the
    parameters of [conv_seg] are replaced and [update_z0_params] is
    called, [initial_p] and the attribute [mean] of the density hold the
    new parameters, but [log_prob] scores and [sample_base] draws under
    the Gaussian of [z0_mean], which is still the zero vector. *)
Theorem base_mean_stays_zero
    (mvn_log_prob : NormalizingFlowDensity.MultivariateNormal ->
                    NormalizingFlowDensity.batch -> Z)
    (Rng : Type)
    (mvn_sample : NormalizingFlowDensity.MultivariateNormal -> nat -> Rng ->
                  NormalizingFlowDensity.batch)
    (x : NormalizingFlowDensity.batch) (n : nat) (g : Rng) :
  let density := NfBllBaseDecodeHead.density_estimation _ _ _ _ head_loaded in
  let zero_mean := NormalizingFlowDensity.mk_mvn [0; 0; 0; 0]%Z (eye 4) in
  NfBllBaseDecodeHead.initial_p _ _ _ _ head_loaded = [5; 6; 7; 8]%Z
  /\ NormalizingFlowDensity.mean density = Some [5; 6; 7; 8]%Z
  /\ NormalizingFlowDensity.log_prob mvn_log_prob density x
     = (mvn_log_prob zero_mean (NormalizingFlowDensity.forward density x).1
        + (NormalizingFlowDensity.forward density x).2)%Z
  /\ NormalizingFlowDensity.sample_base Rng mvn_sample density n g
     = mvn_sample zero_mean n g.
Proof.
  intros density zero_mean. repeat split; reflexivity.
Qed.

(** A density of one shift, and the density of two it chains into. *)
Definition density_one : NormalizingFlowDensity.t :=
  NormalizingFlowDensity.mk 2 1 "planar_flow" (zeros 2) (eye 2)
    [shift 2 0] None.

Definition density_two : NormalizingFlowDensity.t :=
  NormalizingFlowDensity.mk 2 2 "planar_flow" (zeros 2) (eye 2)
    [shift 2 0; shift 2 1] None.

Lemma forward_of_joined_chains_witness :
  (NormalizingFlowDensity.forward density_two [[0; 5]]%Z).1
  = (NormalizingFlowDensity.forward density_one
       (NormalizingFlowDensity.forward density_one [[0; 5]]%Z).1).1
  /\ (NormalizingFlowDensity.forward density_two [[0; 5]]%Z).2
     = foldl Z.add (NormalizingFlowDensity.forward density_one [[0; 5]]%Z).2
         (NormalizingFlowDensity.jacobian_terms
            (NormalizingFlowDensity.transforms density_one)
            (NormalizingFlowDensity.forward density_one [[0; 5]]%Z).1).
Proof.
  apply (NormalizingFlowDensity.forward_of_joined_chains
           density_one density_one density_two [[0; 5]]%Z).
  reflexivity.
Defined.

Lemma conv_seg_forward_row_lengths_witness :
  (is_ok (NfBllBaseDecodeHead.conv_seg_forward Z (list Z) unit Z conv2d_sample
            head0 [10; 20]%Z [[1; 0; 0; 0]; [0; 1; 5; 5]]%Z) = true
   <-> [[1; 0; 0; 0]; [0; 1; 5; 5]]%Z <> []
       /\ Forall (fun row : list Z =>
                    2 <= length row /\ 2 <= length row /\ length row <> 1)
                 [[1; 0; 0; 0]; [0; 1; 5; 5]]%Z)
  /\ (forall out,
        NfBllBaseDecodeHead.conv_seg_forward Z (list Z) unit Z conv2d_sample
          head0 [10; 20]%Z [[1; 0; 0; 0]; [0; 1; 5; 5]]%Z = Ok out ->
        out = concat (map (fun row : list Z =>
                NfBllBaseDecodeHead.F_conv2d Z (list Z) conv2d_sample
                  [10; 20]%Z
                  (mk_tensor [2; 1; 1; 1] (take 2 row))
                  (mk_tensor [2] (slice_last 2 row)))
              [[1; 0; 0; 0]; [0; 1; 5; 5]]%Z)
        /\ length out = 2 * 2).
Proof.
  apply (NfBllBaseDecodeHead.conv_seg_forward_row_lengths Z (list Z) unit Z
           conv2d_sample head0 [10; 20]%Z [[1; 0; 0; 0]; [0; 1; 5; 5]]%Z).
  apply head_with_consistent.
Defined.

(** A head with the cross-entropy loss alone. *)
Definition head_ce : NfBllBaseDecodeHead.t Z (list Z) unit Z :=
  head_with (NfBllBaseDecodeHead.SingleLoss (list Z) unit Z loss_ce) None.

Definition loss_plain : gmap string Z :=
  <["loss_ce" := 6%Z]> (<["acc_seg" := 100%Z]> ∅).

Lemma losses_keys_without_edl_witness :
  dom loss_plain = ({["acc_seg"]} ∪ list_to_set ["loss_ce"] : gset string)
  /\ ((forall l, l ∈ [loss_ce] ->
         NfBllBaseDecodeHead.loss_name _ _ _ l <> "acc_seg") ->
      loss_plain !! "acc_seg" = Some 100%Z).
Proof.
  apply (@NfBllBaseDecodeHead.losses_keys_without_edl Z_backend Z (list Z)
           unit Z (fun l _ _ => l) (fun lb _ => lb) (fun _ _ _ => 100%Z)
           (fun _ => 1) (fun a => a) (fun a => a) head_ce [] tt 5%Z
           [(loss_ce, None)] loss_plain).
  - reflexivity.
  - reflexivity.
Defined.

(** A head with the cross-entropy loss listed twice, and a sampler. *)
Definition head_ce_twice : NfBllBaseDecodeHead.t Z (list Z) unit Z :=
  head_with (NfBllBaseDecodeHead.ModuleList (list Z) unit Z [loss_ce; loss_ce])
    (Some sampler0).

Lemma losses_shared_name_witness :
  exists d : gmap string Z,
    run_losses head_ce_twice 5%Z
    = ([(loss_ce, None); (loss_ce, Some 9%Z)], Ok d)
    /\ d !! "loss_ce" = Some (1 + 5 + 9)%Z
    /\ d !! "acc_seg" = Some 100%Z
    /\ dom d = ({["acc_seg"; "loss_ce"]} : gset string).
Proof.
  apply (@NfBllBaseDecodeHead.losses_shared_name Z_backend Z (list Z)
           unit Z (fun l _ _ => l) (fun lb _ => lb) (fun _ _ _ => 100%Z)
           (fun _ => 1) (fun a => a) (fun a => a) head_ce_twice [] tt 5%Z
           loss_ce loss_ce).
  - reflexivity.
  - reflexivity.
  - reflexivity.
  - discriminate.
Defined.

Lemma losses_edl_names_distinct_witness :
  is_ok (run_losses head0 5%Z).2 = true /\ 0 = 0.
Proof.
  split; [reflexivity|].
  apply (@NfBllBaseDecodeHead.losses_edl_names_distinct Z_backend Z (list Z)
           unit Z (fun l _ _ => l) (fun lb _ => lb) (fun _ _ _ => 100%Z)
           (fun _ => 1) (fun a => a) (fun a => a) head0 [] tt 5%Z 0 0
           loss_edl loss_edl); reflexivity.
Defined.

End HeadInstance.

(** ** A small evaluation run

    A dataset whose samples are their own indices: the collated input of
    a batch is the list of its indices, and the model predicts [100 + i]
    for the sample [i]. *)

Module TestInstance.

Definition metas (data : list nat) : list Test.ImgMeta :=
  map (fun _ => Test.mk_meta (2, 2, 3) (2, 2, 3) "img.png") data.

Definition osp_join0 (a b : string) : string :=
  String.append a (String.append "/" b).

Definition tmp_name0 (dir : string) (n : nat) : string :=
  String.append dir
    (String.append "/tmp" (String (Ascii.ascii_of_nat (48 + n)) ".npy")).

Definition edl_head : Test.DecodeHead unit :=
  Test.mk_decode_head unit false tt
    (Test.SingleLoss (Test.mk_loss_attrs "loss_edl" false false)).

Definition model0 : Test.Model nat unit (list nat) unit :=
  Test.mk_model nat unit (list nat) unit true (Test.Segmentor unit edl_head)
    (fun data _ => (map (Nat.add 100) data, tt)).

(** [pre_eval] returns the dataset index as the pre-result of a sample,
    [pre_eval_custom] the mode it was asked for. *)
Definition dataset0 (len : nat)
  : Test.Dataset nat unit unit nat nat string unit unit :=
  Test.mk_dataset nat unit unit nat nat string unit unit len
    (fun _ => tt) (fun _ indices _ => indices) (fun _ indices => indices)
    (fun _ _ mode _ => mode) false.

Definition loader0 (bs : option nat) (len : nat)
    (batches : list (list nat * list nat))
  : Test.DataLoader nat unit unit (list nat) nat nat string unit unit :=
  Test.mk_loader nat unit unit (list nat) nat nat string unit unit
    bs (dataset0 len) batches.

Definition world0 : Test.World (list nat) := Test.mk_world (list nat) ∅ [] [].

Definition single :=
  Test.single_gpu_test nat unit unit (list nat) nat nat string unit unit
    metas length osp_join0 tmp_name0.

Definition multi :=
  Test.multi_gpu_test nat unit unit (list nat) nat nat string unit unit
    tmp_name0.

Lemma conflicting_modes_rejected_witness :
  single model0 (loader0 (Some 1) 1 [([0], [0])]) false None true true false tt
    world0
  = (Test.after_check (list nat) true world0,
     Raise (AssertionError exclusive_msg))
  /\ multi model0 (loader0 (Some 1) 1 [([0], [0])]) None false true true false tt
       0 1 [[]] world0
     = (Test.after_check (list nat) true world0,
        Raise (AssertionError exclusive_msg)).
Proof.
  apply (Test.conflicting_modes_rejected nat unit unit (list nat) nat nat
           string unit unit metas length osp_join0 tmp_name0 model0
           (loader0 (Some 1) 1 [([0], [0])]) false None None false
           true true false tt 0 1 [[]] world0).
  vm_compute. lia.
Defined.

(** With [efficient_test] among two flags set, both entry points reject
    the call, yet after it the directory [.efficient_test] exists, which
    it did not before. *)
Lemma conflicting_modes_make_directory :
  let s := single model0 (loader0 (Some 1) 1 [([0], [0])]) false None
             true true false tt world0 in
  let m := multi model0 (loader0 (Some 1) 1 [([0], [0])]) None false
             true true false tt 0 1 [[]] world0 in
  s.2 = Raise (AssertionError exclusive_msg)
  /\ m.2 = Raise (AssertionError exclusive_msg)
  /\ Test.dirs _ world0 = ∅
  /\ Test.dirs _ s.1 = {[".efficient_test"]}
  /\ Test.dirs _ m.1 = {[".efficient_test"]}
  /\ s.1 <> world0 /\ m.1 <> world0.
Proof.
  repeat split; try reflexivity.
  - intros Heq. apply (f_equal (Test.log _)) in Heq. discriminate Heq.
  - intros Heq. apply (f_equal (Test.log _)) in Heq. discriminate Heq.
Qed.

(** C9 (what the code does): on a loader of batch size two that yields
    one batch of two samples, [single_gpu_test] raises its assertion
    before the model is run, while [multi_gpu_test] runs the model on
    the batch and returns its two predictions. *)
Theorem multi_gpu_test_accepts_batch_size_two :
  let data_loader := loader0 (Some 2) 2 [([0; 1], [0; 1])] in
  single model0 data_loader false None false false false tt world0
  = (Test.mk_world _ ∅ [] [Test.ModelEval _],
     Raise (AssertionError "TEST SCRIPT ONLY WORKS WITH BATCH SIZE=1"))
  /\ multi model0 data_loader None false false false false tt 0 1 [[]] world0
     = (Test.mk_world _ ∅ []
          [Test.ModelEval _; Test.ProgressBar _ 2;
           Test.ModelCall _ [0; 1] true;
           Test.ProgressUpdate _; Test.ProgressUpdate _],
        Ok (Some [Test.Raw _ _ _ _ 100; Test.Raw _ _ _ _ 101])).
Proof. split; reflexivity. Qed.

(** Showing one sample with no output directory. *)
Example show_without_out_dir_run :
  single model0 (loader0 (Some 1) 1 [([0], [0])]) true None false false false tt
    world0
  = (Test.mk_world _ ∅ []
       [Test.ModelEval _; Test.ProgressBar _ 1; Test.ModelCall _ [0] false;
        Test.ShowResult _ Test.Prediction true None],
     Raise (TypeError "'NoneType' object is not subscriptable")).
Proof. reflexivity. Qed.

(** With an output directory the same call draws every picture and
    returns. *)
Example show_with_out_dir_run :
  single model0 (loader0 (Some 1) 1 [([0], [0])]) true (Some "out") false false
    false tt world0
  = (Test.mk_world _ ∅ []
       [Test.ModelEval _; Test.ProgressBar _ 1; Test.ModelCall _ [0] false;
        Test.ShowResult _ Test.Prediction true (Some "out/img.png");
        Test.ShowResult _ Test.GroundTruth true (Some "out/img_gt.png");
        Test.Plot _ Test.EdlU "out/img_edl_u.png";
        Test.Plot _ Test.EdlDiss "out/img_edl_diss.png";
        Test.Plot _ Test.EdlConf "out/img_edl_conf.png";
        Test.Plot _ Test.EdgeMask "out/img_edge_mask.png";
        Test.ProgressUpdate _],
     Ok [Test.Raw _ _ _ _ 100]).
Proof. reflexivity. Qed.

Lemma show_without_out_dir_raises_witness :
  single model0 (loader0 (Some 1) 1 [([0], [0])]) true None false false false tt
    world0
  = (Test.logged _ (Test.after_check _ false world0)
       [Test.ModelEval _; Test.ProgressBar _ 1; Test.ModelCall _ [0] false;
        Test.ShowResult _ Test.Prediction true None],
     Raise Test.none_type_error)
  /\ (forall out_dir,
        is_ok (single model0 (loader0 (Some 1) 1 [([0], [0])]) true out_dir
                 false false false tt world0).2 = true ->
        truthy out_dir = true).
Proof.
  apply (Test.show_without_out_dir_raises nat unit unit (list nat) nat nat
           string unit unit metas length osp_join0 tmp_name0 model0
           (loader0 (Some 1) 1 [([0], [0])]) false false false tt [0] world0).
  - vm_compute. lia.
  - reflexivity.
  - unfold Test.first_batch_shows. simpl. repeat split; try discriminate.
    exists [0], []. split; [reflexivity|discriminate].
Defined.

(** Two processes on a dataset of three samples, in [pre_eval] mode: the
    second batch of the process of rank 1 is padding (the sampler wraps
    around to the sample 0). *)
Definition batches_of (r : nat) : list (list nat * list nat) :=
  match r with
  | 0 => [([0], [0]); ([2], [2])]
  | 1 => [([1], [1]); ([0], [0])]
  | _ => []
  end.

Definition loop_of (r : nat) :=
  Test.multi_gpu_loop nat unit unit (list nat) nat nat string unit unit
    tmp_name0 model0 (loader0 (Some 1) 3 (batches_of r)) r 2 false true false tt
    world0.

Definition part_of (r : nat) : list (Test.entry nat nat nat string) :=
  Test.local_part nat unit unit (list nat) nat nat string unit unit
    tmp_name0 model0 (loader0 (Some 1) 3 (batches_of r)) r 2 false true false tt
    world0.

Definition coordinator (peers : list (list (Test.entry nat nat nat string))) :=
  multi model0 (loader0 (Some 1) 3 (batches_of 0)) None false false true false tt
    0 2 peers world0.

Example parts_of_two_processes :
  part_of 0 = [Test.PreEval _ _ _ _ 0 "edl"; Test.PreEval _ _ _ _ 2 "edl"]
  /\ part_of 1 = [Test.PreEval _ _ _ _ 1 "edl"; Test.PreEval _ _ _ _ 0 "edl"]
  /\ (coordinator [[]; part_of 1]).2
     = Ok (Some [Test.PreEval _ _ _ _ 0 "edl"; Test.PreEval _ _ _ _ 1 "edl";
                 Test.PreEval _ _ _ _ 2 "edl"]).
Proof. repeat split; reflexivity. Qed.

(** The process of rank 1 hands over its first entry only: the entry of
    the sample 2, which the coordinator itself has computed, is lost
    with it, and the call returns the two entries left, without an
    error. *)
Lemma short_part_returns_short_list :
  part_of 0 = [Test.PreEval _ _ _ _ 0 "edl"; Test.PreEval _ _ _ _ 2 "edl"]
  /\ Test.ds_len _ _ _ _ _ _ _ _ (dataset0 3) = 3
  /\ (coordinator [[]; [Test.PreEval _ _ _ _ 1 "edl"]]).2
     = Ok (Some [Test.PreEval _ _ _ _ 0 "edl"; Test.PreEval _ _ _ _ 1 "edl"])
  /\ is_ok (coordinator [[]; [Test.PreEval _ _ _ _ 1 "edl"]]).2 = true.
Proof. repeat split; reflexivity. Qed.

Lemma multi_gpu_test_round_robin_witness :
  (forall r, r < 2 -> (loop_of r).2 = Ok (part_of r))
  /\ (forall peers,
        (forall r, 0 < r < 2 -> peers !! r = Some (part_of r)) ->
        exists w' l,
          coordinator peers = (w', Ok (Some l))
          /\ length l = 3
          /\ forall i, i < 3 ->
               is_Some (l !! i)
               /\ l !! i
                  = Test.head_entry _ _ _ _
                      (Test.batch_entries nat unit unit (list nat) nat nat
                         string unit unit tmp_name0 model0 (dataset0 3) false
                         true false tt
                         (Test.tmp_count false 0 (i / 2)) ([i], [i])))
  /\ (forall r peers, 0 < r < 2 ->
        (multi model0 (loader0 (Some 1) 3 (batches_of r)) None false false true
           false tt r 2 peers world0).2 = Ok None)
  /\ (forall peers,
        exists l,
          (coordinator peers).2 = Ok (Some l)
          /\ length l <= 3
          /\ forall r short, 0 < r < 2 ->
               peers !! r = Some short -> short <> [] ->
               length l <= 2 * length short).
Proof.
  apply (Test.multi_gpu_test_round_robin nat unit unit (list nat) nat nat
           string unit unit tmp_name0 model0 (dataset0 3) (Some 1) batches_of
           (fun _ => world0) (fun i => [i]) 2 2 None false false true false tt).
  - lia.
  - vm_compute. lia.
  - intros r j b Hr Hj.
    destruct r as [|[|r]]; [| |lia];
      (destruct j as [|[|j]]; [| |discriminate Hj]);
      simpl in Hj; injection Hj as <-; eexists; reflexivity.
  - intros r Hr. destruct r as [|[|r]]; [reflexivity|reflexivity|lia].
  - simpl. lia.
  - intros i Hi. simpl in Hi.
    destruct i as [|[|[|i]]]; [reflexivity|reflexivity|reflexivity|lia].
Defined.

Lemma single_gpu_test_rejects_batch_size_witness :
  single model0 (loader0 (Some 2) 2 [([0; 1], [0; 1])]) false None
    false true false tt world0
  = (Test.mk_world _ ∅ [] [Test.ModelEval _],
     Raise (AssertionError "TEST SCRIPT ONLY WORKS WITH BATCH SIZE=1")).
Proof.
  apply (Test.single_gpu_test_rejects_batch_size nat unit unit (list nat) nat
           nat string unit unit metas length osp_join0 tmp_name0 model0
           (loader0 (Some 2) 2 [([0; 1], [0; 1])]) false None
           false true false tt world0).
  - vm_compute. lia.
  - discriminate.
Defined.

Lemma empty_loader_runs_witness :
  (Some 1 = Some 1 ->
   single model0 (loader0 (Some 1) 0 []) false None false false true tt world0
   = (Test.mk_world _ ∅ [] [Test.ModelEval _; Test.ProgressBar _ 0], Ok []))
  /\ Test.multi_gpu_loop nat unit unit (list nat) nat nat string unit unit
       tmp_name0 model0 (loader0 (Some 1) 0 []) 1 2 false false true tt world0
     = (Test.mk_world _ ∅ [] [Test.ModelEval _], Ok []).
Proof.
  apply (Test.empty_loader_runs nat unit unit (list nat) nat nat string unit
           unit metas length osp_join0 tmp_name0 model0
           (loader0 (Some 1) 0 []) false None false false true tt 1 2 world0).
  - vm_compute. lia.
  - reflexivity.
Defined.

Lemma single_gpu_test_plain_witness :
  single model0 (loader0 (Some 1) 2 [([0], [0]); ([1], [1])]) false None
    false false false tt world0
  = (Test.mk_world _ ∅ []
       [Test.ModelEval _; Test.ProgressBar _ 2;
        Test.ModelCall _ [0] false; Test.ProgressUpdate _;
        Test.ModelCall _ [1] false; Test.ProgressUpdate _],
     Ok [Test.Raw _ _ _ _ 100; Test.Raw _ _ _ _ 101]).
Proof.
  apply (Test.single_gpu_test_plain nat unit unit (list nat) nat nat string
           unit unit metas length osp_join0 tmp_name0 model0
           (loader0 (Some 1) 2 [([0], [0]); ([1], [1])]) None tt world0).
  - reflexivity.
  - reflexivity.
  - repeat constructor; discriminate.
Defined.

Lemma single_gpu_test_spills_witness :
  (single model0 (loader0 (Some 1) 2 [([0], [0]); ([1], [1])]) false None
     true false false tt world0).2
  = Ok [Test.Saved _ _ _ _ ".efficient_test/tmp0.npy";
        Test.Saved _ _ _ _ ".efficient_test/tmp1.npy"]
  /\ Test.tmp_files _
       (single model0 (loader0 (Some 1) 2 [([0], [0]); ([1], [1])]) false None
          true false false tt world0).1
     = [] ++ [".efficient_test/tmp0.npy"; ".efficient_test/tmp1.npy"]
  /\ Test.dirs _
       (single model0 (loader0 (Some 1) 2 [([0], [0]); ([1], [1])]) false None
          true false false tt world0).1
     = {[".efficient_test"]} ∪ ∅
  /\ length [".efficient_test/tmp0.npy"; ".efficient_test/tmp1.npy"] = 2.
Proof.
  apply (Test.single_gpu_test_spills nat unit unit (list nat) nat nat string
           unit unit metas length osp_join0 tmp_name0 model0
           (loader0 (Some 1) 2 [([0], [0]); ([1], [1])]) None tt world0).
  - reflexivity.
  - reflexivity.
  - repeat constructor; discriminate.
Defined.

Lemma multi_gpu_loop_pre_eval_witness :
  exists w' es,
    loop_of 0 = (w', Ok es)
    /\ length es = 2
    /\ forall j (b : list nat * list nat), batches_of 0 !! j = Some b ->
         exists idx seg,
           head b.1 = Some idx
           /\ head b.1 = Some seg
           /\ es !! j = Some (Test.PreEval _ _ _ _ seg "edl").
Proof.
  apply (Test.multi_gpu_loop_pre_eval nat unit unit (list nat) nat nat string
           unit unit tmp_name0 model0 (loader0 (Some 1) 3 (batches_of 0))
           0 2 tt world0).
  repeat constructor; discriminate.
Defined.

(** A model that is not wrapped, with a head that uses bags. *)
Definition bag_head : Test.DecodeHead unit :=
  Test.mk_decode_head unit true tt
    (Test.SingleLoss (Test.mk_loss_attrs "loss_ce" false false)).

Definition model_bare : Test.Model nat unit (list nat) unit :=
  Test.mk_model nat unit (list nat) unit false (Test.Segmentor unit bag_head)
    (fun data _ => (map (Nat.add 100) data, tt)).

Lemma bag_head_without_wrapper_witness :
  (Test.single_gpu_body nat unit unit (list nat) nat nat string unit unit
     metas length osp_join0 tmp_name0 model_bare (dataset0 1) false None
     false true false tt [] ([0], [0]) world0).2
  = Raise (AttributeError "module")
  /\ exists e,
       (Test.multi_gpu_body nat unit unit (list nat) nat nat string unit unit
          tmp_name0 model_bare (dataset0 1) 0 1 false true false tt []
          ([0], [0]) world0).2 = Ok ([] ++ [e]).
Proof.
  apply (Test.bag_head_without_wrapper nat unit unit (list nat) nat nat string
           unit unit metas length osp_join0 tmp_name0 model_bare (dataset0 1)
           None tt 0 1 [] ([0], [0]) world0);
    try reflexivity; discriminate.
Defined.

Lemma multi_gpu_test_quiet_rank_witness :
  exists k,
    Test.log _
      (multi model0 (loader0 (Some 1) 3 (batches_of 1)) None false
         false true false tt 1 2 [[]; []] world0).1
    = [] ++ Test.ModelEval _
            :: map (fun b : list nat * list nat => Test.ModelCall _ b.2 true)
                 (take k (batches_of 1)).
Proof.
  apply (Test.multi_gpu_test_quiet_rank nat unit unit (list nat) nat nat string
           unit unit tmp_name0 model0 (loader0 (Some 1) 3 (batches_of 1))
           None false false true false tt 1 2 [[]; []] world0).
  discriminate.
Defined.

Lemma tagged_names_witness :
  Test.tagged (Some "out/img.png") "_gt" world0
  = (world0, Ok "out/img_gt.png")
  /\ Test.tagged (Some "a") "_gt" world0 = (world0, Ok "_gta")
  /\ Test.tagged None "_gt" world0 = (world0, Raise Test.none_type_error).
Proof.
  apply (Test.tagged_names (list nat) "out/img" ".png" "a" "_gt" world0).
  - reflexivity.
  - reflexivity.
  - simpl. lia.
Defined.

(** A name whose last four characters hold one of two bytes. *)
Example tagged_name_with_accent :
  Test.tagged (Some "out/abcdé") "_gt" world0 = (world0, Ok "out/a_gtbcdé")
  /\ length (chars "bcdé") = 4 /\ String.length "bcdé" = 5.
Proof. repeat split. Qed.

Lemma drawing_without_wrapper_witness :
  single model_bare (loader0 (Some 1) 1 [([0], [0])]) true None
    false false false tt world0
  = (Test.mk_world _ ∅ []
       [Test.ModelEval _; Test.ProgressBar _ 1; Test.ModelCall _ [0] false],
     Raise (AttributeError "module")).
Proof.
  apply (Test.drawing_without_wrapper nat unit unit (list nat) nat nat string
           unit unit metas length osp_join0 tmp_name0 model_bare
           (loader0 (Some 1) 1 [([0], [0])]) true None false false false tt
           [0] [0] [] world0);
    try reflexivity; try discriminate.
  vm_compute. lia.
Defined.

End TestInstance.

(** ** A head configuration and feature maps as numbers *)

Module HeadInputsInstance.

(** Resizing keeps the map, concatenation adds the maps up. *)
Definition resize0 (x first : nat) (align_corners : bool) : nat := x.
Definition cat0 (xs : list nat) : nat := foldr Nat.add 0 xs.

Definition config : HeadInputs.t :=
  HeadInputs.mk (Some "resize_concat") (HeadInputs.PySeq [0; -1]%Z)
    (HeadInputs.PyInt 48).

Example init_inputs_config :
  HeadInputs._init_inputs (HeadInputs.PySeq [16; 32]%Z)
    (HeadInputs.PySeq [0; -1]%Z) (Some "resize_concat") = Ok config.
Proof. reflexivity. Qed.

Example transform_inputs_config :
  HeadInputs._transform_inputs nat resize0 cat0 config false [7; 8; 9]
  = Ok (HeadInputs.One nat 16).
Proof. reflexivity. Qed.

Lemma transform_inputs_after_init_witness :
  Forall (HeadInputs.in_range [7; 8; 9]) [0; -1]%Z
  /\ (Some "resize_concat" = Some "resize_concat" -> [0; -1]%Z <> []).
Proof.
  exact (HeadInputs.transform_inputs_after_init nat resize0 cat0
           (HeadInputs.PySeq [16; 32]%Z) (HeadInputs.PySeq [0; -1]%Z)
           (Some "resize_concat") config false [7; 8; 9] eq_refl).
Defined.

End HeadInputsInstance.

(** ** A logger hook and runners with numbers in [Z] *)

Module LoggerInstance.

#[local] Open Scope Z_scope.

Definition hook0 : LoggerHook_.t := LoggerHook_.__init__ 10 true false true.

Definition skip0 : list string := ["time"; "data_time"].

(** A training runner in the middle of an epoch. *)
Definition runner_train : LoggerHook_.Runner Z :=
  LoggerHook_.mk_runner Z "train" 3 100 7
    [("time", LoggerHook_.Number Z 1); ("loss", LoggerHook_.Number Z 5);
     ("note", LoggerHook_.Str Z "hi"); ("img", LoggerHook_.NdArray Z [2; 2]%nat)]
    (LoggerHook_.Groups Z [1; 2])
    (LoggerHook_.PerOptimizer Z [("sgd", [9])]).

Definition tags_train : gmap string (LoggerHook_.logval Z) :=
  <["momentum/sgd" := LoggerHook_.Number Z 9]>
    (<["learning_rate" := LoggerHook_.Number Z 1]>
       (<["train/img" := LoggerHook_.NdArray Z [2; 2]%nat]>
          (<["train/loss" := LoggerHook_.Number Z 5]> ∅))).

Example get_loggable_tags_train :
  LoggerHook_.get_loggable_tags Z hook0 runner_train true false true skip0
  = LoggerHook_.Return tags_train.
Proof. reflexivity. Qed.

Lemma loggable_tags_content_witness :
  tags_train !! "train/loss" = Some (LoggerHook_.Number Z 5)
  /\ tags_train !! "train/time" = None
  /\ tags_train !! "train/note" = None.
Proof.
  assert (Hnd : NoDup (LoggerHook_.output Z runner_train).*1).
  { apply (bool_decide_unpack _). reflexivity. }
  split; [|split].
  - apply (LoggerHook_.loggable_tags_content Z hook0 runner_train true false
             skip0 "train" tags_train Hnd eq_refl eq_refl "loss"
             (LoggerHook_.Number Z 5)).
    apply (list_elem_of_lookup_2 _ 1%nat). reflexivity.
  - apply (LoggerHook_.loggable_tags_content Z hook0 runner_train true false
             skip0 "train" tags_train Hnd eq_refl eq_refl "time"
             (LoggerHook_.Number Z 1)).
    apply (list_elem_of_lookup_2 _ 0%nat). reflexivity.
  - apply (LoggerHook_.loggable_tags_content Z hook0 runner_train true false
             skip0 "train" tags_train Hnd eq_refl eq_refl "note"
             (LoggerHook_.Str Z "hi")).
    apply (list_elem_of_lookup_2 _ 2%nat). reflexivity.
Defined.

(** A runner in a mode of its own. *)
Definition runner_test (output : list (string * LoggerHook_.logval Z))
  : LoggerHook_.Runner Z :=
  LoggerHook_.mk_runner Z "test" 3 100 7 output
    (LoggerHook_.Groups Z [1]) (LoggerHook_.Groups Z [9]).

Lemma unknown_mode_needs_a_kept_variable_witness :
  LoggerHook_.get_loggable_tags Z hook0
    (runner_test [("time", LoggerHook_.Number Z 1);
                  ("loss", LoggerHook_.Number Z 5)])
    true false true skip0
  = LoggerHook_.Raise
      (LoggerHook_.ValueError
         "runner mode should be 'train' or 'val', but got test")
  /\ LoggerHook_.get_loggable_tags Z hook0
       (runner_test [("time", LoggerHook_.Number Z 1)]) true false true skip0
     = LoggerHook_.Return
         (<["momentum" := LoggerHook_.Number Z 9]>
            (<["learning_rate" := LoggerHook_.Number Z 1]> ∅)).
Proof.
  split.
  - apply (LoggerHook_.unknown_mode_needs_a_kept_variable Z hook0
             (runner_test [("time", LoggerHook_.Number Z 1);
                           ("loss", LoggerHook_.Number Z 5)])
             true false skip0).
    + intros [H | H]; discriminate H.
    + reflexivity.
  - apply (LoggerHook_.unknown_mode_needs_a_kept_variable Z hook0
             (runner_test [("time", LoggerHook_.Number Z 1)])
             true false skip0).
    + intros [H | H]; discriminate H.
    + reflexivity.
Defined.

(** A validation runner whose buffer holds a 0-d tensor. *)
Definition runner_val (output : list (string * LoggerHook_.logval Z))
  : LoggerHook_.Runner Z :=
  LoggerHook_.mk_runner Z "val" 4 100 7 output
    (LoggerHook_.Groups Z [1]) (LoggerHook_.Groups Z [9]).

Lemma zero_dim_tensor_raises_witness :
  LoggerHook_.get_loggable_tags Z hook0
    (runner_val [("mIoU", LoggerHook_.Tensor Z [])]) true false true skip0
  = LoggerHook_.Raise (LoggerHook_.TypeError "len() of a 0-d tensor")
  <-> exists var,
        (var, LoggerHook_.Tensor Z []) ∈ [("mIoU", LoggerHook_.Tensor Z [])]
        /\ var ∉ skip0.
Proof.
  apply (LoggerHook_.zero_dim_tensor_raises Z hook0
           (runner_val [("mIoU", LoggerHook_.Tensor Z [])]) true false true
           skip0).
  right. reflexivity.
Defined.

Lemma rates_overwrite_buffer_witness :
  (forall l, LoggerHook_.Groups Z [1] = LoggerHook_.Groups Z l ->
     exists x rest, l = x :: rest
       /\ (<["momentum" := LoggerHook_.Number Z 9]>
             (<["learning_rate" := LoggerHook_.Number Z 1]> ∅)
           : gmap string (LoggerHook_.logval Z)) !! "learning_rate"
          = Some (LoggerHook_.Number Z x))
  /\ (forall l, LoggerHook_.Groups Z [9] = LoggerHook_.Groups Z l ->
     exists y rest, l = y :: rest
       /\ (<["momentum" := LoggerHook_.Number Z 9]>
             (<["learning_rate" := LoggerHook_.Number Z 1]> ∅)
           : gmap string (LoggerHook_.logval Z)) !! "momentum"
          = Some (LoggerHook_.Number Z y)).
Proof.
  apply (LoggerHook_.rates_overwrite_buffer Z hook0
           (runner_val [("learning_rate", LoggerHook_.Number Z 77)])
           true false false skip0).
  reflexivity.
Defined.

End LoggerInstance.
